(** * Order lifecycle and cart consistency of the storefront

    A shallow embedding of the parts of the Django storefront that carry
    the inventory rules: the session cart views of [store/views.py], the
    order model of [store/models.py] with its stock decrement, the staff
    panel views, the routes of [store/urls.py], the admin hook of
    [store/admin.py] and the Andreani shipping client of
    [store/services/shipping.py].

    Python values are modelled as follows.  [int] is [Z]; [str] is
    [string], the bytes of its UTF-8 encoding (so the accented letters of
    the messages take two characters each); the request's [POST] and
    [GET] are [gmap string string]; the session's cart, a [dict] that is
    iterated, is an [odict], which keeps the insertion order; a database
    table is the list of its rows in primary key order; an exception is
    a constructor of [Exc]; a view is a function in the monad [M], which
    threads the database, the session and the flash messages and may
    raise. *)

From Stdlib Require Import ZArith String Ascii List Bool Lia DecimalString.
From stdpp Require Import base option gmap strings list.

Local Open Scope string_scope.
Local Open Scope Z_scope.

(** ** Python primitives *)

Module Py.

(** Exceptions raised by the modelled code, by class. *)
Inductive Exc : Type :=
| ValueError
| NameError (name : string)
| Http404
| DoesNotExist
| MultipleObjectsReturned
| DatabaseError
| ShippingError (msg : string)
| ValidationError (msg : string)
| RequestException (kind : string)
| InvalidOperation
| AttributeError
| IntegrityError
| OverflowError
| NoReverseMatch
| ImportError (name : string).

Inductive Res (A : Type) : Type :=
| Ok (a : A)
| Raise (e : Exc).
Arguments Ok {A} a.
Arguments Raise {A} e.

(** [str(n)] for an [int]. *)
Definition str (n : Z) : string := NilZero.string_of_int (Z.to_int n).

(** The value of a byte. *)
Definition ord (c : ascii) : Z := Z.of_nat (nat_of_ascii c).

(** The characters [str.isspace] accepts below 128. *)
Definition isspace (c : ascii) : bool :=
  ((9 <=? ord c) && (ord c <=? 13)) || ((28 <=? ord c) && (ord c <=? 32)).

(** The white space beyond ASCII, by its bytes: U+0085 and U+00A0 take
    two; U+1680, U+2000 to U+200A, U+2028, U+2029, U+202F, U+205F and
    U+3000 take three. *)
Definition space2 (a b : ascii) : bool :=
  (ord a =? 0xC2) && ((ord b =? 0x85) || (ord b =? 0xA0)).

Definition space3 (a b c : ascii) : bool :=
  ((ord a =? 0xE1) && (ord b =? 0x9A) && (ord c =? 0x80))
  || ((ord a =? 0xE2) && (ord b =? 0x80)
      && (((0x80 <=? ord c) && (ord c <=? 0x8A))
          || (ord c =? 0xA8) || (ord c =? 0xA9) || (ord c =? 0xAF)))
  || ((ord a =? 0xE2) && (ord b =? 0x81) && (ord c =? 0x9F))
  || ((ord a =? 0xE3) && (ord b =? 0x80) && (ord c =? 0x80)).

(** White space removed at the front, a character at a time; [two] and
    [three] recognise the characters of two and of three bytes. *)
Fixpoint lstrip_by (two : ascii -> ascii -> bool) (three : ascii -> ascii -> ascii -> bool)
    (s : string) {struct s} : string :=
  match s with
  | EmptyString => EmptyString
  | String a r =>
      if isspace a then lstrip_by two three r
      else
        match r with
        | String b r1 =>
            if two a b then lstrip_by two three r1
            else
              match r1 with
              | String c r2 => if three a b c then lstrip_by two three r2 else s
              | EmptyString => s
              end
        | EmptyString => s
        end
  end.

Definition lstrip (s : string) : string := lstrip_by space2 space3 s.

(** The same from the end, on the bytes in reverse. *)
Definition rstrip (s : string) : string :=
  String.rev (lstrip_by (fun a b => space2 b a) (fun a b c => space3 c b a) (String.rev s)).

(** [s.strip()]: white space removed at both ends. *)
Definition strip (s : string) : string := rstrip (lstrip s).

Definition continuation (c : ascii) : bool := (0x80 <=? ord c) && (ord c <? 0xC0).

(** The characters of a string, by code point; [None] for bytes that
    encode no [str]. *)
Fixpoint code_points (s : string) {struct s} : option (list Z) :=
  match s with
  | EmptyString => Some []
  | String a r =>
      if ord a <? 0x80 then cons (ord a) <$> code_points r
      else if ord a <? 0xC2 then None
      else if ord a <? 0xE0 then
        match r with
        | String b r1 =>
            if continuation b
            then cons ((ord a - 0xC0) * 64 + (ord b - 0x80)) <$> code_points r1
            else None
        | _ => None
        end
      else if ord a <? 0xF0 then
        match r with
        | String b (String c r2) =>
            let cp := (ord a - 0xE0) * 4096 + (ord b - 0x80) * 64 + (ord c - 0x80) in
            if continuation b && continuation c && (0x800 <=? cp)
               && negb ((0xD800 <=? cp) && (cp <? 0xE000))
            then cons cp <$> code_points r2
            else None
        | _ => None
        end
      else if ord a <? 0xF5 then
        match r with
        | String b (String c (String d r3)) =>
            let cp := (ord a - 0xF0) * 262144 + (ord b - 0x80) * 4096
                      + (ord c - 0x80) * 64 + (ord d - 0x80) in
            if continuation b && continuation c && continuation d
               && (0x10000 <=? cp) && (cp <? 0x110000)
            then cons cp <$> code_points r3
            else None
        | _ => None
        end
      else None
  end.

(** [Py_UNICODE_ISSPACE] beyond ASCII. *)
Definition unicode_space (cp : Z) : bool :=
  (cp =? 0x85) || (cp =? 0xA0) || (cp =? 0x1680)
  || ((0x2000 <=? cp) && (cp <=? 0x200A))
  || (cp =? 0x2028) || (cp =? 0x2029) || (cp =? 0x202F) || (cp =? 0x205F) || (cp =? 0x3000).

(** The digit zero of each run of ten decimal digits (category Nd)
    beyond ASCII, in Unicode 14.0, the database of CPython 3.11. *)
Definition decimal_zeros : list Z :=
  [0x660; 0x6f0; 0x7c0; 0x966; 0x9e6; 0xa66; 0xae6; 0xb66; 0xbe6; 0xc66; 0xce6; 0xd66;
   0xde6; 0xe50; 0xed0; 0xf20; 0x1040; 0x1090; 0x17e0; 0x1810; 0x1946; 0x19d0; 0x1a80;
   0x1a90; 0x1b50; 0x1bb0; 0x1c40; 0x1c50; 0xa620; 0xa8d0; 0xa900; 0xa9d0; 0xa9f0;
   0xaa50; 0xabf0; 0xff10; 0x104a0; 0x10d30; 0x11066; 0x110f0; 0x11136; 0x111d0;
   0x112f0; 0x11450; 0x114d0; 0x11650; 0x116c0; 0x11730; 0x118e0; 0x11950; 0x11c50;
   0x11d50; 0x11da0; 0x16a60; 0x16ac0; 0x16b50; 0x1d7ce; 0x1d7d8; 0x1d7e2; 0x1d7ec;
   0x1d7f6; 0x1e140; 0x1e2f0; 0x1e950; 0x1fbf0].

(** [Py_UNICODE_TODECIMAL] beyond ASCII. *)
Definition unicode_decimal (cp : Z) : option Z :=
  (fun z => cp - z) <$> List.find (fun z => (z <=? cp) && (cp <? z + 10)) decimal_zeros.

(** What [int] makes of its argument before it reads the literal: white
    space beyond ASCII becomes a space, a decimal digit beyond ASCII the
    ASCII digit of its value, and any other character beyond ASCII ends
    the conversion with [ValueError]. *)
Fixpoint to_ascii (l : list Z) : option (list Z) :=
  match l with
  | [] => Some []
  | cp :: r =>
      if cp <? 127 then cons cp <$> to_ascii r
      else if unicode_space cp then cons 32 <$> to_ascii r
      else match unicode_decimal cp with
           | Some d => cons (48 + d) <$> to_ascii r
           | None => None
           end
  end.

(** The white space that the reader of the literal skips: space, tab,
    line feed, vertical tab, form feed and carriage return. *)
Definition c_isspace (c : Z) : bool := (c =? 32) || ((9 <=? c) && (c <=? 13)).

Fixpoint skip_space (l : list Z) : list Z :=
  match l with
  | c :: r => if c_isspace c then skip_space r else l
  | [] => []
  end.

(** The digits of the literal, with single underscores between them:
    their value, their number and what follows them.  [None]: two
    underscores in a row, or one at the end. *)
Fixpoint digit_run (l : list Z) (prev acc count : Z) : option (Z * Z * list Z) :=
  match l with
  | c :: r =>
      if (48 <=? c) && (c <=? 57) then digit_run r c (10 * acc + (c - 48)) (count + 1)
      else if c =? 95 then (if prev =? 95 then None else digit_run r c acc count)
      else if prev =? 95 then None else Some (acc, count, l)
  | [] => if prev =? 95 then None else Some (acc, count, [])
  end.

(** The limit on the number of digits of a decimal literal. *)
Definition max_str_digits : Z := 4300.

(** The literal: white space, an optional sign, the digits, white
    space. *)
Definition long_from_string (l : list Z) : option Z :=
  let l := skip_space l in
  let '(sign, l) := match l with
                    | 43 :: r => (1, r)
                    | 45 :: r => (-1, r)
                    | _ => (1, l)
                    end in
  match l with
  | 95 :: _ => None
  | _ =>
      match digit_run l 0 0 0 with
      | Some (v, count, rest) =>
          if (0 <? count) && (count <=? max_str_digits)
             && match skip_space rest with [] => true | _ => false end
          then Some (sign * v)
          else None
      | None => None
      end
  end.

(** [int(s)] on a string.  [None] stands for the [ValueError] that [int]
    raises. *)
Definition int (s : string) : option Z :=
  match code_points s with
  | Some l => match to_ascii l with
              | Some t => long_from_string t
              | None => None
              end
  | None => None
  end.

(** [s.split(sep)] for a one-character separator. *)
Fixpoint split_aux (sep : ascii) (cur : string) (s : string) : list string :=
  match s with
  | EmptyString => [String.rev cur]
  | String c s' =>
      if Ascii.eqb c sep
      then String.rev cur :: split_aux sep EmptyString s'
      else split_aux sep (String c cur) s'
  end.

Definition split (sep : ascii) (s : string) : list string :=
  split_aux sep EmptyString s.

Definition lower_ascii (c : ascii) : ascii :=
  let n := nat_of_ascii c in
  if (65 <=? n)%nat && (n <=? 90)%nat then ascii_of_nat (n + 32) else c.

Fixpoint lower (s : string) : string :=
  match s with
  | EmptyString => EmptyString
  | String c s' => String (lower_ascii c) (lower s')
  end.

(** Django's [__iexact]: equality up to the case of the letters A-Z
    (what SQLite, the configured backend, compares with [LIKE]). *)
Definition iexact (a b : string) : bool := String.eqb (lower a) (lower b).

(** Django's [__icontains] on the same alphabet. *)
Fixpoint contains (needle hay : string) : bool :=
  String.prefix needle hay ||
  match hay with
  | EmptyString => false
  | String _ hay' => contains needle hay'
  end.

Definition icontains (hay needle : string) : bool :=
  contains (lower needle) (lower hay).

(** Truth value of a string: [not s] holds for the empty string. *)
Definition truthy (s : string) : bool := negb (String.eqb s "").

End Py.
Export Py.

(** ** A [dict] in insertion order *)

Module Dict.

(** A [dict] with [str] keys and [int] values, as the list of its items
    in the order Python iterates them: that of insertion.  The operations
    keep each key once; a list that repeats a key is read as the dict of
    the first item of each key. *)
Inductive odict : Type := OD (entries : list (string * Z)).

Definition entries (d : odict) : list (string * Z) := let 'OD l := d in l.

Fixpoint assoc (k : string) (l : list (string * Z)) : option Z :=
  match l with
  | [] => None
  | (k', v) :: r => if String.eqb k' k then Some v else assoc k r
  end.

(** [d[k] = v]: a key that is there keeps its place, a new one goes to
    the end. *)
Fixpoint assoc_set (k : string) (v : Z) (l : list (string * Z)) : list (string * Z) :=
  match l with
  | [] => [(k, v)]
  | (k', v') :: r => if String.eqb k' k then (k', v) :: r else (k', v') :: assoc_set k v r
  end.

(** [del d[k]]. *)
Definition assoc_del (k : string) (l : list (string * Z)) : list (string * Z) :=
  List.filter (fun e => negb (String.eqb (fst e) k)) l.

(** The first item of each key, in order. *)
Fixpoint first_items (seen : list string) (l : list (string * Z)) : list (string * Z) :=
  match l with
  | [] => []
  | e :: r =>
      if existsb (String.eqb (fst e)) seen
      then first_items seen r
      else e :: first_items (fst e :: seen) r
  end.

#[global] Instance odict_lookup : Lookup string Z odict := fun k d => assoc k (entries d).
#[global] Instance odict_insert : Insert string Z odict :=
  fun k v d => OD (assoc_set k v (entries d)).
#[global] Instance odict_delete : Delete string odict := fun k d => OD (assoc_del k (entries d)).
#[global] Instance odict_empty : Empty odict := OD [].

(** [d.items()]. *)
Definition items_of_dict (d : odict) : list (string * Z) := first_items [] (entries d).

(** The dict as a finite map, the order forgotten. *)
Definition to_map (d : odict) : gmap string Z := list_to_map (entries d).

End Dict.
Export Dict.

(** ** The data model of [store/models.py] *)

Module Models.

(** Amounts of money ([DecimalField] with two decimal places) are
    counted in hundredths. *)
Record Producto : Type := {
  producto_id : Z;
  nombre : string;
  precio : Z
}.

Record TalleProducto : Type := {
  tp_id : Z;
  tp_producto : Z;
  tp_talle : string
}.

Record ColorStock : Type := {
  cs_id : Z;
  cs_talle_producto : Z;
  cs_color : string;
  cs_stock : Z
}.

Record Pedido : Type := {
  pedido_id : Z;
  buyer_name : string;
  buyer_dni : string;
  provincia : string;
  localidad : string;
  calle : string;
  numero : string;
  entre_calles : string;
  telefono : string;
  payment_method : string;
  shipping_cost : Z;
  total : Z;
  fecha : Z;
  estado : string;
  tracking_number : option string
}.

Record ItemPedido : Type := {
  it_pedido : Z;
  it_producto : Z;
  it_talle : string;
  it_color : string;
  it_cantidad : Z;
  it_precio_unitario : Z
}.

Record OrderLog : Type := {
  log_pedido : Z;
  action : string;
  note : string
}.

(** The tables, each in primary key order.  [logs] is in order of
    creation: [add_log] appends. *)
Record DB : Type := {
  productos : list Producto;
  talles : list TalleProducto;
  colores : list ColorStock;
  pedidos : list Pedido;
  items : list ItemPedido;
  logs : list OrderLog
}.

Definition set_colores (f : list ColorStock -> list ColorStock) (d : DB) : DB :=
  {| productos := productos d; talles := talles d; colores := f (colores d);
     pedidos := pedidos d; items := items d; logs := logs d |}.

Definition set_pedidos (f : list Pedido -> list Pedido) (d : DB) : DB :=
  {| productos := productos d; talles := talles d; colores := colores d;
     pedidos := f (pedidos d); items := items d; logs := logs d |}.

Definition set_items (f : list ItemPedido -> list ItemPedido) (d : DB) : DB :=
  {| productos := productos d; talles := talles d; colores := colores d;
     pedidos := pedidos d; items := f (items d); logs := logs d |}.

Definition set_logs (f : list OrderLog -> list OrderLog) (d : DB) : DB :=
  {| productos := productos d; talles := talles d; colores := colores d;
     pedidos := pedidos d; items := items d; logs := f (logs d) |}.

(** The integers that SQLite stores or takes as a parameter: 64 bits,
    signed. *)
Definition in_int64 (n : Z) : bool :=
  (-9223372036854775808 <=? n) && (n <=? 9223372036854775807).

(** The amounts that a [DecimalField(max_digits=10, decimal_places=2)]
    reads back: at most ten digits, counted in hundredths.  SQLite
    stores any amount; it is the conversion of a stored amount of more
    digits that raises. *)
Definition fits (hundredths : Z) : bool := Z.abs hundredths <? 10000000000.

(** [Model.objects.get(...)]: the one row that satisfies the lookup. *)
Definition objects_get {A : Type} (P : A -> bool) (rows : list A) : Res A :=
  match List.filter P rows with
  | [] => Raise DoesNotExist
  | [x] => Ok x
  | _ :: _ :: _ => Raise MultipleObjectsReturned
  end.

(** [Model.objects.filter(...).first()]: the matching row of least
    primary key, if any. *)
Definition filter_first {A : Type} (P : A -> bool) (rows : list A) : option A :=
  List.find P rows.

Definition is_talle (producto : Z) (talle : string) (tp : TalleProducto) : bool :=
  (tp_producto tp =? producto) && String.eqb (tp_talle tp) talle.

Definition is_color (tp : Z) (color : string) (cs : ColorStock) : bool :=
  (cs_talle_producto cs =? tp) && iexact (cs_color cs) color.

(** [cs.stock = v; cs.save(update_fields=['stock'])]: an UPDATE of the
    row whose primary key is [id]. *)
Definition update_stock (id v : Z) (rows : list ColorStock) : list ColorStock :=
  List.map (fun cs =>
              if cs_id cs =? id
              then {| cs_id := cs_id cs; cs_talle_producto := cs_talle_producto cs;
                      cs_color := cs_color cs; cs_stock := v |}
              else cs) rows.

(** [pedido.save(update_fields=["estado", "tracking_number"])]. *)
Definition update_pedido (id : Z) (e : string) (t : option string)
    (rows : list Pedido) : list Pedido :=
  List.map (fun p =>
              if pedido_id p =? id
              then {| pedido_id := pedido_id p; buyer_name := buyer_name p;
                      buyer_dni := buyer_dni p; provincia := provincia p;
                      localidad := localidad p; calle := calle p;
                      numero := numero p; entre_calles := entre_calles p;
                      telefono := telefono p; payment_method := payment_method p;
                      shipping_cost := shipping_cost p; total := total p;
                      fecha := fecha p; estado := e; tracking_number := t |}
              else p) rows.

Definition find_pedido (pk : Z) (d : DB) : option Pedido :=
  List.find (fun p => pedido_id p =? pk) (pedidos d).

(** An order read from its row: its two amounts are converted. *)
Definition load_pedido (p : Pedido) : Res Pedido :=
  if fits (shipping_cost p) && fits (total p) then Ok p else Raise InvalidOperation.

Definition find_producto (pk : Z) (d : DB) : option Producto :=
  List.find (fun p => producto_id p =? pk) (productos d).

(** [pedido.items.all()]. *)
Definition items_of (pk : Z) (d : DB) : list ItemPedido :=
  List.filter (fun it => it_pedido it =? pk) (items d).

(** [pedido.logs.all()], newest first (the ordering of [OrderLog]). *)
Definition logs_of (pk : Z) (d : DB) : list OrderLog :=
  List.rev (List.filter (fun l => log_pedido l =? pk) (logs d)).

End Models.
Export Models.

(** ** The outbound call of the shipping client *)

Module Http.

(** A decoded JSON value as the client looks at it: a scalar, or a
    compound whose contents it never reads.  A number keeps its decimal
    expansion, counted in hundredths; a string comes with the decimal
    it spells, if it spells one. *)
Inductive JsonValue : Type :=
| JNull
| JBool (b : bool)
| JNumber (hundredths : Z)
| JString (s : string) (spelt : option Z)
| JCompound.

(** The decoded body: an object with its members and the text that
    [str] gives for it, or another value. *)
Inductive Json : Type :=
| JObject (members : list (string * JsonValue)) (printed : string)
| JOther (v : JsonValue).

(** What [session.post] and [resp.json()] do for one call: the post
    raises a [RequestException] (connection error, timeout), or a
    response comes back with a status code and a body that decodes
    ([Some]) or does not ([None]: [resp.json()] raises the
    [JSONDecodeError] of [requests], a [RequestException]). *)
Inductive PostOutcome : Type :=
| PostRaises (kind : string)
| PostResponse (status : Z) (body : option Json).

End Http.
Export Http.

(** ** Requests, responses and the monad of a view *)

Module Web.

Inductive Method : Type := GET | POST | OtherMethod.

Inductive Level : Type := LError | LWarning | LInfo | LSuccess.

Record Message : Type := { level : Level; text : string }.

(** The environment of one request: the database, the number of
    database writes that still succeed before the database raises
    ([None]: it never does), the session's ['cart'] entry, the flash
    messages, the clock and what the shipping provider answers. *)
Record World : Type := {
  db : DB;
  writes_left : option nat;
  session_cart : option odict;
  flash : list Message;
  now : Z;
  andreani : PostOutcome
}.

Definition set_db (d : DB) (w : World) : World :=
  {| db := d; writes_left := writes_left w; session_cart := session_cart w;
     flash := flash w; now := now w; andreani := andreani w |}.

Definition set_writes_left (n : option nat) (w : World) : World :=
  {| db := db w; writes_left := n; session_cart := session_cart w;
     flash := flash w; now := now w; andreani := andreani w |}.

Definition set_session_cart (c : odict) (w : World) : World :=
  {| db := db w; writes_left := writes_left w; session_cart := Some c;
     flash := flash w; now := now w; andreani := andreani w |}.

Definition add_flash (m : Message) (w : World) : World :=
  {| db := db w; writes_left := writes_left w; session_cart := session_cart w;
     flash := flash w ++ [m]; now := now w; andreani := andreani w |}.

Definition M (A : Type) : Type := World -> Res A * World.

Definition ret {A : Type} (a : A) : M A := fun w => (Ok a, w).

Definition raise {A : Type} (e : Exc) : M A := fun w => (Raise e, w).

Definition bind {A B : Type} (m : M A) (k : A -> M B) : M B :=
  fun w => match m w with
           | (Ok a, w') => k a w'
           | (Raise e, w') => (Raise e, w')
           end.

Definition get_db : M DB := fun w => (Ok (db w), w).

(** A database write.  Every statement is committed on its own (Django's
    autocommit; the settings enable no [ATOMIC_REQUESTS] and the code
    opens no transaction), so a write that succeeds stays. *)
Definition db_write (f : DB -> DB) : M unit :=
  fun w => match writes_left w with
           | Some O => (Raise DatabaseError, w)
           | Some (S n) => (Ok tt, set_writes_left (Some n) (set_db (f (db w)) w))
           | None => (Ok tt, set_db (f (db w)) w)
           end.

Definition lift {A : Type} (r : Res A) : M A := fun w => (r, w).

Fixpoint for_each {A : Type} (l : list A) (body : A -> M unit) : M unit :=
  match l with
  | [] => ret tt
  | x :: l' => bind (body x) (fun _ => for_each l' body)
  end.

Definition messages_add (lv : Level) (s : string) : M unit :=
  fun w => (Ok tt, add_flash {| level := lv; text := s |} w).

(** [request.session.get('cart', {})]. *)
Definition session_get_cart : M odict :=
  fun w => (Ok (default ∅ (session_cart w)), w).

(** [request.session['cart'] = cart]. *)
Definition session_set_cart (c : odict) : M unit :=
  fun w => (Ok tt, set_session_cart c w).

End Web.
Export Web.

Notation "'do' x <- m ; k" := (bind m (fun x => k))
  (at level 10, x name, m at level 100, k at level 200,
   format "'[v' 'do'  x  <-  m ; '/' k ']'").
Notation "'run' m ; k" := (bind m (fun _ => k))
  (at level 10, m at level 100, k at level 200,
   format "'[v' 'run'  m ; '/' k ']'").

(** ** Methods of [Pedido] ([store/models.py]) *)

Module PedidoModel.

(** [Pedido.add_log]: one new [OrderLog] row. *)
Definition add_log (pedido : Z) (act : string) : M unit :=
  db_write (set_logs (fun l =>
    (l ++ [{| log_pedido := pedido; action := act; note := "" |}])%list)).

(** The body of the loop of [descontar_stock_si_realizado] for one
    order line.  Only [TalleProducto.DoesNotExist] is caught. *)
Definition descontar_item (it : ItemPedido) : M unit :=
  do d <- get_db;
  match objects_get (is_talle (it_producto it) (it_talle it)) (talles d) with
  | Raise DoesNotExist => ret tt
  | Raise e => raise e
  | Ok tp =>
      match filter_first (is_color (tp_id tp) (it_color it)) (colores d) with
      | Some cs =>
          let nuevo := cs_stock cs - it_cantidad it in
          db_write (set_colores (update_stock (cs_id cs) (if 0 <? nuevo then nuevo else 0)))
      | None => ret tt
      end
  end.

Definition descontar_stock_si_realizado (pedido : Z) : M unit :=
  do d <- get_db;
  for_each (items_of pedido d) descontar_item.

End PedidoModel.
Export PedidoModel.

(** ** The shipping client ([store/services/shipping.py]) *)

Module Shipping.

Definition lookup_member (k : string) (members : list (string * JsonValue)) : option JsonValue :=
  snd <$> List.find (fun kv => String.eqb (fst kv) k) members.

(** [Decimal(str(cost))] for a decoded JSON value that is not [None]. *)
Definition to_decimal (v : JsonValue) : Res Z :=
  match v with
  | JNumber h => Ok h
  | JString _ (Some h) => Ok h
  | JString _ None | JBool _ | JCompound | JNull => Raise InvalidOperation
  end.

(** The body of the [try] block of [calculate_shipping]: the post,
    [raise_for_status] (an [HTTPError] on a status from 400 to 599),
    [resp.json()], the lookup of ["cost"] and the conversion. *)
Definition post_and_decode (outcome : PostOutcome) : Res Z :=
  match outcome with
  | PostRaises kind => Raise (RequestException kind)
  | PostResponse status body =>
      if (400 <=? status) && (status <? 600)
      then Raise (RequestException "HTTPError")
      else
        match body with
        | None => Raise (RequestException "JSONDecodeError")
        | Some (JOther _) => Raise AttributeError
        | Some (JObject members printed) =>
            match lookup_member "cost" members with
            | None | Some JNull => Raise (ShippingError ("Respuesta inesperada: " +:+ printed))
            | Some cost => to_decimal cost
            end
        end
  end.

(** [AndreaniClient.calculate_shipping].  The result [None] is Python's
    [None]: the handler of [requests.RequestException] logs and falls off
    the end of the function, its [raise] being commented out. *)
Definition calculate_shipping (provincia localidad calle numero : option string)
    : M (option Z) :=
  fun w =>
    match post_and_decode (andreani w) with
    | Ok c => (Ok (Some c), w)
    | Raise (RequestException _) => (Ok None, w)
    | Raise e => (Raise e, w)
    end.

End Shipping.
Export Shipping.

(** ** The views ([store/views.py]) *)

Module Views.

(** The names bound at module level in [store/views.py]: its imports,
    [mp] and its functions. *)
Definition views_globals : list string :=
  ["Decimal"; "settings"; "messages"; "render"; "get_object_or_404"; "redirect";
   "require_http_methods"; "mercadopago"; "Categoria"; "Producto"; "Pedido";
   "ItemPedido"; "TalleProducto"; "ColorStock"; "AndreaniClient"; "ShippingError";
   "mp"; "home"; "categories"; "product_list"; "product_detail"; "_variant_stock";
   "add_to_cart"; "cart"; "remove_from_cart"; "increment_cart_item";
   "decrement_cart_item"; "checkout"; "orders"; "order_detail"; "admin_orders";
   "admin_order_detail"].

(** Evaluating a global name of the module (none of those looked up
    this way is a builtin). *)
Definition global_name (n : string) : M unit :=
  if existsb (String.eqb n) views_globals then ret tt else raise (NameError n).

Record CartLine : Type := {
  line_key : string;
  line_producto : Producto;
  line_talle : string;
  line_color : string;
  line_cantidad : Z;
  line_subtotal : Z;
  line_max : Z
}.

Record CheckoutLine : Type := {
  co_producto : Producto;
  co_talle : string;
  co_color : string;
  co_qty : Z;
  co_subtotal : Z
}.

Inductive HttpResponse : Type :=
| HttpResponseRedirect (to : string) (pk : option Z)
| HttpResponseNotAllowed
| RenderCart (items : list CartLine) (total : Z) (cart_count : Z)
| RenderCheckout (items : list CheckoutLine) (subtotal shipping total : Z)
| RenderAdminOrders (pedidos : list Pedido) (f_estado f_q : string)
| RenderPanelOrderDetail (pedido : Pedido) (items : list ItemPedido) (logs : list OrderLog).

(** What a route of [store/urls.py] takes from the URL. *)
Inductive RouteArg : Type := NoArg | IntArg | StrArg.

Definition app_name : string := "store".

(** The names of [urlpatterns]. *)
Definition urlpatterns : list (string * RouteArg) :=
  [("home", NoArg); ("categories", NoArg); ("products", NoArg);
   ("product_detail", IntArg);
   ("cart", NoArg); ("add_to_cart", IntArg); ("remove_from_cart", StrArg);
   ("increment_cart_item", StrArg); ("decrement_cart_item", StrArg);
   ("checkout", NoArg);
   ("orders", NoArg); ("order_detail", IntArg);
   ("admin_orders", NoArg); ("admin_order_detail", IntArg)].

(** [reverse(name, kwargs={'pk': pk})] for a name given with its
    namespace: the name has to be one of [urlpatterns] under [app_name],
    and the arguments those of its pattern; [<int:pk>] matches digits
    only, so no negative number. *)
Definition reverse (to : string) (pk : option Z) : Res unit :=
  match List.find (fun r => String.eqb to (app_name +:+ ":" +:+ fst r)) urlpatterns with
  | Some (_, NoArg) => match pk with None => Ok tt | Some _ => Raise NoReverseMatch end
  | Some (_, IntArg) =>
      match pk with
      | Some n => if 0 <=? n then Ok tt else Raise NoReverseMatch
      | None => Raise NoReverseMatch
      end
  | Some (_, StrArg) | None => Raise NoReverseMatch
  end.

(** [redirect(name, ...)]: the URL of the route is looked up before the
    response is made. *)
Definition redirect (to : string) (pk : option Z) : M HttpResponse :=
  run lift (reverse to pk);
  ret (HttpResponseRedirect to pk).

(** A primary key as the views pass it around: an [int] taken from the
    URL or a piece of a cart key. *)
Inductive IntOrStr : Type := AnInt (n : Z) | AStr (s : string).

Definition int_of (a : IntOrStr) : M Z :=
  match a with
  | AnInt n => ret n
  | AStr s => match int s with Some n => ret n | None => raise ValueError end
  end.

(** [get_object_or_404(Producto, pk=pk)].  A key outside the range of
    the column matches no row. *)
Definition get_producto_or_404 (pk : IntOrStr) : M Producto :=
  do n <- int_of pk;
  do d <- get_db;
  match (if in_int64 n then find_producto n d else None) with
  | Some p => ret p
  | None => raise Http404
  end.

(** [get_object_or_404(Pedido, pk=pk)]. *)
Definition get_pedido_or_404 (pk : Z) : M Pedido :=
  do d <- get_db;
  match (if in_int64 pk then find_pedido pk d else None) with
  | Some p => lift (load_pedido p)
  | None => raise Http404
  end.

(** [_variant_stock].  The product is given to the lookup of the size as
    the value of a foreign key, which goes to SQLite as it is: one
    outside its range raises [OverflowError]. *)
Definition _variant_stock (pid : IntOrStr) (talle color : string) : M Z :=
  do n <- int_of pid;
  do d <- get_db;
  if negb (in_int64 n) then raise OverflowError else
  match objects_get (is_talle n talle) (talles d) with
  | Raise DoesNotExist => ret 0
  | Raise e => raise e
  | Ok tp =>
      match filter_first (is_color (tp_id tp) color) (colores d) with
      | Some cs => ret (cs_stock cs)
      | None => ret 0
      end
  end.

(** The key of a cart entry: [f"{pk}:{talle}:{color}"]. *)
Definition cart_key (pk : Z) (talle color : string) : string :=
  str pk +:+ ":" +:+ talle +:+ ":" +:+ color.

Definition add_to_cart (method : Method) (post : gmap string string) (pk : Z)
    : M HttpResponse :=
  match method with
  | POST =>
      let invalid :=
        run messages_add LError "Cantidad inválida.";
        redirect "store:product_detail" (Some pk) in
      match int (default "1" (post !! "quantity")) with
      | None => invalid
      | Some quantity =>
          if quantity <? 1 then invalid else
          let talle := default "" (post !! "talle") in
          let color := default "" (post !! "color") in
          if negb (truthy talle && truthy color) then
            run messages_add LError "Debes seleccionar talle y color.";
            redirect "store:product_detail" (Some pk)
          else
            let key := cart_key pk talle color in
            do cart <- session_get_cart;
            let en_carrito := default 0 (cart !! key) in
            do stock <- _variant_stock (AnInt pk) talle color;
            if stock <=? 0 then
              run messages_add LWarning "Sin stock para esa combinación.";
              redirect "store:cart" None
            else
              let nuevo_total := en_carrito + quantity in
              let nuevo_total := if nuevo_total >? stock then stock else nuevo_total in
              let agregado := nuevo_total - en_carrito in
              if agregado <=? 0 then
                run messages_add LWarning ("Stock máximo alcanzado (" +:+ str stock +:+ ").");
                redirect "store:cart" None
              else
                run session_set_cart (<[key := nuevo_total]> cart);
                run (if agregado <? quantity
                     then messages_add LInfo
                            ("Se agregaron " +:+ str agregado +:+
                             " (limitado por stock: " +:+ str stock +:+ ").")
                     else messages_add LSuccess
                            ("Se agregaron " +:+ str agregado +:+ " unidad(es) al carrito."));
                redirect "store:cart" None
      end
  | _ => ret HttpResponseNotAllowed
  end.

(** The state of the loop of [cart]: the dict [raw], the lines built so
    far, the running total and the flag [session_changed]. *)
Record CartLoop : Type := {
  raw : odict;
  lines : list CartLine;
  total_acc : Z;
  session_changed : bool
}.

Fixpoint fold_m {A S : Type} (body : S -> A -> M S) (l : list A) (st : S) : M S :=
  match l with
  | [] => ret st
  | x :: l' => do st' <- body st x; fold_m body l' st'
  end.

Definition cart_body (st : CartLoop) (entry : string * Z) : M CartLoop :=
  let key := fst entry in
  let qty := snd entry in
  match split ":" key with
  | [pid; talle; color] =>
      do prod <- get_producto_or_404 (AStr pid);
      do max_stock <- _variant_stock (AStr pid) talle color;
      if max_stock <=? 0 then
        ret {| raw := delete key (raw st); lines := lines st;
               total_acc := total_acc st; session_changed := true |}
      else
        let over := qty >? max_stock in
        let qty := if over then max_stock else qty in
        let subtotal := precio prod * qty in
        ret {| raw := if over then <[key := qty]> (raw st) else raw st;
               lines := (lines st ++
                         [{| line_key := key; line_producto := prod; line_talle := talle;
                             line_color := color; line_cantidad := qty;
                             line_subtotal := subtotal; line_max := max_stock |}])%list;
               total_acc := total_acc st + subtotal;
               session_changed := session_changed st || over |}
  | _ => raise ValueError
  end.

Definition sum_cantidad (l : list CartLine) : Z :=
  fold_right (fun i acc => line_cantidad i + acc) 0 l.

(** The view [cart].  The loop runs over [list(raw.items())], a copy
    made before [raw] is changed. *)
Definition cart (method : Method) : M HttpResponse :=
  match method with
  | GET =>
      do raw0 <- session_get_cart;
      do st <- fold_m cart_body (items_of_dict raw0)
                 {| raw := raw0; lines := []; total_acc := 0; session_changed := false |};
      run (if session_changed st then session_set_cart (raw st) else ret tt);
      ret (RenderCart (lines st) (total_acc st) (sum_cantidad (lines st)))
  | _ => ret HttpResponseNotAllowed
  end.

Definition remove_from_cart (method : Method) (key : string) : M HttpResponse :=
  match method with
  | POST =>
      do cart <- session_get_cart;
      match cart !! key with
      | Some _ =>
          run session_set_cart (delete key cart);
          run messages_add LSuccess "Producto eliminado del carrito.";
          redirect "store:cart" None
      | None =>
          run messages_add LError "El producto no estaba en el carrito.";
          redirect "store:cart" None
      end
  | _ => ret HttpResponseNotAllowed
  end.

Definition checkout_body (st : list CheckoutLine * Z) (entry : string * Z)
    : M (list CheckoutLine * Z) :=
  let key := fst entry in
  let qty := snd entry in
  match split ":" key with
  | [pid; talle; color] =>
      do prod <- get_producto_or_404 (AStr pid);
      let item_sub := precio prod * qty in
      ret ((fst st ++ [{| co_producto := prod; co_talle := talle; co_color := color;
                          co_qty := qty; co_subtotal := item_sub |}])%list,
           snd st + item_sub)
  | _ => raise ValueError
  end.

(** [try: sc = AndreaniClient().calculate_shipping(...);
    shipping_cost = sc or Decimal('0.00')
    except ShippingError: ...]; [warn] tells whether the handler adds
    its warning (the GET branch does, the POST branch does not). *)
Definition shipping_or_zero (warn : bool) (provincia localidad calle numero : option string)
    : M Z :=
  fun w =>
    match calculate_shipping provincia localidad calle numero w with
    | (Ok sc, w') => (Ok (match sc with Some c => c | None => 0 end), w')
    | (Raise (ShippingError _), w') =>
        if warn
        then (Ok 0, add_flash {| level := LWarning;
                                 text := "No se pudo calcular envío automáticamente; se ajustará tras llenar la dirección." |} w')
        else (Ok 0, w')
    | (Raise e, w') => (Raise e, w')
    end.

Definition next_pedido_id (d : DB) : Z :=
  1 + fold_right (fun p acc => Z.max (pedido_id p) acc) 0 (pedidos d).

(** [Pedido.objects.create(...)]: the columns are NOT NULL, so a field
    missing from the form makes the INSERT fail. *)
Definition create_pedido (post : gmap string string) (sc total_ : Z) : M Z :=
  match post !! "nombre", post !! "dni", post !! "provincia", post !! "localidad",
        post !! "calle", post !! "numero", post !! "telefono", post !! "metodo_pago" with
  | Some nombre_, Some dni, Some prov, Some loc, Some calle_, Some num, Some tel, Some mp =>
      fun w =>
        let id := next_pedido_id (db w) in
        match db_write (set_pedidos (fun l =>
                 (l ++ [{| pedido_id := id; buyer_name := nombre_; buyer_dni := dni;
                           provincia := prov; localidad := loc; calle := calle_;
                           numero := num;
                           entre_calles := default "" (post !! "entre_calles");
                           telefono := tel; payment_method := mp;
                           shipping_cost := sc; total := total_; fecha := now w;
                           estado := "pendiente"; tracking_number := None |}])%list)) w with
        | (Ok _, w') => (Ok id, w')
        | (Raise e, w') => (Raise e, w')
        end
  | _, _, _, _, _, _, _, _ => raise IntegrityError
  end.

Definition create_item (pedido : Z) (it : CheckoutLine) : M unit :=
  db_write (set_items (fun l =>
    (l ++ [{| it_pedido := pedido; it_producto := producto_id (co_producto it);
              it_talle := co_talle it; it_color := co_color it;
              it_cantidad := co_qty it;
              it_precio_unitario := precio (co_producto it) |}])%list)).

Definition checkout (method : Method) (get_ post : gmap string string) : M HttpResponse :=
  match method with
  | OtherMethod => ret HttpResponseNotAllowed
  | _ =>
      do raw_cart <- session_get_cart;
      do prep <- fold_m checkout_body (items_of_dict raw_cart) ([], 0);
      let items_ := fst prep in
      let subtotal := snd prep in
      do shipping <- match method with
                     | GET => shipping_or_zero true
                                (Some (default "" (get_ !! "provincia")))
                                (Some (default "" (get_ !! "localidad")))
                                (Some (default "" (get_ !! "calle")))
                                (Some (default "" (get_ !! "numero")))
                     | _ => ret 0
                     end;
      let total_ := subtotal + shipping in
      match method with
      | POST =>
          do shipping <- shipping_or_zero false (post !! "provincia") (post !! "localidad")
                           (post !! "calle") (post !! "numero");
          do id <- create_pedido post shipping (subtotal + shipping);
          run for_each items_ (create_item id);
          run session_set_cart ∅;
          redirect "store:order_detail" (Some id)
      | _ => ret (RenderCheckout items_ subtotal shipping total_)
      end
  end.

(** [order_by("-fecha")], by insertion. *)
Fixpoint insert_by_fecha (p : Pedido) (l : list Pedido) : list Pedido :=
  match l with
  | [] => [p]
  | q :: l' => if fecha q <? fecha p then p :: l else q :: insert_by_fecha p l'
  end.

Definition order_by_fecha_desc (l : list Pedido) : list Pedido :=
  fold_right insert_by_fecha [] l.

Definition matches_q (q : string) (p : Pedido) : bool :=
  icontains (buyer_name p) q
  || icontains (buyer_dni p) q
  || match tracking_number p with Some t => icontains t q | None => false end
  || icontains (localidad p) q.

(** The view [admin_orders]; it carries no method decorator. *)
Definition admin_orders (get_ : gmap string string) : M HttpResponse :=
  let estado_ := strip (default "" (get_ !! "estado")) in
  let q := strip (default "" (get_ !! "q")) in
  do d <- get_db;
  let pedidos_ := order_by_fecha_desc (pedidos d) in
  let pedidos_ :=
    if existsb (String.eqb estado_) ["pendiente"; "realizado"; "rechazado"]
    then List.filter (fun p => String.eqb (estado p) estado_) pedidos_
    else pedidos_ in
  do pedidos_ <- (if truthy q
                  then run global_name "Q"; ret (List.filter (matches_q q) pedidos_)
                  else ret pedidos_);
  ret (RenderAdminOrders pedidos_ estado_ q).

(** [str(x)] inside an f-string for a nullable text field. *)
Definition str_opt (t : option string) : string := default "None" t.

Definition opt_string_eqb (a b : option string) : bool :=
  match a, b with
  | Some x, Some y => String.eqb x y
  | None, None => true
  | _, _ => false
  end.

Definition admin_order_detail (method : Method) (post : gmap string string) (pk : Z)
    : M HttpResponse :=
  match method with
  | OtherMethod => ret HttpResponseNotAllowed
  | POST =>
      do pedido <- get_pedido_or_404 pk;
      let nuevo_estado := default (estado pedido) (post !! "estado") in
      let nuevo_tracking := strip (default "" (post !! "tracking_number")) in
      if String.eqb nuevo_estado "realizado" && negb (truthy nuevo_tracking) then
        run messages_add LError
              "Para marcar como 'Pago Realizado' debés informar el número de seguimiento.";
        redirect "store:panel_order_detail" (Some (pedido_id pedido))
      else
        let estado_anterior := estado pedido in
        let tracking_anterior := tracking_number pedido in
        let tracking_ := if truthy nuevo_tracking then Some nuevo_tracking else None in
        run db_write (set_pedidos (update_pedido (pedido_id pedido) nuevo_estado tracking_));
        run (if negb (String.eqb estado_anterior nuevo_estado)
             then add_log (pedido_id pedido)
                    ("Estado cambiado: " +:+ estado_anterior +:+ " → " +:+ nuevo_estado)
             else ret tt);
        run (if negb (opt_string_eqb tracking_anterior tracking_)
             then add_log (pedido_id pedido)
                    ("Tracking actualizado: " +:+ str_opt tracking_anterior +:+ " → "
                     +:+ str_opt tracking_)
             else ret tt);
        run (if negb (String.eqb estado_anterior "realizado")
                && String.eqb nuevo_estado "realizado"
             then run descontar_stock_si_realizado (pedido_id pedido);
                  add_log (pedido_id pedido) "Stock descontado por estado 'realizado'"
             else ret tt);
        run messages_add LSuccess "Pedido actualizado correctamente.";
        redirect "store:panel_order_detail" (Some (pedido_id pedido))
  | GET =>
      do pedido <- get_pedido_or_404 pk;
      do d <- get_db;
      ret (RenderPanelOrderDetail pedido (items_of (pedido_id pedido) d)
             (logs_of (pedido_id pedido) d))
  end.

End Views.
Export Views.

(** ** The module [store/cart.py] *)

Module CartModule.

(** The names bound at module level in [store/models.py]. *)
Definition models_globals : list string :=
  ["annotations"; "Decimal"; "Optional"; "models"; "get_user_model"; "User";
   "Categoria"; "Producto"; "ImagenProducto"; "TalleProducto"; "ColorStock";
   "ESTADOS"; "METODOS_PAGO"; "Pedido"; "ItemPedido"; "OrderLog"].

(** [from store.models import name]. *)
Definition import_from_models (name : string) : Res unit :=
  if existsb (String.eqb name) models_globals then Ok tt else Raise (ImportError name).

(** Importing [store/cart.py]: [from store.models import Product] comes
    before the class [Cart] is defined, so none of its methods exists
    unless the import succeeds. *)
Definition import_cart : Res unit := import_from_models "Product".

End CartModule.
Export CartModule.

(** ** The admin site ([store/admin.py]) *)

Module Admin.

(** [PedidoForm.clean] on the cleaned [estado] and [tracking_number]. *)
Definition PedidoForm_clean (estado_ tracking : option string) : Res unit :=
  if opt_string_eqb estado_ (Some "realizado") && negb (truthy (default "" tracking))
  then Raise (ValidationError
                "Para marcar como 'Pago Realizado' debe informar el número de seguimiento.")
  else Ok tt.

(** [super().save_model]: [obj.save()], an UPDATE of the row of [obj]
    when [change] holds and an INSERT under a fresh key otherwise. *)
Definition save_obj (obj : Pedido) (change : bool) : M Pedido :=
  if change
  then
    run db_write (set_pedidos (List.map (fun p =>
                    if pedido_id p =? pedido_id obj then obj else p)));
    ret obj
  else
    fun w =>
      let id := next_pedido_id (db w) in
      let obj' := {| pedido_id := id; buyer_name := buyer_name obj;
                     buyer_dni := buyer_dni obj; provincia := provincia obj;
                     localidad := localidad obj; calle := calle obj;
                     numero := numero obj; entre_calles := entre_calles obj;
                     telefono := telefono obj; payment_method := payment_method obj;
                     shipping_cost := shipping_cost obj; total := total obj;
                     fecha := now w; estado := estado obj;
                     tracking_number := tracking_number obj |} in
      match db_write (set_pedidos (fun l => (l ++ [obj'])%list)) w with
      | (Ok _, w') => (Ok obj', w')
      | (Raise e, w') => (Raise e, w')
      end.

(** [PedidoAdmin.save_model]. *)
Definition save_model (obj : Pedido) (change : bool) : M unit :=
  do prev <- (if change
              then do d <- get_db;
                   do p <- lift (objects_get (fun p => pedido_id p =? pedido_id obj) (pedidos d));
                   do p <- lift (load_pedido p);
                   ret (Some p)
              else ret None);
  let estado_anterior := estado <$> prev in
  let tracking_anterior := prev ≫= tracking_number in
  do obj <- save_obj obj change;
  run (if change && negb (opt_string_eqb estado_anterior (Some (estado obj)))
       then add_log (pedido_id obj)
              ("Estado cambiado: " +:+ str_opt estado_anterior +:+ " → " +:+ estado obj)
       else ret tt);
  run (if (negb change && String.eqb (estado obj) "realizado")
          || (change && negb (opt_string_eqb estado_anterior (Some "realizado"))
              && String.eqb (estado obj) "realizado")
       then run descontar_stock_si_realizado (pedido_id obj);
            add_log (pedido_id obj) "Stock descontado por estado 'realizado'"
       else ret tt);
  if change && negb (opt_string_eqb tracking_anterior (tracking_number obj))
  then add_log (pedido_id obj)
         ("Tracking actualizado: " +:+ str_opt tracking_anterior +:+ " → "
          +:+ str_opt (tracking_number obj))
  else ret tt.

End Admin.
Export Admin.

(** ** Observations on a world *)

(** The cart dict of the session, [{}] when the session has none. *)
Definition cart_dict (w : World) : odict := default ∅ (session_cart w).

(** The same as a finite map. *)
Definition cart_of (w : World) : gmap string Z := to_map (cart_dict w).

(** [cart.get(key, 0)]. *)
Definition stored (w : World) (key : string) : Z := default 0 (cart_of w !! key).

(** The flash messages a view added to those of [w]. *)
Definition flashed (w w' : World) : list Message := drop (length (flash w)) (flash w').

(** ** Sample data *)

Definition remera : Producto := {| producto_id := 1; nombre := "Remera"; precio := 150000 |}.

(** One product in size M with a red variant of the given stock, and the
    given orders, order lines and audit log. *)
Definition shop (stock : Z) (ps : list Pedido) (its : list ItemPedido) (ls : list OrderLog) : DB :=
  {| productos := [remera];
     talles := [{| tp_id := 1; tp_producto := 1; tp_talle := "M" |}];
     colores := [{| cs_id := 1; cs_talle_producto := 1; cs_color := "Rojo"; cs_stock := stock |}];
     pedidos := ps; items := its; logs := ls |}.

(** A request's world over a database, with the given session cart, no
    database failure and a shipping provider that is unreachable. *)
Definition world_of (d : DB) (c : option odict) : World :=
  {| db := d; writes_left := None; session_cart := c; flash := []; now := 0;
     andreani := PostRaises "ConnectionError" |}.

Definition add_form (q : string) : gmap string string :=
  <["quantity" := q]> (<["talle" := "M"]> (<["color" := "Rojo"]> ∅)).

(** Session carts holding the red variant of the sample product. *)
Definition red_3 : odict := OD [("1:M:Rojo", 3)].
Definition red_5 : odict := OD [("1:M:Rojo", 5)].

(** A pending order for three units of the red variant. *)
Definition pedido_1 (e : string) (t : option string) : Pedido :=
  {| pedido_id := 1; buyer_name := "Juan Perez"; buyer_dni := "30111222";
     provincia := "Buenos Aires"; localidad := "Tandil"; calle := "Mitre"; numero := "120";
     entre_calles := ""; telefono := "2494000000"; payment_method := "mp";
     shipping_cost := 0; total := 450000; fecha := 10; estado := e; tracking_number := t |}.

Definition item_1 (color : string) (n : Z) : ItemPedido :=
  {| it_pedido := 1; it_producto := 1; it_talle := "M"; it_color := color;
     it_cantidad := n; it_precio_unitario := 150000 |}.

Definition estado_form (e t : string) : gmap string string :=
  <["estado" := e]> (<["tracking_number" := t]> ∅).

Definition q_form (q : string) : gmap string string := <["q" := q]> ∅.

(** The quantities a rendered checkout page shows, line by line. *)
Definition checkout_quantities (r : Res HttpResponse) : list Z :=
  match r with
  | Ok (RenderCheckout items_ _ _ _) => List.map co_qty items_
  | _ => []
  end.

(** The quantities a rendered cart page shows, with the stock read for
    each line. *)
Definition cart_quantities (r : Res HttpResponse) : list (Z * Z) :=
  match r with
  | Ok (RenderCart items_ _ _) => List.map (fun l => (line_cantidad l, line_max l)) items_
  | _ => []
  end.

(** ** Relating the database before and after a computation *)

(** [keeps R m]: running [m] takes the database to one related to it by
    [R], whether [m] returns or raises. *)
Definition keeps {A : Type} (R : DB -> DB -> Prop) (m : M A) : Prop :=
  forall w, R (db w) (db (snd (m w))).

Definition same_colores (d d' : DB) : Prop := colores d' = colores d.
Definition same_pedidos (d d' : DB) : Prop := pedidos d' = pedidos d.

(** The status of order [pk] as the database has it. *)
Definition estado_of (pk : Z) (d : DB) : option string := estado <$> find_pedido pk d.

(** Three status updates in a row on order 1. *)
Definition three_updates (w : World) : World :=
  let w1 := snd (admin_order_detail POST (estado_form "realizado" "T1") 1 w) in
  let w2 := snd (admin_order_detail POST (estado_form "pendiente" "") 1 w1) in
  snd (admin_order_detail POST (estado_form "realizado" "T1") 1 w2).

Definition stock_entry : string := "Stock descontado por estado 'realizado'".

(** How many entries of a log are 'stock decremented' entries. *)
Definition count_stock_entries (l : list OrderLog) : nat :=
  length (List.filter (fun e => String.eqb (action e) stock_entry) l).

(** How many entries of a log are 'status changed' entries. *)
Definition count_estado_entries (l : list OrderLog) : nat :=
  length (List.filter (fun e => String.prefix "Estado cambiado: " (action e)) l).

(** The audit entries added between two databases. *)
Definition new_logs (d d' : DB) : list OrderLog := drop (length (logs d)) (logs d').

(** An order line matches no stock record: its (product, size) has no
    [TalleProducto], or that one has no [ColorStock] of the line's color. *)
Definition unmatched (d : DB) (it : ItemPedido) : Prop :=
  objects_get (is_talle (it_producto it) (it_talle it)) (talles d) = Raise DoesNotExist
  \/ exists tp, objects_get (is_talle (it_producto it) (it_talle it)) (talles d) = Ok tp
                /\ filter_first (is_color (tp_id tp) (it_color it)) (colores d) = None.

(** ** The stock decrement, record by record *)

(** The constraints of the schema that the decrement relies on: primary
    keys of [ColorStock] are unique, (product, size) is unique among
    [TalleProducto] ([unique_together]), and stocks and quantities are
    not negative ([PositiveIntegerField]). *)
Definition wf_db (d : DB) : Prop :=
  NoDup (cs_id <$> colores d)
  /\ NoDup ((fun tp => (tp_producto tp, tp_talle tp)) <$> talles d)
  /\ Forall (fun c => 0 <= cs_stock c) (colores d)
  /\ Forall (fun it => 0 <= it_cantidad it) (items d).

(** The order lines of [pedido] are rows that the decrement can read:
    the unit price of each is within the ten digits of its column, and
    its product, which the lookup of the size fetches through the
    foreign key, is a row of the catalogue whose price is within its
    column.  The model of the decrement takes such rows for granted. *)
Definition readable_lines (pedido : Z) (d : DB) : bool :=
  forallb (fun it => fits (it_precio_unitario it)
                     && match find_producto (it_producto it) d with
                        | Some prod => fits (precio prod)
                        | None => false
                        end)
          (items_of pedido d).

(** The stock record an order line is taken from, if there is one. *)
Definition matching_stock (T : list TalleProducto) (C : list ColorStock) (it : ItemPedido)
    : option ColorStock :=
  match objects_get (is_talle (it_producto it) (it_talle it)) T with
  | Ok tp => filter_first (is_color (tp_id tp) (it_color it)) C
  | Raise _ => None
  end.


(** The stock table after the step of the decrement for one order line,
    when the write goes through. *)
Definition descontar_linea (T : list TalleProducto) (C : list ColorStock) (it : ItemPedido)
    : list ColorStock :=
  match matching_stock T C it with
  | Some cs => update_stock (cs_id cs) (Z.max 0 (cs_stock cs - it_cantidad it)) C
  | None => C
  end.


(** The stock of the record of primary key [id]. *)
Definition stock_at (id : Z) (C : list ColorStock) : option Z :=
  cs_stock <$> List.find (fun c => cs_id c =? id) C.

#[global] Instance wf_db_dec (d : DB) : Decision (wf_db d) :=
  ltac:(unfold wf_db; apply _).

(** The sample shop with order 1 pending for three red units. *)
Definition pending_shop (stock : Z) : DB :=
  shop stock [pedido_1 "pendiente" None] [item_1 "Rojo" 3] [].

(** A world over [d] whose database raises on the write after the first
    [n]. *)
Definition failing_after (n : nat) (d : DB) : World :=
  {| db := d; writes_left := Some n; session_cart := None; flash := []; now := 0;
     andreani := PostRaises "ConnectionError" |}.

(** Order 1 as the admin form submits it with a new status. *)
Definition submit (e : string) (t : option string) (w : World) : World :=
  snd (save_model (pedido_1 e t) true w).

From Stdlib Require Import Sorted DecimalPos.

(** ** The other cart views ([store/views.py]) *)

Module CartViews.

Definition increment_cart_item (method : Method) (key : string) : M HttpResponse :=
  match method with
  | POST =>
      do cart <- session_get_cart;
      match cart !! key with
      | Some qty =>
          match split ":" key with
          | [pid; talle; color] =>
              do stock <- _variant_stock (AStr pid) talle color;
              if qty >=? stock then
                run messages_add LWarning "No hay más stock para esa combinación.";
                redirect "store:cart" None
              else
                run session_set_cart (<[key := qty + 1]> cart);
                run messages_add LSuccess "Se incrementó la cantidad en 1.";
                redirect "store:cart" None
          | _ => raise ValueError
          end
      | None =>
          run messages_add LError "El producto no existe en el carrito.";
          redirect "store:cart" None
      end
  | _ => ret HttpResponseNotAllowed
  end.

Definition decrement_cart_item (method : Method) (key : string) : M HttpResponse :=
  match method with
  | POST =>
      do cart <- session_get_cart;
      match cart !! key with
      | Some qty =>
          do cart' <- (if qty >? 1
                       then run messages_add LSuccess "Se decrementó la cantidad en 1.";
                            ret (<[key := qty - 1]> cart)
                       else run messages_add LSuccess "Producto eliminado del carrito.";
                            ret (delete key cart));
          run session_set_cart cart';
          redirect "store:cart" None
      | None =>
          run messages_add LError "El producto no existe en el carrito.";
          redirect "store:cart" None
      end
  | _ => ret HttpResponseNotAllowed
  end.

End CartViews.
Export CartViews.

(** ** The catalogue ([store/models.py], [store/views.py]) *)

Module Catalog.

(** [TalleProducto.stock_total]: the stock of the colors of a size. *)
Definition talle_stock_total (d : DB) (tp : TalleProducto) : Z :=
  fold_right Z.add 0
    (List.map cs_stock (List.filter (fun cs => cs_talle_producto cs =? tp_id tp) (colores d))).

(** [producto.talles.all()]. *)
Definition talles_of (d : DB) (p : Producto) : list TalleProducto :=
  List.filter (fun tp => tp_producto tp =? producto_id p) (talles d).

(** [Producto.stock_total]: the loop over the sizes, adding the sum of
    each. *)
Definition producto_stock_total (d : DB) (p : Producto) : Z :=
  fold_left (fun total tp =>
               total + fold_right Z.add 0
                         (List.map cs_stock
                            (List.filter (fun cs => cs_talle_producto cs =? tp_id tp)
                                         (colores d))))
            (talles_of d p) 0.

(** The lookup [talles__colores__stock__gt=0] on a product: some size of
    it has some color with a positive stock. *)
Definition con_stock (d : DB) (p : Producto) : bool :=
  existsb (fun tp =>
             existsb (fun cs => (cs_talle_producto cs =? tp_id tp) && (0 <? cs_stock cs))
                     (colores d))
          (talles_of d p).

(** The queryset of [product_list]:
    [Producto.objects.filter(talles__colores__stock__gt=0).distinct()]. *)
Definition productos_con_stock (d : DB) : list Producto :=
  List.filter (con_stock d) (productos d).

(** [t.colores.filter(stock__gt=0)]. *)
Definition colores_con_stock (d : DB) (tp : TalleProducto) : list ColorStock :=
  List.filter (fun cs => (cs_talle_producto cs =? tp_id tp) && (0 <? cs_stock cs)) (colores d).

Inductive CatalogResponse : Type :=
| RenderProductDetail (producto : Producto) (talles_ : list (string * list ColorStock))
| RenderOrders (pedidos_ : list Pedido)
| RenderOrderDetail (pedido : Pedido)
| CatalogNotAllowed.

(** The view [product_detail]: the sizes of the product that have a color
    in stock, each with those colors. *)
Definition product_detail (method : Method) (pk : Z) : M CatalogResponse :=
  match method with
  | GET =>
      do producto <- get_producto_or_404 (AnInt pk);
      do d <- get_db;
      ret (RenderProductDetail producto
             (List.map (fun t => (tp_talle t, colores_con_stock d t))
                (List.filter (fun t => match colores_con_stock d t with
                                       | [] => false
                                       | _ :: _ => true
                                       end)
                             (talles_of d producto))))
  | _ => ret CatalogNotAllowed
  end.



End Catalog.
Export Catalog.

(** ** More sample data *)

Definition red_1 : odict := OD [("1:M:Rojo", 1)].

Definition empty_cart : odict := ∅.

(** ** What the cart page reads and writes back *)

(** The stock that the loop of [cart] reads for a key, when the key has
    its three parts, names an existing product and the stock lookup does
    not raise. *)
Definition entry_stock (w : World) (key : string) : option Z :=
  match split ":" key with
  | [pid; talle; color] =>
      match fst (get_producto_or_404 (AStr pid) w),
            fst (_variant_stock (AStr pid) talle color w) with
      | Ok _, Ok s => Some s
      | _, _ => None
      end
  | _ => None
  end.

(** The quantity an entry of [q] units ends with against a stock [s]:
    none at all without stock, otherwise the smaller of the two. *)
Definition reconciled (s q : Z) : option Z :=
  if s <=? 0 then None else Some (Z.min q s).

(** The sum of the subtotals of the lines of a cart page. *)
Definition lines_total (l : list CartLine) : Z :=
  fold_right (fun i acc => line_subtotal i + acc) 0 l.

(** The session cart that [cart] found, stale: five red units against a
    stock of two, and a blue entry of a product that has no variant. *)
Definition stale_cart : odict := <["1:L:Azul" := 2]> red_5.

(** What the code makes of a line of the cart page, for the session cart
    [m] it was built from: the subtotal is price times quantity, the stock
    read is positive, and the quantity is the smaller of the stored one
    and that stock. *)
Definition line_ok (w : World) (m : gmap string Z) (l : CartLine) : Prop :=
  line_subtotal l = precio (line_producto l) * line_cantidad l
  /\ 0 < line_max l
  /\ entry_stock w (line_key l) = Some (line_max l)
  /\ exists q, m !! line_key l = Some q /\ line_cantidad l = Z.min q (line_max l).

(** ** What checkout computes and stores *)

(** The sum of the subtotals of the lines of a checkout. *)
Definition co_total (l : list CheckoutLine) : Z :=
  fold_right (fun i acc => co_subtotal i + acc) 0 l.

(** The value of the lines of an order at their snapshot prices. *)
Definition items_value (l : list ItemPedido) : Z :=
  fold_right (fun it acc => it_cantidad it * it_precio_unitario it + acc) 0 l.

(** The fields of the checkout form, filled in. *)
Definition buyer_form : gmap string string :=
  <["nombre" := "Juan Perez"]> (<["dni" := "30111222"]> (<["provincia" := "Buenos Aires"]>
  (<["localidad" := "Tandil"]> (<["calle" := "Mitre"]> (<["numero" := "120"]>
  (<["telefono" := "2494000000"]> (<["metodo_pago" := "mp"]> ∅))))))).

(** The checkout form without the payment method. *)
Definition buyer_form_short : gmap string string := delete "metodo_pago" buyer_form.

(** A world whose shipping provider answers with a cost of 2000.00. *)
Definition world_with_cost (d : DB) (c : option odict) : World :=
  {| db := d; writes_left := None; session_cart := c; flash := []; now := 0;
     andreani := PostResponse 200 (Some (JObject [("cost", JNumber 200000)]
                                                 "{'cost': 2000.0}")) |}.

(** The fields that [checkout] passes to NOT NULL columns without a
    default of its own. *)
Definition required_fields : list string :=
  ["nombre"; "dni"; "provincia"; "localidad"; "calle"; "numero"; "telefono"; "metodo_pago"].

(** ** Frames of the order views *)

(** What a view on order [pk] may change: nothing in the catalogue or the
    order lines, of a stock record neither the key nor the size nor the
    color, no order but [pk], and the audit log only by entries of [pk]
    added at its end. *)
Definition order_frame (pk : Z) (d d' : DB) : Prop :=
  productos d' = productos d /\ talles d' = talles d /\ items d' = items d
  /\ Forall2 (fun c c' => cs_id c' = cs_id c
                          /\ cs_talle_producto c' = cs_talle_producto c
                          /\ cs_color c' = cs_color c)
             (colores d) (colores d')
  /\ Forall2 (fun a b => pedido_id b = pedido_id a /\ (pedido_id a <> pk -> b = a))
             (pedidos d) (pedidos d')
  /\ exists extra, logs d' = (logs d ++ extra)%list
                   /\ Forall (fun l => log_pedido l = pk) extra.

(** What the stock decrement may do to the stock table: each record keeps
    its key, size and color, and a stock that was not negative stays so
    and does not grow. *)
Definition stock_shrinks (d d' : DB) : Prop :=
  Forall2 (fun c c' => cs_id c' = cs_id c
                       /\ cs_talle_producto c' = cs_talle_producto c
                       /\ cs_color c' = cs_color c
                       /\ (0 <= cs_stock c -> 0 <= cs_stock c' <= cs_stock c))
          (colores d) (colores d').





(** ** Sample catalogue *)

(** Within each size, no two colors are equal up to case. *)
Definition colors_distinct (d : DB) : Prop :=
  forall c1 c2, In c1 (colores d) -> In c2 (colores d) ->
    cs_talle_producto c1 = cs_talle_producto c2 ->
    iexact (cs_color c1) (cs_color c2) = true -> c1 = c2.

(** The variants that a rendered product page offers: size, color, stock. *)
Definition offered (r : Res CatalogResponse) : list (string * string * Z) :=
  match r with
  | Ok (RenderProductDetail _ talles_) =>
      List.concat (List.map (fun tc => List.map (fun cs => (fst tc, cs_color cs, cs_stock cs))
                                                (snd tc)) talles_)
  | _ => []
  end.

(** The sample product in two sizes: M in red (3) and blue (0), L in
    black (0). *)
Definition two_sizes : DB :=
  {| productos := [remera];
     talles := [{| tp_id := 1; tp_producto := 1; tp_talle := "M" |};
                {| tp_id := 2; tp_producto := 1; tp_talle := "L" |}];
     colores := [{| cs_id := 1; cs_talle_producto := 1; cs_color := "Rojo"; cs_stock := 3 |};
                 {| cs_id := 2; cs_talle_producto := 1; cs_color := "Azul"; cs_stock := 0 |};
                 {| cs_id := 3; cs_talle_producto := 2; cs_color := "Negro"; cs_stock := 0 |}];
     pedidos := []; items := []; logs := [] |}.


(** ** The keys of the session cart *)

(** Whether every character of [s] satisfies [P]. *)
Fixpoint every (P : ascii -> bool) (s : string) : bool :=
  match s with
  | EmptyString => true
  | String c s' => P c && every P s'
  end.

(** A size or color name that does not hold the separator of the keys. *)
Definition no_colon (s : string) : bool :=
  every (fun c => negb (Ascii.eqb c ":")) s.

(** The sample shop with a color named with a colon, and a cart holding
    the key that [add_to_cart] writes for it. *)
Definition colon_shop : DB :=
  {| productos := [remera];
     talles := [{| tp_id := 1; tp_producto := 1; tp_talle := "M" |}];
     colores := [{| cs_id := 1; cs_talle_producto := 1; cs_color := "Azul:marino";
                    cs_stock := 3 |}];
     pedidos := []; items := []; logs := [] |}.

Definition colon_form : gmap string string :=
  <["quantity" := "1"]> (<["talle" := "M"]> (<["color" := "Azul:marino"]> ∅)).
(** * Properties *)

(** ** The monad and the read-only helpers *)

Lemma bind_ok {A B : Type} (m : M A) (k : A -> M B) (w w' : World) (a : A) :
  m w = (Ok a, w') -> bind m k w = k a w'.
Proof. intros H. unfold bind. rewrite H. reflexivity. Qed.

Lemma bind_raise {A B : Type} (m : M A) (k : A -> M B) (w w' : World) (e : Exc) :
  m w = (Raise e, w') -> bind m k w = (Raise e, w').
Proof. intros H. unfold bind. rewrite H. reflexivity. Qed.

Lemma get_pedido_or_404_ok (w : World) (pk : Z) (p : Pedido) :
  in_int64 pk = true -> find_pedido pk (db w) = Some p -> load_pedido p = Ok p ->
  get_pedido_or_404 pk w = (Ok p, w).
Proof.
  intros Hr H Hl. unfold get_pedido_or_404, bind, get_db, lift. rewrite Hr, H, Hl. reflexivity.
Qed.

Lemma load_pedido_same (p q : Pedido) : load_pedido p = Ok q -> q = p.
Proof. unfold load_pedido. destruct (fits _ && fits _); congruence. Qed.

(** What [get_pedido_or_404] does, case by case: it reads only, and what
    it returns is the row of the key. *)
Lemma get_pedido_or_404_cases (w : World) (pk : Z) :
  (exists p, get_pedido_or_404 pk w = (Ok p, w)
             /\ in_int64 pk = true /\ find_pedido pk (db w) = Some p /\ load_pedido p = Ok p)
  \/ (exists e, get_pedido_or_404 pk w = (Raise e, w)).
Proof.
  unfold get_pedido_or_404, bind, get_db, lift, raise.
  destruct (in_int64 pk); [|right; eexists; reflexivity].
  destruct (find_pedido pk (db w)) as [p|]; [|right; eexists; reflexivity].
  destruct (load_pedido p) as [q|e] eqn:Hl; [|right; eexists; reflexivity].
  pose proof (load_pedido_same _ _ Hl). subst q.
  left. exists p. auto.
Qed.

Lemma variant_stock_reads (a : IntOrStr) (talle color : string) (w : World) :
  snd (_variant_stock a talle color w) = w.
Proof.
  unfold _variant_stock, bind, int_of, get_db, ret, raise.
  destruct a as [n|s]; simpl.
  - destruct (in_int64 n); simpl; [|reflexivity].
    destruct (objects_get _ _) as [tp|[]]; simpl; try reflexivity.
    destruct (filter_first _ _); reflexivity.
  - destruct (int s) as [n|]; simpl; try reflexivity.
    destruct (in_int64 n); simpl; [|reflexivity].
    destruct (objects_get _ _) as [tp|[]]; simpl; try reflexivity.
    destruct (filter_first _ _); reflexivity.
Qed.

Lemma variant_stock_run (a : IntOrStr) (talle color : string) (w : World) (r : Res Z) :
  fst (_variant_stock a talle color w) = r -> _variant_stock a talle color w = (r, w).
Proof.
  intros <-. rewrite <- (variant_stock_reads a talle color w) at 3.
  destruct (_variant_stock a talle color w); reflexivity.
Qed.

Lemma flashed_add (w : World) (m : Message) : flashed w (add_flash m w) = [m].
Proof.
  unfold flashed, add_flash; simpl.
  rewrite drop_app_length. reflexivity.
Qed.

Lemma stored_add_flash (w : World) (m : Message) (k : string) :
  stored (add_flash m w) k = stored w k.
Proof. reflexivity. Qed.

(** ** Redirects *)

Lemma redirect_cart (w : World) :
  redirect "store:cart" None w = (Ok (HttpResponseRedirect "store:cart" None), w).
Proof. reflexivity. Qed.

Lemma redirect_product_detail (pk : Z) (w : World) :
  0 <= pk ->
  redirect "store:product_detail" (Some pk) w
  = (Ok (HttpResponseRedirect "store:product_detail" (Some pk)), w).
Proof.
  intros H. unfold redirect, bind, lift, reverse. simpl.
  replace (0 <=? pk) with true by (symmetry; apply Z.leb_le; exact H). reflexivity.
Qed.

Lemma redirect_order_detail (pk : Z) (w : World) :
  0 <= pk ->
  redirect "store:order_detail" (Some pk) w
  = (Ok (HttpResponseRedirect "store:order_detail" (Some pk)), w).
Proof.
  intros H. unfold redirect, bind, lift, reverse. simpl.
  replace (0 <=? pk) with true by (symmetry; apply Z.leb_le; exact H). reflexivity.
Qed.

(** The route that [admin_order_detail] redirects to is not one of
    [store/urls.py], which calls it [admin_order_detail]. *)
Lemma redirect_panel_order_detail (pk : option Z) (w : World) :
  redirect "store:panel_order_detail" pk w = (Raise NoReverseMatch, w).
Proof. reflexivity. Qed.

Lemma redirect_reads (to : string) (pk : option Z) (w : World) :
  snd (redirect to pk w) = w.
Proof. unfold redirect, bind, lift. destruct (reverse to pk); reflexivity. Qed.

(** ** The session cart, as a dict and as a map *)

Lemma assoc_to_map (l : list (string * Z)) (k : string) :
  assoc k l = (list_to_map l : gmap string Z) !! k.
Proof.
  induction l as [|[k' v] l IH]; simpl; [rewrite lookup_empty; reflexivity|].
  destruct (String.eqb k' k) eqn:E.
  - apply String.eqb_eq in E. subst k'. rewrite lookup_insert_eq. reflexivity.
  - apply String.eqb_neq in E. rewrite lookup_insert_ne by exact E. exact IH.
Qed.

Lemma dict_lookup (d : odict) (k : string) : d !! k = to_map d !! k.
Proof. destruct d as [l]. apply assoc_to_map. Qed.

Lemma to_map_insert (d : odict) (k : string) (v : Z) :
  to_map (<[k := v]> d) = <[k := v]> (to_map d).
Proof.
  destruct d as [l]. unfold to_map, insert at 1, odict_insert. simpl.
  induction l as [|[k' v'] l IH]; simpl; [reflexivity|].
  destruct (String.eqb k' k) eqn:E.
  - apply String.eqb_eq in E. subst k'. simpl. rewrite insert_insert_eq. reflexivity.
  - apply String.eqb_neq in E. simpl. rewrite IH. apply insert_insert_ne. congruence.
Qed.

Lemma to_map_delete (d : odict) (k : string) : to_map (delete k d) = delete k (to_map d).
Proof.
  destruct d as [l]. unfold to_map, delete at 1, odict_delete. simpl.
  induction l as [|[k' v'] l IH]; simpl; [rewrite delete_empty; reflexivity|].
  destruct (String.eqb k' k) eqn:E; simpl.
  - apply String.eqb_eq in E. subst k'. rewrite IH, delete_insert_eq. reflexivity.
  - apply String.eqb_neq in E. rewrite IH, delete_insert_ne by congruence. reflexivity.
Qed.

Lemma to_map_empty : to_map ∅ = ∅.
Proof. reflexivity. Qed.

Lemma first_items_spec (l : list (string * Z)) (seen : list string) :
  NoDup (first_items seen l).*1
  /\ forall k v, (k, v) ∈ first_items seen l <-> ((k ∉ seen) /\ assoc k l = Some v).
Proof.
  revert seen. induction l as [|[k' v'] l IH]; intros seen; simpl.
  - split; [constructor|]. intros k v. split; [intros H; inversion H | intros [_ H]; discriminate].
  - destruct (existsb (String.eqb k') seen) eqn:Hs.
    + destruct (IH seen) as [Hnd Hin]. split; [exact Hnd|].
      intros k v. rewrite Hin.
      apply existsb_exists in Hs as (x & Hx & Hxe). apply String.eqb_eq in Hxe. subst x.
      destruct (String.eqb k' k) eqn:E; [|tauto].
      apply String.eqb_eq in E. subst k'.
      split; [intros [Hk _] | intros [Hk _]]; exfalso; apply Hk; apply list_elem_of_In, Hx.
    + destruct (IH (k' :: seen)) as [Hnd Hin].
      assert (Hk' : k' ∉ seen).
      { intros H. apply list_elem_of_In in H.
        assert (existsb (String.eqb k') seen = true); [|congruence].
        apply existsb_exists. exists k'. split; [exact H | apply String.eqb_refl]. }
      split.
      * csimpl. constructor; [|exact Hnd].
        intros H. apply list_elem_of_fmap in H as ([k v] & Hk & H). simpl in Hk. subst k.
        apply Hin in H as [H _]. apply H. left.
      * intros k v. rewrite elem_of_cons, Hin, not_elem_of_cons.
        destruct (String.eqb k' k) eqn:E.
        -- apply String.eqb_eq in E. subst k'.
           split; [intros [H|[[H _] _]]; [inversion H; subst; auto | congruence]
                  | intros [_ H]; left; congruence].
        -- apply String.eqb_neq in E.
           split; [intros [H|[[_ H1] H2]]; [inversion H; congruence | auto]
                  | intros [H1 H2]; right; auto].
Qed.

Lemma items_of_dict_nodup (d : odict) : NoDup (items_of_dict d).*1.
Proof. apply first_items_spec. Qed.

Lemma elem_of_items_of_dict (d : odict) (k : string) (v : Z) :
  (k, v) ∈ items_of_dict d <-> to_map d !! k = Some v.
Proof.
  unfold items_of_dict. rewrite (proj2 (first_items_spec (entries d) [])).
  destruct d as [l]. unfold to_map. simpl. rewrite assoc_to_map.
  split; [intros [_ H]; exact H | intros H; split; [apply not_elem_of_nil | exact H]].
Qed.

Lemma cart_dict_lookup (w : World) (k : string) : cart_dict w !! k = cart_of w !! k.
Proof. apply dict_lookup. Qed.

Lemma cart_of_set (c : odict) (w : World) : cart_of (set_session_cart c w) = to_map c.
Proof. reflexivity. Qed.


Lemma dict_lookup_insert_eq (d : odict) (k : string) (v : Z) : <[k := v]> d !! k = Some v.
Proof. rewrite dict_lookup, to_map_insert. apply lookup_insert_eq. Qed.

Lemma dict_lookup_insert_ne (d : odict) (k k' : string) (v : Z) :
  k <> k' -> <[k := v]> d !! k' = d !! k'.
Proof. intros H. rewrite !dict_lookup, to_map_insert. apply lookup_insert_ne, H. Qed.

Lemma dict_lookup_delete_eq (d : odict) (k : string) : delete k d !! k = None.
Proof. rewrite dict_lookup, to_map_delete. apply lookup_delete_eq. Qed.

Lemma dict_lookup_delete_ne (d : odict) (k k' : string) :
  k <> k' -> delete k d !! k' = d !! k'.
Proof. intros H. rewrite !dict_lookup, to_map_delete. apply lookup_delete_ne, H. Qed.
(** ** Removing from the cart *)

(** C9, as amended.  Removing a key that the cart does not hold is not a
    failure: [remove_from_cart] raises nothing, it tells the user with an
    error message, answers with its redirect to the cart and leaves the
    session and the database as they were.  Removing a key that the cart
    holds deletes that entry and leaves every other entry as it was. *)
Theorem remove_from_cart_reports_absent_key (w : World) (key : string) :
  (cart_of w !! key = None ->
     let '(r, w') := remove_from_cart POST key w in
     r = Ok (HttpResponseRedirect "store:cart" None)
     /\ flashed w w' = [{| level := LError; text := "El producto no estaba en el carrito." |}]
     /\ session_cart w' = session_cart w /\ db w' = db w)
  /\ (is_Some (cart_of w !! key) ->
        let '(r, w') := remove_from_cart POST key w in
        r = Ok (HttpResponseRedirect "store:cart" None)
        /\ flashed w w' = [{| level := LSuccess; text := "Producto eliminado del carrito." |}]
        /\ cart_of w' = delete key (cart_of w)
        /\ cart_of w' !! key = None
        /\ (forall k, k <> key -> cart_of w' !! k = cart_of w !! k)
        /\ db w' = db w).
Proof.
  split.
  - intros Hk. unfold remove_from_cart, bind at 1, session_get_cart at 1.
    fold (cart_dict w). rewrite cart_dict_lookup, Hk.
    unfold bind, messages_add. rewrite redirect_cart.
    repeat split; try reflexivity. apply flashed_add.
  - intros [v Hk]. unfold remove_from_cart, bind at 1, session_get_cart at 1.
    fold (cart_dict w). rewrite cart_dict_lookup, Hk.
    unfold bind, session_set_cart, messages_add. rewrite redirect_cart.
    assert (Hc : cart_of (add_flash {| level := LSuccess;
                                       text := "Producto eliminado del carrito." |}
                            (set_session_cart (delete key (cart_dict w)) w))
                 = delete key (cart_of w)).
    { unfold cart_of at 1, cart_dict at 1. simpl. apply to_map_delete. }
    rewrite Hc.
    repeat split; try reflexivity.
    + unfold flashed; simpl. rewrite drop_app_length. reflexivity.
    + apply lookup_delete_eq.
    + intros k Hne. apply lookup_delete_ne. congruence.
Qed.

Lemma remove_from_cart_witness :
  cart_of (snd (remove_from_cart POST "1:M:Rojo" (world_of (shop 5 [] [] []) (Some red_3))))
    !! "1:M:Rojo" = None.
Proof.
  pose proof (remove_from_cart_reports_absent_key
                (world_of (shop 5 [] [] []) (Some red_3)) "1:M:Rojo") as [_ H].
  destruct (remove_from_cart POST "1:M:Rojo" (world_of (shop 5 [] [] []) (Some red_3)))
    as [r w'].
  apply H. exists 3. vm_compute. reflexivity.
Defined.

(** C9 as stated fails: removing a key that the cart does not hold does
    not fail. *)
Lemma remove_absent_does_not_fail :
  ~ (forall (w : World) (key : string),
       cart_of w !! key = None ->
       exists e, fst (remove_from_cart POST key w) = Raise e).
Proof.
  intros H.
  destruct (H (world_of (shop 5 [] [] []) (Some red_3)) "9:S:Gris"
              ltac:(vm_compute; reflexivity)) as [e He].
  vm_compute in He. discriminate He.
Qed.

(** ** Adding to the cart *)

Lemma string_eqb_empty (s : string) : s <> "" -> String.eqb s "" = false.
Proof. intros H. apply String.eqb_neq. exact H. Qed.

Lemma stored_set (c : odict) (w : World) (m : Message) (key : string) (v : Z) :
  stored (add_flash m (set_session_cart (<[key := v]> c) w)) key = v.
Proof.
  unfold stored, cart_of, cart_dict. simpl. rewrite to_map_insert, lookup_insert_eq. reflexivity.
Qed.

(** C4, as amended.  With a requested quantity [q > 0], an in-cart
    quantity [current] with [0 <= current <= s] for the live stock [s] of
    the variant, and [current + q > s], [add_to_cart] leaves the stored
    quantity equal to [s], having added [s - current]; when that is zero
    the view raises nothing and answers with a warning.  A requested
    quantity that is not positive is refused with an error message, and
    the cart stays as it was. *)
Theorem add_to_cart_clamps_to_stock
    (w : World) (post : gmap string string) (pk q s : Z) (talle color : string) :
  int (default "1" (post !! "quantity")) = Some q ->
  post !! "talle" = Some talle -> talle <> "" ->
  post !! "color" = Some color -> color <> "" ->
  fst (_variant_stock (AnInt pk) talle color w) = Ok s ->
  let key := cart_key pk talle color in
  let current := stored w key in
  let '(r, w') := add_to_cart POST post pk w in
  (0 < q -> 0 <= current <= s -> s < current + q ->
     r = Ok (HttpResponseRedirect "store:cart" None)
     /\ stored w' key = s
     /\ stored w' key - current = s - current
     /\ (current < s ->
           flashed w w' =
             [{| level := LInfo;
                 text := "Se agregaron " +:+ str (s - current) +:+
                         " (limitado por stock: " +:+ str s +:+ ")." |}])
     /\ (current = s ->
           session_cart w' = session_cart w
           /\ exists m, flashed w w' = [m] /\ level m = LWarning))
  /\ (q <= 0 ->
        flashed w w' = [{| level := LError; text := "Cantidad inválida." |}]
        /\ session_cart w' = session_cart w
        /\ (0 <= pk -> r = Ok (HttpResponseRedirect "store:product_detail" (Some pk)))).
Proof.
  intros Hq Ht Htne Hc Hcne Hs key current.
  unfold add_to_cart. rewrite Hq.
  destruct (q <? 1) eqn:Hq1.
  - (* the quantity is refused *)
    apply Z.ltb_lt in Hq1.
    unfold bind at 1, messages_add.
    pose proof (redirect_reads "store:product_detail" (Some pk)
                  (add_flash {| level := LError; text := "Cantidad inválida." |} w)) as Hrd.
    pose proof (redirect_product_detail pk
                  (add_flash {| level := LError; text := "Cantidad inválida." |} w)) as Hrp.
    destruct (redirect "store:product_detail" (Some pk) _) as [r w'].
    simpl in Hrd. subst w'.
    split; [lia|]. intros _.
    split; [apply flashed_add|]. split; [reflexivity|].
    intros Hpk. specialize (Hrp Hpk). congruence.
  - apply Z.ltb_ge in Hq1.
    rewrite Ht, Hc. simpl.
    unfold truthy. rewrite (string_eqb_empty _ Htne), (string_eqb_empty _ Hcne). simpl.
    unfold bind at 1. unfold session_get_cart at 1.
    unfold bind at 1. rewrite (variant_stock_run _ _ _ _ _ Hs).
    fold (cart_dict w). fold key. rewrite cart_dict_lookup. fold (stored w key). fold current.
    destruct (s <=? 0) eqn:Hs0.
    + (* no stock *)
      apply Z.leb_le in Hs0.
      unfold bind, messages_add. rewrite redirect_cart.
      split; [|lia]. intros _ Hle Hlt.
      assert (current = s) by lia.
      repeat split; try reflexivity; try lia.
      all: try (intros ?; lia).
      all: try (rewrite stored_add_flash; fold current; lia).
      all: try (eexists; split; [apply flashed_add | reflexivity]).
    + apply Z.leb_gt in Hs0.
      rewrite Z.gtb_ltb.
      destruct (s <? current + q) eqn:Hover;
        [apply Z.ltb_lt in Hover | apply Z.ltb_ge in Hover].
      * destruct (s - current <=? 0) eqn:Hadd.
        -- apply Z.leb_le in Hadd.
           unfold bind, messages_add. rewrite redirect_cart.
           split; [|lia]. intros _ Hle Hlt.
           assert (current = s) by lia.
           repeat split; try reflexivity; try lia.
           all: try (intros ?; lia).
           all: try (rewrite stored_add_flash; fold current; lia).
           all: try (eexists; split; [apply flashed_add | reflexivity]).
        -- apply Z.leb_gt in Hadd.
           assert (Hlt : (s - current <? q) = true) by (apply Z.ltb_lt; lia).
           rewrite Hlt.
           unfold bind, messages_add, session_set_cart. rewrite redirect_cart.
           split; [|lia]. intros _ Hle Hlt'.
           rewrite stored_set.
           repeat split; try reflexivity.
           ++ intros _. unfold flashed; simpl. rewrite drop_app_length. reflexivity.
           ++ lia.
           ++ lia.
      * match goal with |- context [ ?m w ] => destruct (m w) as [r w'] end.
        split; intros; lia.
Qed.

Lemma add_to_cart_clamps_witness :
  stored (snd (add_to_cart POST (add_form "4") 1 (world_of (shop 5 [] [] []) (Some red_3))))
         (cart_key 1 "M" "Rojo") = 5.
Proof.
  pose proof (add_to_cart_clamps_to_stock
                (world_of (shop 5 [] [] []) (Some red_3)) (add_form "4") 1 4 5 "M" "Rojo"
                ltac:(vm_compute; reflexivity) ltac:(vm_compute; reflexivity)
                ltac:(discriminate) ltac:(vm_compute; reflexivity)
                ltac:(discriminate) ltac:(vm_compute; reflexivity)) as H.
  cbv zeta in H.
  destruct (add_to_cart POST (add_form "4") 1 (world_of (shop 5 [] [] []) (Some red_3)))
    as [r w'].
  destruct H as [H _].
  apply H.
  - lia.
  - vm_compute. split; discriminate.
  - vm_compute. reflexivity.
Defined.

(** C4 as stated fails: an entry above the live stock (the stock went
    down after the entry was made) is left as it is by [add_to_cart]. *)
Lemma add_to_cart_keeps_stale_quantity :
  ~ (forall (w : World) (post : gmap string string) (pk q s : Z) (talle color : string),
       int (default "1" (post !! "quantity")) = Some q -> 0 < q ->
       post !! "talle" = Some talle -> talle <> "" ->
       post !! "color" = Some color -> color <> "" ->
       fst (_variant_stock (AnInt pk) talle color w) = Ok s ->
       s < stored w (cart_key pk talle color) + q ->
       stored (snd (add_to_cart POST post pk w)) (cart_key pk talle color) = s
       /\ stored (snd (add_to_cart POST post pk w)) (cart_key pk talle color)
          - stored w (cart_key pk talle color)
          = s - stored w (cart_key pk talle color)).
Proof.
  intros H.
  specialize (H (world_of (shop 3 [] [] []) (Some red_5)) (add_form "1") 1 1 3 "M" "Rojo"
                ltac:(vm_compute; reflexivity) ltac:(lia)
                ltac:(vm_compute; reflexivity) ltac:(discriminate)
                ltac:(vm_compute; reflexivity) ltac:(discriminate)
                ltac:(vm_compute; reflexivity) ltac:(vm_compute; reflexivity)).
  destruct H as [H _]. vm_compute in H. discriminate.
Qed.

(** ** Marking an order as paid without a tracking number *)

(** C3.  A status update that sets the order to 'realizado' while the
    tracking number is missing, empty or blank is rejected: the view adds
    its error message and stops before any write, so the order keeps its
    status and tracking number, no stock is decremented and no audit
    entry is added.  Its redirect names a route that [store/urls.py] does
    not have, so the answer is [NoReverseMatch].  The admin form refuses
    the same input with a [ValidationError]. *)
Theorem realizado_without_tracking_is_rejected
    (w : World) (post : gmap string string) (pk : Z) (p : Pedido) :
  in_int64 pk = true ->
  find_pedido pk (db w) = Some p ->
  load_pedido p = Ok p ->
  default (estado p) (post !! "estado") = "realizado" ->
  strip (default "" (post !! "tracking_number")) = "" ->
  let '(r, w') := admin_order_detail POST post pk w in
  r = Raise NoReverseMatch
  /\ flashed w w' =
       [{| level := LError;
           text := "Para marcar como 'Pago Realizado' debés informar el número de seguimiento." |}]
  /\ db w' = db w
  /\ find_pedido pk (db w') = Some p
  /\ colores (db w') = colores (db w)
  /\ logs (db w') = logs (db w)
  /\ PedidoForm_clean (Some "realizado") None
     = Raise (ValidationError
                "Para marcar como 'Pago Realizado' debe informar el número de seguimiento.")
  /\ PedidoForm_clean (Some "realizado") (Some "")
     = Raise (ValidationError
                "Para marcar como 'Pago Realizado' debe informar el número de seguimiento.").
Proof.
  intros Hr Hp Hl He Ht.
  unfold admin_order_detail.
  rewrite (bind_ok _ _ _ _ _ (get_pedido_or_404_ok _ _ _ Hr Hp Hl)).
  cbv zeta. rewrite He, Ht.
  change (String.eqb "realizado" "realizado" && negb (truthy "")) with true. cbv iota.
  unfold bind, messages_add. rewrite redirect_panel_order_detail.
  repeat split; try reflexivity.
  - apply flashed_add.
  - exact Hp.
Qed.

Lemma realizado_without_tracking_witness :
  db (snd (admin_order_detail POST (estado_form "realizado" "  ") 1
             (world_of (shop 5 [pedido_1 "pendiente" None] [item_1 "Rojo" 3] []) None)))
  = shop 5 [pedido_1 "pendiente" None] [item_1 "Rojo" 3] [].
Proof.
  pose proof (realizado_without_tracking_is_rejected
                (world_of (shop 5 [pedido_1 "pendiente" None] [item_1 "Rojo" 3] []) None)
                (estado_form "realizado" "  ") 1 (pedido_1 "pendiente" None)
                ltac:(reflexivity) ltac:(reflexivity) ltac:(reflexivity)
                ltac:(vm_compute; reflexivity)
                ltac:(vm_compute; reflexivity)) as H.
  destruct (admin_order_detail POST (estado_form "realizado" "  ") 1
              (world_of (shop 5 [pedido_1 "pendiente" None] [item_1 "Rojo" 3] []) None))
    as [r w'].
  destruct H as (_ & _ & H & _). exact H.
Defined.

(** A tracking number of white space beyond ASCII, here a no-break
    space, is blank too. *)
Lemma blank_tracking_example :
  strip (String (ascii_of_nat 194) (String (ascii_of_nat 160) " ")) = "".
Proof. reflexivity. Qed.

(** ** The order list of the staff panel *)

Lemma admin_orders_without_query (w : World) (get_ : gmap string string) :
  strip (default "" (get_ !! "q")) = "" ->
  exists l e, admin_orders get_ w = (Ok (RenderAdminOrders l e ""), w).
Proof.
  intros Hq. unfold admin_orders, bind, get_db. simpl. rewrite Hq. simpl.
  eexists _, _. reflexivity.
Qed.

(** C10 fails on the code.  With a free-text query that is not blank,
    [admin_orders] evaluates the name [Q], which [store/views.py] never
    binds, and so raises [NameError] instead of returning the matching
    orders. *)
Theorem admin_orders_query_raises_NameError (w : World) (get_ : gmap string string) :
  strip (default "" (get_ !! "q")) <> "" ->
  admin_orders get_ w = (Raise (NameError "Q"), w).
Proof.
  intros Hq. unfold admin_orders, bind, get_db. simpl.
  unfold truthy. rewrite (string_eqb_empty _ Hq). reflexivity.
Qed.

Lemma admin_orders_query_witness :
  fst (admin_orders (q_form "perez")
         (world_of (shop 5 [pedido_1 "pendiente" None] [item_1 "Rojo" 3] []) None))
  = Raise (NameError "Q").
Proof.
  rewrite (admin_orders_query_raises_NameError
             (world_of (shop 5 [pedido_1 "pendiente" None] [item_1 "Rojo" 3] []) None)
             (q_form "perez") ltac:(vm_compute; discriminate)).
  reflexivity.
Defined.

(** ** The shipping client *)

Lemma calculate_shipping_missing_cost (w : World) (a b c d : option string)
    (status : Z) (members : list (string * JsonValue)) (printed : string) :
  andreani w = PostResponse status (Some (JObject members printed)) ->
  status < 400 ->
  lookup_member "cost" members = None ->
  calculate_shipping a b c d w
  = (Raise (ShippingError ("Respuesta inesperada: " +:+ printed)), w).
Proof.
  intros Ha Hs Hm. unfold calculate_shipping, post_and_decode. rewrite Ha.
  replace (400 <=? status) with false by (symmetry; apply Z.leb_gt; lia).
  simpl. rewrite Hm. reflexivity.
Qed.

(** C7 fails on the code.  On a network error ([session.post] raises a
    [RequestException]) and on an authentication or other HTTP failure
    ([raise_for_status] raises on a status from 400 to 599),
    [calculate_shipping] raises no [ShippingError]: it returns [None]. *)
Theorem calculate_shipping_returns_None_on_request_error
    (w : World) (a b c d : option string) :
  (exists kind, andreani w = PostRaises kind)
  \/ (exists status body, andreani w = PostResponse status body /\ 400 <= status < 600) ->
  calculate_shipping a b c d w = (Ok None, w).
Proof.
  intros [[kind H] | (status & body & H & Hs)];
    unfold calculate_shipping, post_and_decode; rewrite H.
  - reflexivity.
  - replace (400 <=? status) with true by (symmetry; apply Z.leb_le; lia).
    replace (status <? 600) with true by (symmetry; apply Z.ltb_lt; lia).
    reflexivity.
Qed.

Lemma calculate_shipping_None_witness :
  fst (calculate_shipping (Some "Buenos Aires") (Some "Tandil") (Some "Mitre") (Some "120")
         (world_of (shop 5 [] [] []) None)) = Ok None.
Proof.
  rewrite (calculate_shipping_returns_None_on_request_error
             (world_of (shop 5 [] [] []) None)
             (Some "Buenos Aires") (Some "Tandil") (Some "Mitre") (Some "120")
             ltac:(left; exists "ConnectionError"; reflexivity)).
  reflexivity.
Defined.

(** ** Reading the cart *)

Lemma get_producto_or_404_reads (a : IntOrStr) (w : World) :
  snd (get_producto_or_404 a w) = w.
Proof.
  unfold get_producto_or_404, bind, int_of, get_db, ret, raise.
  destruct a as [n|s]; simpl.
  - destruct (if in_int64 n then _ else _); reflexivity.
  - destruct (int s) as [n|]; simpl; [|reflexivity].
    destruct (if in_int64 n then _ else _); reflexivity.
Qed.

Lemma checkout_body_run (st : list CheckoutLine * Z) (entry : string * Z) (w : World) :
  snd (checkout_body st entry w) = w
  /\ forall st', fst (checkout_body st entry w) = Ok st' ->
                 List.map co_qty (fst st') = (List.map co_qty (fst st) ++ [snd entry])%list.
Proof.
  unfold checkout_body.
  destruct (split ":" (fst entry)) as [|pid [|talle [|color [|]]]];
    try (split; [reflexivity | intros ?; discriminate]).
  unfold bind.
  pose proof (get_producto_or_404_reads (AStr pid) w) as Hr.
  destruct (get_producto_or_404 (AStr pid) w) as [[prod|e] w1]; simpl in *; subst w1.
  - split; [reflexivity|]. intros st' H. inversion H; subst; simpl.
    rewrite List.map_app. reflexivity.
  - split; [reflexivity | intros ?; discriminate].
Qed.

Lemma checkout_loop_run (l : list (string * Z)) (st : list CheckoutLine * Z) (w : World) :
  snd (fold_m checkout_body l st w) = w
  /\ forall st', fst (fold_m checkout_body l st w) = Ok st' ->
                 List.map co_qty (fst st') = (List.map co_qty (fst st) ++ List.map snd l)%list.
Proof.
  revert st. induction l as [|entry l IH]; intros st; simpl.
  - split; [reflexivity|]. intros st' H. inversion H; subst.
    rewrite List.app_nil_r. reflexivity.
  - unfold bind.
    destruct (checkout_body_run st entry w) as [Hw Hq].
    destruct (checkout_body st entry w) as [[st1|e] w1]; simpl in *; subst w1.
    + destruct (IH st1) as [Hw' Hq'].
      split; [exact Hw'|]. intros st' H.
      rewrite (Hq' st' H), (Hq st1 eq_refl), <- List.app_assoc. reflexivity.
    + split; [reflexivity | intros ?; discriminate].
Qed.

Lemma shipping_or_zero_keeps (warn : bool) (a b c d : option string) (w : World) :
  db (snd (shipping_or_zero warn a b c d w)) = db w
  /\ session_cart (snd (shipping_or_zero warn a b c d w)) = session_cart w.
Proof.
  unfold shipping_or_zero, calculate_shipping.
  destruct (post_and_decode (andreani w)) as [cost|[]]; simpl;
    try (destruct warn; split; reflexivity); split; reflexivity.
Qed.

(** C5 fails on the code.  The checkout page reads the cart's entries
    without looking at the stock: the quantities it shows are the stored
    ones, entry by entry in the order of the dict, whatever the live
    stock is, and the session cart is left as it was (no cap, no purge,
    no flag). *)
Theorem checkout_does_not_revalidate
    (w w' : World) (get_ post : gmap string string)
    (items_ : list CheckoutLine) (sub ship tot : Z) :
  checkout GET get_ post w = (Ok (RenderCheckout items_ sub ship tot), w') ->
  List.map co_qty items_ = List.map snd (items_of_dict (cart_dict w))
  /\ session_cart w' = session_cart w
  /\ cart_of w' = cart_of w
  /\ db w' = db w.
Proof.
  unfold checkout, bind at 1, session_get_cart at 1. fold (cart_dict w).
  unfold bind at 1.
  destruct (checkout_loop_run (items_of_dict (cart_dict w)) ([], 0) w) as [Hw Hq].
  destruct (fold_m checkout_body (items_of_dict (cart_dict w)) ([], 0) w) as [[st|e] w1];
    simpl in Hw; subst w1; [|discriminate].
  unfold bind at 1.
  match goal with |- context [shipping_or_zero ?x ?a ?b ?c ?d w] =>
    destruct (shipping_or_zero_keeps x a b c d w) as [Hd Hs];
    destruct (shipping_or_zero x a b c d w) as [[sc|e] w2]
  end; simpl in Hd, Hs; [|discriminate].
  unfold ret. intros H. inversion H; subst.
  split; [apply (Hq st eq_refl)|].
  split; [exact Hs|].
  split; [unfold cart_of, cart_dict; rewrite Hs; reflexivity | exact Hd].
Qed.

Lemma checkout_does_not_revalidate_witness :
  fst (_variant_stock (AStr "1") "M" "Rojo" (world_of (shop 1 [] [] []) (Some red_5))) = Ok 1
  /\ checkout_quantities (fst (checkout GET ∅ ∅ (world_of (shop 1 [] [] []) (Some red_5)))) = [5]
  /\ session_cart (snd (checkout GET ∅ ∅ (world_of (shop 1 [] [] []) (Some red_5))))
     = Some red_5.
Proof.
  assert (E : checkout GET ∅ ∅ (world_of (shop 1 [] [] []) (Some red_5))
              = (Ok (RenderCheckout
                       [{| co_producto := remera; co_talle := "M"; co_color := "Rojo";
                           co_qty := 5; co_subtotal := 750000 |}] 750000 0 750000),
                 world_of (shop 1 [] [] []) (Some red_5)))
    by (vm_compute; reflexivity).
  destruct (checkout_does_not_revalidate _ _ _ _ _ _ _ _ E) as (Hq & Hc & _).
  rewrite E. unfold checkout_quantities, fst, snd.
  split; [vm_compute; reflexivity|].
  split; [rewrite Hq; vm_compute; reflexivity | exact Hc].
Defined.

(** ** What a computation leaves alone *)

Section Keeps.

Variable R : DB -> DB -> Prop.
Hypothesis R_refl : forall d, R d d.
Hypothesis R_trans : forall a b c, R a b -> R b c -> R a c.

Lemma keeps_ret {A : Type} (a : A) : keeps R (ret a).
Proof. intros w. apply R_refl. Qed.

Lemma keeps_raise {A : Type} (e : Exc) : keeps R (@raise A e).
Proof. intros w. apply R_refl. Qed.

Lemma keeps_lift {A : Type} (r : Res A) : keeps R (lift r).
Proof. intros w. apply R_refl. Qed.

Lemma keeps_get_db : keeps R get_db.
Proof. intros w. apply R_refl. Qed.

Lemma keeps_messages_add (lv : Level) (s : string) : keeps R (messages_add lv s).
Proof. intros w. apply R_refl. Qed.

Lemma keeps_redirect (to : string) (pk : option Z) : keeps R (redirect to pk).
Proof. intros w. rewrite redirect_reads. apply R_refl. Qed.

Lemma keeps_bind {A B : Type} (m : M A) (k : A -> M B) :
  keeps R m -> (forall a, keeps R (k a)) -> keeps R (bind m k).
Proof.
  intros Hm Hk w. unfold bind.
  specialize (Hm w).
  destruct (m w) as [[a|e] w1]; simpl in *.
  - eapply R_trans; [exact Hm | apply Hk].
  - exact Hm.
Qed.

Lemma keeps_db_write (f : DB -> DB) : (forall d, R d (f d)) -> keeps R (db_write f).
Proof.
  intros Hf w. unfold db_write.
  destruct (writes_left w) as [[|n]|]; simpl; auto.
Qed.

Lemma keeps_for_each {A : Type} (l : list A) (body : A -> M unit) :
  (forall x, keeps R (body x)) -> keeps R (for_each l body).
Proof.
  intros Hb. induction l as [|x l IH]; simpl.
  - apply keeps_ret.
  - apply keeps_bind; auto.
Qed.

End Keeps.

Lemma same_colores_refl (d : DB) : same_colores d d.
Proof. reflexivity. Qed.

Lemma same_colores_trans (a b c : DB) : same_colores a b -> same_colores b c -> same_colores a c.
Proof. unfold same_colores. congruence. Qed.

Lemma same_pedidos_refl (d : DB) : same_pedidos d d.
Proof. reflexivity. Qed.

Lemma same_pedidos_trans (a b c : DB) : same_pedidos a b -> same_pedidos b c -> same_pedidos a c.
Proof. unfold same_pedidos. congruence. Qed.

Lemma add_log_keeps_colores (pk : Z) (act : string) : keeps same_colores (add_log pk act).
Proof. apply keeps_db_write; [apply same_colores_refl | reflexivity]. Qed.

Lemma add_log_keeps_pedidos (pk : Z) (act : string) : keeps same_pedidos (add_log pk act).
Proof. apply keeps_db_write; [apply same_pedidos_refl | reflexivity]. Qed.

Lemma descontar_item_keeps_pedidos (it : ItemPedido) : keeps same_pedidos (descontar_item it).
Proof.
  unfold descontar_item.
  apply keeps_bind; [apply same_pedidos_trans | apply keeps_get_db, same_pedidos_refl |].
  intros d.
  destruct (objects_get _ _) as [tp|e].
  - destruct (filter_first _ _) as [cs|].
    + apply keeps_db_write; [apply same_pedidos_refl | reflexivity].
    + apply keeps_ret, same_pedidos_refl.
  - destruct e; first [apply keeps_ret | apply keeps_raise]; apply same_pedidos_refl.
Qed.

Lemma descontar_stock_keeps_pedidos (pk : Z) :
  keeps same_pedidos (descontar_stock_si_realizado pk).
Proof.
  unfold descontar_stock_si_realizado.
  apply keeps_bind; [apply same_pedidos_trans | apply keeps_get_db, same_pedidos_refl |].
  intros d. apply keeps_for_each.
  - apply same_pedidos_refl.
  - apply same_pedidos_trans.
  - apply descontar_item_keeps_pedidos.
Qed.

Create HintDb keeps.

#[local] Hint Resolve same_colores_refl same_colores_trans same_pedidos_refl
  same_pedidos_trans add_log_keeps_colores add_log_keeps_pedidos
  descontar_stock_keeps_pedidos : keeps.

Ltac keeps_step :=
  match goal with
  | |- keeps _ (bind _ _) => apply keeps_bind; [eauto with keeps | | intros ?]
  | |- keeps _ (if ?b then _ else _) => destruct b
  | |- keeps _ (ret _) => apply keeps_ret; eauto with keeps
  | |- keeps _ (raise _) => apply keeps_raise; eauto with keeps
  | |- keeps _ (messages_add _ _) => apply keeps_messages_add; eauto with keeps
  | |- keeps _ (redirect _ _) => apply keeps_redirect; eauto with keeps
  | |- keeps _ (db_write _) => apply keeps_db_write; [eauto with keeps | intros; reflexivity]
  | |- keeps _ _ => solve [eauto with keeps]
  end.

Ltac keeps_tac := repeat keeps_step.

Lemma find_pedido_id (pk : Z) (d : DB) (p : Pedido) :
  find_pedido pk d = Some p -> pedido_id p = pk.
Proof.
  unfold find_pedido. intros H. apply List.find_some in H as [_ H].
  apply Z.eqb_eq in H. exact H.
Qed.

Lemma find_pedido_update (pk : Z) (d : DB) (p : Pedido) (e : string) (t : option string) :
  find_pedido pk d = Some p ->
  estado_of pk (set_pedidos (update_pedido pk e t) d) = Some e.
Proof.
  unfold estado_of, find_pedido, set_pedidos; simpl.
  induction (pedidos d) as [|q l IH]; simpl; [discriminate|].
  destruct (pedido_id q =? pk) eqn:E; simpl.
  - intros _. rewrite E. reflexivity.
  - intros H. rewrite E. apply IH, H.
Qed.

(** The stock is only touched on a step from a status other than
    'realizado' to 'realizado'. *)
Lemma admin_order_detail_guard
    (w : World) (post : gmap string string) (pk : Z) (p : Pedido) :
  find_pedido pk (db w) = Some p ->
  estado p = "realizado" \/ default (estado p) (post !! "estado") <> "realizado" ->
  colores (db (snd (admin_order_detail POST post pk w))) = colores (db w).
Proof.
  intros Hp Hg. unfold admin_order_detail.
  destruct (get_pedido_or_404_cases w pk) as [(p0 & Hrun & _ & Hp0 & _) | (e & Hrun)].
  2:{ rewrite (bind_raise _ _ _ _ _ Hrun). reflexivity. }
  assert (p0 = p) by congruence. subst p0.
  rewrite (bind_ok _ _ _ _ _ Hrun).
  cbv zeta.
  assert (G : negb (String.eqb (estado p) "realizado")
              && String.eqb (default (estado p) (post !! "estado")) "realizado" = false).
  { destruct Hg as [Hg|Hg].
    - rewrite Hg. reflexivity.
    - apply String.eqb_neq in Hg. rewrite Hg. apply andb_false_r. }
  rewrite G.
  match goal with |- colores (db (snd (?m w))) = _ =>
    change (same_colores (db w) (db (snd (m w)))); generalize w;
    change (keeps same_colores m) end.
  keeps_tac.
Qed.

(** ** Marking an order as paid more than once *)

(** C2 fails on the code.  The guard looks at the previous status only:
    an order marked 'realizado', put back to 'pendiente' and marked
    'realizado' again has its lines taken off the stock twice (10, then
    7, then 4 for a line of 3) and gets two 'stock decremented' entries. *)
Theorem refulfilling_decrements_again :
  let w0 := world_of (shop 10 [pedido_1 "pendiente" None] [item_1 "Rojo" 3] []) None in
  let w1 := snd (admin_order_detail POST (estado_form "realizado" "T1") 1 w0) in
  let w2 := snd (admin_order_detail POST (estado_form "pendiente" "") 1 w1) in
  let w3 := snd (admin_order_detail POST (estado_form "realizado" "T1") 1 w2) in
  List.map cs_stock (colores (db w1)) = [7]
  /\ estado_of 1 (db w2) = Some "pendiente"
  /\ List.map cs_stock (colores (db w2)) = [7]
  /\ w3 = three_updates w0
  /\ List.map cs_stock (colores (db w3)) = [4]
  /\ count_stock_entries (logs (db w3)) = 2%nat.
Proof. vm_compute. repeat split; reflexivity. Qed.

(** The admin form has the same guard: the same three steps through
    [save_model] take the line off the stock twice. *)
Lemma save_model_refulfilling_decrements_again :
  let w0 := world_of (pending_shop 10) None in
  let w3 := submit "realizado" (Some "T1")
              (submit "pendiente" None (submit "realizado" (Some "T1") w0)) in
  List.map cs_stock (colores (db w3)) = [4]
  /\ count_stock_entries (logs (db w3)) = 2%nat.
Proof. vm_compute. split; reflexivity. Qed.

(** ** Order lines without a stock record *)

(** C8, as amended.  The stock decrement of a fulfilment passes over an
    order line whose (product, size) or color matches no stock record:
    the step for that line returns normally and leaves the stock, the
    audit log and the messages as they were. *)
Theorem descontar_item_skips_unmatched (w : World) (it : ItemPedido) :
  unmatched (db w) it -> descontar_item it w = (Ok tt, w).
Proof.
  unfold descontar_item, bind, get_db.
  intros [H | (tp & H & Hc)]; rewrite H; [reflexivity|].
  rewrite Hc. reflexivity.
Qed.

Lemma descontar_item_skips_witness :
  descontar_stock_si_realizado 1
    (world_of (shop 5 [pedido_1 "realizado" (Some "T1")] [item_1 "Verde" 3] []) None)
  = (Ok tt, world_of (shop 5 [pedido_1 "realizado" (Some "T1")] [item_1 "Verde" 3] []) None).
Proof.
  unfold descontar_stock_si_realizado, bind, get_db.
  change (items_of 1 _) with [item_1 "Verde" 3].
  unfold for_each, bind.
  rewrite (descontar_item_skips_unmatched
             (world_of (shop 5 [pedido_1 "realizado" (Some "T1")] [item_1 "Verde" 3] []) None)
             (item_1 "Verde" 3)).
  - reflexivity.
  - right. eexists. split; vm_compute; reflexivity.
Defined.

(** C8 as stated fails: for an order line of a color that has no stock
    record, the decrement neither raises nor reports, and the view
    confirms the update and logs the stock as decremented. *)
Lemma descontar_silently_skips :
  ~ (forall (w : World) (pk : Z) (it : ItemPedido),
       In it (items_of pk (db w)) -> unmatched (db w) it ->
       (exists e, fst (descontar_stock_si_realizado pk w) = Raise e)
       \/ flashed w (snd (descontar_stock_si_realizado pk w)) <> []).
Proof.
  intros H.
  destruct (H (world_of (shop 5 [pedido_1 "pendiente" None] [item_1 "Verde" 3] []) None)
              1 (item_1 "Verde" 3)) as [[e He] | Hf].
  - left. reflexivity.
  - right. eexists. split; vm_compute; reflexivity.
  - vm_compute in He. discriminate.
  - apply Hf. vm_compute. reflexivity.
Qed.

(** ** The stock decrement on the stock table *)










Lemma stock_at_found (P : ColorStock -> bool) (C : list ColorStock) (cs : ColorStock) :
  NoDup (cs_id <$> C) -> List.find P C = Some cs ->
  stock_at (cs_id cs) C = Some (cs_stock cs).
Proof.
  unfold stock_at. induction C as [|c C IH]; simpl; [discriminate|].
  rewrite NoDup_cons. intros [Hc Hnd].
  destruct (P c).
  - intros H. inversion H; subst. rewrite Z.eqb_refl. reflexivity.
  - intros H.
    assert (cs_id c <> cs_id cs).
    { intros E. apply Hc. rewrite E. apply list_elem_of_fmap.
      exists cs. split; [reflexivity|].
      apply List.find_some in H as [H _]. apply list_elem_of_In, H. }
    replace (cs_id c =? cs_id cs) with false by (symmetry; apply Z.eqb_neq; assumption).
    apply IH; assumption.
Qed.

Lemma stock_at_member (C : list ColorStock) (c : ColorStock) :
  NoDup (cs_id <$> C) -> In c C -> stock_at (cs_id c) C = Some (cs_stock c).
Proof.
  intros Hnd Hin.
  destruct (List.find (fun x => cs_id x =? cs_id c) C) as [x|] eqn:E.
  - pose proof (stock_at_found _ _ _ Hnd E) as H.
    unfold stock_at in *. rewrite E in *. simpl in *.
    apply List.find_some in E as [Hx Hid]. apply Z.eqb_eq in Hid.
    f_equal.
    assert (x = c); [|subst; reflexivity].
    clear H. induction C as [|a C IH]; [destruct Hin|].
    simpl in Hnd. rewrite NoDup_cons in Hnd. destruct Hnd as [Ha Hnd].
    assert (Hmem : forall y, In y C -> cs_id y ∈ cs_id <$> C).
    { intros y Hy. apply list_elem_of_fmap. exists y. split; [reflexivity|].
      apply list_elem_of_In, Hy. }
    destruct Hx as [->|Hx], Hin as [->|Hin]; try reflexivity.
    + exfalso. apply Ha. rewrite Hid. apply Hmem, Hin.
    + exfalso. apply Ha. rewrite <- Hid. apply Hmem, Hx.
    + apply IH; assumption.
  - exfalso. apply (List.find_none _ _ E) in Hin. rewrite Z.eqb_refl in Hin. discriminate.
Qed.


(** ** The stock decrement when every write goes through *)

Lemma db_write_healthy (f : DB -> DB) (w : World) :
  writes_left w = None -> db_write f w = (Ok tt, set_db (f (db w)) w).
Proof. intros H. unfold db_write. rewrite H. reflexivity. Qed.

Lemma set_db_same (w : World) (d : DB) :
  productos d = productos (db w) -> talles d = talles (db w) -> colores d = colores (db w) ->
  pedidos d = pedidos (db w) -> items d = items (db w) -> logs d = logs (db w) ->
  set_db d w = w.
Proof.
  destruct w as [d0 wl sc fl nw an], d0, d; simpl.
  intros -> -> -> -> -> ->. reflexivity.
Qed.

Lemma floor_at_zero (n : Z) : (if 0 <? n then n else 0) = Z.max 0 n.
Proof. destruct (0 <? n) eqn:E; [apply Z.ltb_lt in E | apply Z.ltb_ge in E]; lia. Qed.

Lemma talle_get_unique (T : list TalleProducto) (producto : Z) (talle : string) :
  NoDup ((fun tp => (tp_producto tp, tp_talle tp)) <$> T) ->
  objects_get (is_talle producto talle) T <> Raise MultipleObjectsReturned.
Proof.
  intros Hnd. unfold objects_get.
  destruct (List.filter _ T) as [|x [|y l]] eqn:E; try discriminate.
  exfalso.
  assert (Hkey : forall z, In z (List.filter (is_talle producto talle) T) ->
                           (tp_producto z, tp_talle z) = (producto, talle)).
  { intros z Hz. apply List.filter_In in Hz as [_ Hz]. unfold is_talle in Hz.
    apply andb_true_iff in Hz as [H1 H2].
    apply Z.eqb_eq in H1. apply String.eqb_eq in H2. congruence. }
  revert x y l E Hkey. induction T as [|a T IH]; intros x y l E Hkey; [discriminate|].
  csimpl in Hnd. rewrite NoDup_cons in Hnd. destruct Hnd as [Ha Hnd].
  simpl in E, Hkey. destruct (is_talle producto talle a) eqn:Pa.
  - inversion E; subst. apply Ha.
    rewrite (Hkey x (or_introl eq_refl)).
    rewrite <- (Hkey y) by (right; rewrite H1; left; reflexivity).
    apply list_elem_of_fmap. exists y. split; [reflexivity|].
    apply list_elem_of_In.
    assert (Hy : In y (List.filter (is_talle producto talle) T)) by (rewrite H1; left; reflexivity).
    apply List.filter_In in Hy as [Hy _]. exact Hy.
  - eapply IH; eauto.
Qed.

Lemma descontar_item_healthy (w : World) (it : ItemPedido) :
  writes_left w = None ->
  NoDup ((fun tp => (tp_producto tp, tp_talle tp)) <$> talles (db w)) ->
  descontar_item it w
  = (Ok tt, set_db (set_colores (fun C => descontar_linea (talles (db w)) C it) (db w)) w).
Proof.
  intros Hw Hnd. unfold descontar_item, bind, get_db.
  pose proof (talle_get_unique _ (it_producto it) (it_talle it) Hnd) as Hu.
  unfold descontar_linea, matching_stock.
  destruct (objects_get (is_talle (it_producto it) (it_talle it)) (talles (db w)))
    as [tp|e] eqn:Hg.
  - destruct (filter_first _ (colores (db w))) as [cs|] eqn:Hc.
    + rewrite (db_write_healthy _ _ Hw), floor_at_zero.
      unfold set_colores. rewrite Hc. reflexivity.
    + unfold ret. rewrite set_db_same; try reflexivity.
      simpl. rewrite Hc. reflexivity.
  - assert (e = DoesNotExist).
    { unfold objects_get in Hg. destruct (List.filter _ _) as [|? [|? ?]]; congruence. }
    subst e. unfold ret. rewrite set_db_same; reflexivity.
Qed.

Lemma for_each_descontar_healthy (l : list ItemPedido) (w : World) :
  writes_left w = None ->
  NoDup ((fun tp => (tp_producto tp, tp_talle tp)) <$> talles (db w)) ->
  for_each l descontar_item w
  = (Ok tt, set_db (set_colores (fold_left (descontar_linea (talles (db w))) l) (db w)) w).
Proof.
  revert w. induction l as [|it l IH]; intros w Hw Hnd; simpl.
  - unfold ret. rewrite set_db_same; reflexivity.
  - rewrite (bind_ok _ _ _ _ _ (descontar_item_healthy w it Hw Hnd)).
    rewrite IH by assumption. reflexivity.
Qed.

Lemma descontar_stock_healthy (pk : Z) (w : World) :
  writes_left w = None ->
  NoDup ((fun tp => (tp_producto tp, tp_talle tp)) <$> talles (db w)) ->
  descontar_stock_si_realizado pk w
  = (Ok tt,
     set_db (set_colores (fold_left (descontar_linea (talles (db w))) (items_of pk (db w)))
               (db w)) w).
Proof.
  intros Hw Hnd. unfold descontar_stock_si_realizado, bind, get_db.
  apply for_each_descontar_healthy; assumption.
Qed.

Lemma prefix_empty (s : string) : String.prefix "" s = true.
Proof. destruct s; reflexivity. Qed.

Ltac write_ok Hw :=
  erewrite (bind_ok (db_write _)) by (apply db_write_healthy; exact Hw).

Lemma items_of_nonneg (pk : Z) (d : DB) :
  Forall (fun it => 0 <= it_cantidad it) (items d) ->
  Forall (fun it => 0 <= it_cantidad it) (items_of pk d).
Proof.
  intros H. unfold items_of. apply List.Forall_forall. intros it Hit.
  apply List.filter_In in Hit as [Hit _].
  rewrite List.Forall_forall in H. apply H, Hit.
Qed.


(** A step to 'realizado' with a tracking number, in a world whose
    database accepts every write: the status is written, the lines are
    taken off the stock in turn, and the audit log grows by one 'status
    changed' entry, possibly one tracking entry, and one 'stock
    decremented' entry; the redirect that ends the view then raises. *)
Lemma fulfilment_when_writes_succeed
    (w : World) (post : gmap string string) (pk : Z) (p : Pedido) :
  writes_left w = None ->
  wf_db (db w) ->
  in_int64 pk = true ->
  find_pedido pk (db w) = Some p ->
  load_pedido p = Ok p ->
  estado p <> "realizado" ->
  default (estado p) (post !! "estado") = "realizado" ->
  strip (default "" (post !! "tracking_number")) <> "" ->
  exists w',
    admin_order_detail POST post pk w = (Raise NoReverseMatch, w')
    /\ estado_of pk (db w') = Some "realizado"
    /\ colores (db w')
       = fold_left (descontar_linea (talles (db w))) (items_of pk (db w)) (colores (db w))
    /\ count_stock_entries (new_logs (db w) (db w')) = 1%nat
    /\ count_estado_entries (new_logs (db w) (db w')) = 1%nat
    /\ flashed w w' = [{| level := LSuccess; text := "Pedido actualizado correctamente." |}].
Proof.
  intros Hw (_ & Hnd & _ & _) Hr Hp Hl He Hn Ht.
  pose proof (find_pedido_id _ _ _ Hp) as Hid.
  unfold admin_order_detail.
  rewrite (bind_ok _ _ _ _ _ (get_pedido_or_404_ok _ _ _ Hr Hp Hl)).
  cbv zeta. rewrite Hn, Hid.
  unfold truthy. rewrite (string_eqb_empty _ Ht).
  apply String.eqb_neq in He. rewrite He.
  change (String.eqb "realizado" "realizado") with true.
  cbn [andb negb].
  write_ok Hw. unfold add_log at 1. write_ok Hw.
  assert (Hdec : forall w1 : World,
             writes_left w1 = None -> talles (db w1) = talles (db w) ->
             bind (descontar_stock_si_realizado pk)
                  (fun _ => add_log pk "Stock descontado por estado 'realizado'") w1
             = (Ok tt,
                set_db (set_logs
                          (fun l => (l ++ [{| log_pedido := pk; action := stock_entry;
                                              note := "" |}])%list)
                          (set_colores
                             (fold_left (descontar_linea (talles (db w1)))
                                        (items_of pk (db w1))) (db w1))) w1)).
  { intros w1 Hw1 Ht1.
    rewrite (bind_ok _ _ _ _ _ (descontar_stock_healthy pk w1 Hw1
                                  ltac:(rewrite Ht1; exact Hnd))).
    unfold add_log. rewrite db_write_healthy by exact Hw1. reflexivity. }
  destruct (negb (opt_string_eqb (tracking_number p)
                    (Some (strip (default "" (post !! "tracking_number")))))).
  - unfold add_log at 1. write_ok Hw.
    erewrite (bind_ok (bind (descontar_stock_si_realizado pk) _))
      by (apply Hdec; [exact Hw | reflexivity]).
    unfold bind, messages_add. rewrite redirect_panel_order_detail.
    eexists. split; [reflexivity|].
    split; [apply (find_pedido_update _ _ _ _ _ Hp)|].
    split; [reflexivity|].
    unfold new_logs; simpl.
    rewrite <- !List.app_assoc, drop_app_length.
    unfold count_stock_entries, count_estado_entries, stock_entry. simpl.
    rewrite prefix_empty.
    split; [reflexivity|]. split; [reflexivity|].
    unfold flashed; simpl. rewrite drop_app_length. reflexivity.
  - erewrite (bind_ok (ret tt)) by reflexivity.
    erewrite (bind_ok (bind (descontar_stock_si_realizado pk) _))
      by (apply Hdec; [exact Hw | reflexivity]).
    unfold bind, messages_add. rewrite redirect_panel_order_detail.
    eexists. split; [reflexivity|].
    split; [apply (find_pedido_update _ _ _ _ _ Hp)|].
    split; [reflexivity|].
    unfold new_logs; simpl.
    rewrite <- !List.app_assoc, drop_app_length.
    unfold count_stock_entries, count_estado_entries, stock_entry. simpl.
    rewrite prefix_empty.
    split; [reflexivity|]. split; [reflexivity|].
    unfold flashed; simpl. rewrite drop_app_length. reflexivity.
Qed.

(** ** Marking an order as paid *)



(** ** Failures between the writes of a fulfilment *)

Lemma stock_change_implies_realizado
    (w : World) (post : gmap string string) (pk : Z) (p : Pedido) :
  find_pedido pk (db w) = Some p ->
  colores (db (snd (admin_order_detail POST post pk w))) <> colores (db w) ->
  estado_of pk (db (snd (admin_order_detail POST post pk w))) = Some "realizado".
Proof.
  intros Hp.
  destruct (String.eqb (estado p) "realizado") eqn:E1.
  { apply String.eqb_eq in E1. intros H. exfalso. apply H.
    apply (admin_order_detail_guard w post pk p Hp). left. exact E1. }
  destruct (String.eqb (default (estado p) (post !! "estado")) "realizado") eqn:E2.
  2:{ apply String.eqb_neq in E2. intros H. exfalso. apply H.
      apply (admin_order_detail_guard w post pk p Hp). right. exact E2. }
  pose proof (find_pedido_id _ _ _ Hp) as Hid.
  unfold admin_order_detail.
  destruct (get_pedido_or_404_cases w pk) as [(p0 & Hrun & _ & Hp0 & _) | (e & Hrun)].
  2:{ rewrite (bind_raise _ _ _ _ _ Hrun). intros H. exfalso. apply H. reflexivity. }
  assert (p0 = p) by congruence. subst p0.
  rewrite (bind_ok _ _ _ _ _ Hrun).
  cbv zeta. rewrite E1, E2, Hid. cbn [andb negb].
  destruct (truthy (strip (default "" (post !! "tracking_number")))); cbn [negb].
  2:{ intros H. exfalso. apply H.
      unfold bind, messages_add. rewrite redirect_panel_order_detail. reflexivity. }
  match goal with |- context [snd (bind (db_write ?f) ?k w)] => set (rest := k) end.
  assert (K : forall w1, pedidos (db (snd (rest tt w1))) = pedidos (db w1)).
  { assert (K : keeps same_pedidos (rest tt)) by (subst rest; cbv beta; keeps_tac).
    exact K. }
  apply String.eqb_eq in E2. rewrite E2.
  unfold bind, db_write.
  destruct (writes_left w) as [[|n]|]; cbn [fst snd].
  - intros H. exfalso. apply H. reflexivity.
  - intros _. unfold estado_of, find_pedido. rewrite K.
    apply (find_pedido_update _ _ _ _ _ Hp).
  - intros _. unfold estado_of, find_pedido. rewrite K.
    apply (find_pedido_update _ _ _ _ _ Hp).
Qed.

(** A write either fails, on a database that takes no more writes, or
    is applied. *)
Lemma db_write_cases (f : DB -> DB) (w : World) :
  (writes_left w = Some 0%nat /\ db_write f w = (Raise DatabaseError, w))
  \/ (writes_left w <> Some 0%nat
      /\ exists w1, db_write f w = (Ok tt, w1)
                    /\ db w1 = f (db w) /\ flash w1 = flash w
                    /\ (writes_left w = Some 1%nat -> writes_left w1 = Some 0%nat)).
Proof.
  unfold db_write. destruct (writes_left w) as [[|n]|] eqn:E.
  - left. split; reflexivity.
  - right. split; [discriminate|]. eexists. split; [reflexivity|].
    simpl. repeat split. intros H. inversion H. reflexivity.
  - right. split; [discriminate|]. eexists. split; [reflexivity|].
    simpl. repeat split. discriminate.
Qed.

Lemma set_colores_same (d : DB) (f : list ColorStock -> list ColorStock) :
  f (colores d) = colores d -> set_colores f d = d.
Proof. destruct d. unfold set_colores. simpl. intros ->. reflexivity. Qed.

(** The step of the decrement for one order line either goes through,
    and the stock table is what [descontar_linea] says, or raises and
    changes nothing. *)
Lemma descontar_item_step (it : ItemPedido) (w : World) :
  let '(r, w') := descontar_item it w in
  flash w' = flash w
  /\ ((r = Ok tt
       /\ db w' = set_colores (fun C => descontar_linea (talles (db w)) C it) (db w))
      \/ ((exists e, r = Raise e /\ e <> NoReverseMatch) /\ db w' = db w)).
Proof.
  unfold descontar_item, bind, get_db.
  unfold descontar_linea, matching_stock.
  destruct (objects_get (is_talle (it_producto it) (it_talle it)) (talles (db w)))
    as [tp|e] eqn:Hg.
  - destruct (filter_first _ (colores (db w))) as [cs|] eqn:Hc.
    + destruct (db_write_cases
                  (set_colores (update_stock (cs_id cs)
                     (if 0 <? cs_stock cs - it_cantidad it
                      then cs_stock cs - it_cantidad it else 0))) w)
        as [[_ Hrun] | (_ & w1 & Hrun & Hdb & Hfl & _)]; rewrite Hrun.
      * split; [reflexivity|]. right.
        split; [eexists; split; [reflexivity | discriminate] | reflexivity].
      * split; [exact Hfl|]. left. split; [reflexivity|].
        rewrite Hdb, floor_at_zero. unfold set_colores. rewrite Hc. reflexivity.
    + unfold ret. split; [reflexivity|]. left. split; [reflexivity|].
      symmetry. apply set_colores_same. rewrite Hc. reflexivity.
  - assert (He : e = DoesNotExist \/ e = MultipleObjectsReturned).
    { unfold objects_get in Hg. destruct (List.filter _ _) as [|? [|? ?]];
        inversion Hg; auto. }
    destruct He as [-> | ->]; unfold ret, raise.
    + split; [reflexivity|]. left. split; [reflexivity|].
      symmetry. apply set_colores_same. reflexivity.
    + split; [reflexivity|]. right.
      split; [eexists; split; [reflexivity | discriminate] | reflexivity].
Qed.

(** The loop of the decrement, whether or not it is interrupted: the
    stock table is what the first [k] lines make of it, all of them when
    the loop returns. *)
Lemma for_each_descontar_prefix (l : list ItemPedido) (w : World) :
  let '(r, w') := for_each l descontar_item w in
  exists k : nat,
    (k <= length l)%nat
    /\ db w' = set_colores (fold_left (descontar_linea (talles (db w))) (firstn k l)) (db w)
    /\ flash w' = flash w
    /\ (r = Ok tt -> k = length l)
    /\ (r = Ok tt \/ exists e, r = Raise e /\ e <> NoReverseMatch).
Proof.
  revert w. induction l as [|it l IH]; intros w; simpl.
  - exists 0%nat. split; [lia|]. split; [symmetry; apply set_colores_same; reflexivity|].
    split; [reflexivity|]. split; [reflexivity | left; reflexivity].
  - unfold bind. pose proof (descontar_item_step it w) as Hs.
    destruct (descontar_item it w) as [[[]|e] w1].
    + destruct Hs as [Hf [[_ Hdb] | [[e [He _]] _]]]; [|discriminate].
      specialize (IH w1). destruct (for_each l descontar_item w1) as [r w'].
      destruct IH as (k & Hk & Hdb' & Hf' & Hall & Hr).
      exists (S k). split; [simpl; lia|].
      split.
      { rewrite Hdb', Hdb. simpl. destruct (db w); reflexivity. }
      split; [congruence|]. split; [intros H; rewrite (Hall H); reflexivity | exact Hr].
    + destruct Hs as [Hf [[He _] | [[e' [He' Hne]] Hdb]]]; [discriminate|].
      exists 0%nat. split; [lia|].
      split; [rewrite Hdb; symmetry; apply set_colores_same; reflexivity|].
      split; [exact Hf|]. split; [discriminate|].
      right. exists e'. split; [exact He' | exact Hne].
Qed.

Lemma count_stock_entries_app (a b : list OrderLog) :
  count_stock_entries (a ++ b) = (count_stock_entries a + count_stock_entries b)%nat.
Proof. unfold count_stock_entries. rewrite List.filter_app, List.length_app. reflexivity. Qed.

Lemma new_logs_app (d d' : DB) (extra : list OrderLog) :
  logs d' = (logs d ++ extra)%list -> new_logs d d' = extra.
Proof. intros H. unfold new_logs. rewrite H. apply drop_app_length. Qed.

(** What a fulfilment leaves behind, wherever it stops.  [k] is the
    number of order lines whose step of the decrement went through and
    [extra] what was added to the audit log. *)
Lemma fulfilment_outcome
    (w : World) (post : gmap string string) (pk : Z) (p : Pedido) :
  in_int64 pk = true ->
  find_pedido pk (db w) = Some p ->
  load_pedido p = Ok p ->
  estado p <> "realizado" ->
  default (estado p) (post !! "estado") = "realizado" ->
  strip (default "" (post !! "tracking_number")) <> "" ->
  let '(r, w') := admin_order_detail POST post pk w in
  exists (k : nat) (extra : list OrderLog),
    (k <= length (items_of pk (db w)))%nat
    /\ colores (db w')
       = fold_left (descontar_linea (talles (db w))) (firstn k (items_of pk (db w)))
                   (colores (db w))
    /\ logs (db w') = (logs (db w) ++ extra)%list
    /\ ((writes_left w = Some 0%nat /\ r = Raise DatabaseError /\ db w' = db w)
        \/ (writes_left w <> Some 0%nat
            /\ estado_of pk (db w') = Some "realizado"
            /\ (writes_left w = Some 1%nat ->
                  r = Raise DatabaseError /\ k = 0%nat /\ extra = [])
            /\ ((exists e, r = Raise e /\ e <> NoReverseMatch)
                /\ count_stock_entries extra = 0%nat
                \/ r = Raise NoReverseMatch
                   /\ k = length (items_of pk (db w))
                   /\ count_stock_entries extra = 1%nat))).
Proof.
  intros Hr Hp Hl He Hn Ht.
  pose proof (find_pedido_id _ _ _ Hp) as Hid.
  unfold admin_order_detail.
  rewrite (bind_ok _ _ _ _ _ (get_pedido_or_404_ok _ _ _ Hr Hp Hl)).
  cbv zeta. rewrite Hn, Hid.
  unfold truthy. rewrite (string_eqb_empty _ Ht).
  apply String.eqb_neq in He. rewrite He.
  change (String.eqb "realizado" "realizado") with true.
  cbn [andb negb].
  set (t := strip (default "" (post !! "tracking_number"))).
  (* the status write *)
  destruct (db_write_cases (set_pedidos (update_pedido pk "realizado" (Some t))) w)
    as [[Hw0 Hrun] | (Hw0 & w1 & Hrun & Hdb1 & _ & Hleft1)].
  { rewrite (bind_raise _ _ _ _ _ Hrun).
    exists 0%nat, []. split; [lia|]. split; [reflexivity|].
    split; [rewrite List.app_nil_r; reflexivity|]. left. auto. }
  rewrite (bind_ok _ _ _ _ _ Hrun).
  assert (Hest1 : estado_of pk (db w1) = Some "realizado")
    by (rewrite Hdb1; apply (find_pedido_update _ _ _ _ _ Hp)).
  assert (Hestado : forall d, pedidos d = pedidos (db w1) ->
                              estado_of pk d = Some "realizado").
  { intros d Hd. unfold estado_of, find_pedido in *. rewrite Hd. exact Hest1. }
  (* the entry of the status change *)
  unfold add_log at 1.
  match goal with |- context [bind (db_write ?f) _ w1] =>
    destruct (db_write_cases f w1) as [[Hw1 Hrun2] | (Hw1 & w2 & Hrun2 & Hdb2 & _ & _)] end.
  { rewrite (bind_raise _ _ _ _ _ Hrun2).
    exists 0%nat, []. split; [lia|]. rewrite Hdb1. split; [reflexivity|].
    split; [simpl; rewrite List.app_nil_r; reflexivity|]. right.
    split; [exact Hw0|]. split; [rewrite <- Hdb1; exact Hest1|].
    split; [auto|]. left. split; [eexists; split; [reflexivity | discriminate] | reflexivity]. }
  rewrite (bind_ok _ _ _ _ _ Hrun2).
  assert (Hnot1 : writes_left w <> Some 1%nat).
  { intros H. apply Hw1. apply Hleft1, H. }
  (* the entry of the tracking number, if it changed *)
  assert (Htrk : exists w3 r3 extra3,
             (if negb (opt_string_eqb (tracking_number p) (Some t))
              then add_log pk ("Tracking actualizado: " +:+ str_opt (tracking_number p)
                               +:+ " → " +:+ str_opt (Some t))
              else ret tt) w2 = (r3, w3)
             /\ productos (db w3) = productos (db w) /\ talles (db w3) = talles (db w)
             /\ colores (db w3) = colores (db w) /\ items (db w3) = items (db w)
             /\ pedidos (db w3) = pedidos (db w1)
             /\ logs (db w3) = (logs (db w) ++ extra3)%list
             /\ count_stock_entries extra3 = 0%nat
             /\ (r3 = Ok tt \/ r3 = Raise DatabaseError)).
  { destruct (negb (opt_string_eqb (tracking_number p) (Some t))).
    - unfold add_log.
      match goal with |- context [db_write ?f w2] =>
        destruct (db_write_cases f w2) as [[_ Hrun3] | (_ & w3 & Hrun3 & Hdb3 & _ & _)] end.
      + eexists w2, _, _. split; [exact Hrun3|].
        rewrite Hdb2, Hdb1. simpl.
        do 5 (split; [reflexivity|]). split; [reflexivity|].
        split; [|right; reflexivity].
        unfold count_stock_entries, stock_entry. simpl. reflexivity.
      + eexists w3, _, _. split; [exact Hrun3|].
        rewrite Hdb3, Hdb2, Hdb1. simpl. rewrite <- List.app_assoc.
        do 5 (split; [reflexivity|]). split; [reflexivity|].
        split; [|left; reflexivity].
        unfold count_stock_entries, stock_entry. simpl. reflexivity.
    - eexists w2, _, _. split; [reflexivity|].
      rewrite Hdb2, Hdb1. simpl.
      do 5 (split; [reflexivity|]). split; [reflexivity|].
      split; [|left; reflexivity].
      unfold count_stock_entries, stock_entry. simpl. reflexivity. }
  destruct Htrk as (w3 & r3 & extra3 & Hrun3 & Hp3 & Ht3 & Hc3 & Hi3 & Hped3 & Hlog3 & Hcnt3 & Hr3).
  destruct Hr3 as [-> | ->].
  2:{ rewrite (bind_raise _ _ _ _ _ Hrun3).
      exists 0%nat, extra3. split; [lia|]. split; [exact Hc3|]. split; [exact Hlog3|].
      right. split; [exact Hw0|]. split; [apply Hestado, Hped3|].
      split; [intros H; contradiction|].
      left. split; [eexists; split; [reflexivity | discriminate] | exact Hcnt3]. }
  rewrite (bind_ok _ _ _ _ _ Hrun3).
  (* the decrement, line by line *)
  unfold bind at 1. unfold bind at 1.
  unfold descontar_stock_si_realizado, bind at 1, get_db at 1.
  assert (Hitems : items_of pk (db w3) = items_of pk (db w))
    by (unfold items_of; rewrite Hi3; reflexivity).
  rewrite Hitems.
  pose proof (for_each_descontar_prefix (items_of pk (db w)) w3) as Hloop.
  destruct (for_each (items_of pk (db w)) descontar_item w3) as [r4 w4].
  destruct Hloop as (k & Hk & Hdb4 & _ & Hall & Hr4).
  assert (Hc4 : colores (db w4)
                = fold_left (descontar_linea (talles (db w))) (firstn k (items_of pk (db w)))
                            (colores (db w)))
    by (rewrite Hdb4; simpl; rewrite Ht3, Hc3; reflexivity).
  assert (Hlog4 : logs (db w4) = (logs (db w) ++ extra3)%list)
    by (rewrite Hdb4; simpl; exact Hlog3).
  assert (Hped4 : pedidos (db w4) = pedidos (db w1))
    by (rewrite Hdb4; simpl; exact Hped3).
  destruct Hr4 as [-> | [e [-> Hne]]].
  2:{ exists k, extra3. split; [exact Hk|]. split; [exact Hc4|]. split; [exact Hlog4|].
      right. split; [exact Hw0|]. split; [apply Hestado, Hped4|].
      split; [intros H; contradiction|].
      left. split; [|exact Hcnt3].
      exists e. split; [reflexivity | exact Hne]. }
  specialize (Hall eq_refl). subst k. rewrite List.firstn_all in Hc4.
  (* the entry of the decrement *)
  unfold add_log at 1.
  match goal with |- context [db_write ?f w4] =>
    destruct (db_write_cases f w4) as [[_ Hrun5] | (_ & w5 & Hrun5 & Hdb5 & _ & _)] end;
    rewrite Hrun5.
  { exists (length (items_of pk (db w))), extra3. split; [lia|].
    rewrite List.firstn_all. split; [exact Hc4|]. split; [exact Hlog4|].
    right. split; [exact Hw0|]. split; [apply Hestado, Hped4|].
    split; [intros H; contradiction|].
    left. split; [eexists; split; [reflexivity | discriminate] | exact Hcnt3]. }
  unfold bind, messages_add. rewrite redirect_panel_order_detail.
  exists (length (items_of pk (db w))),
         (extra3 ++ [{| log_pedido := pk; action := stock_entry; note := "" |}])%list.
  split; [lia|]. rewrite List.firstn_all.
  split; [simpl; rewrite Hdb5; simpl; exact Hc4|].
  split; [simpl; rewrite Hdb5; simpl; rewrite Hlog4, <- List.app_assoc; reflexivity|].
  right. split; [exact Hw0|].
  split; [apply Hestado; simpl; rewrite Hdb5; simpl; exact Hped4|].
  split; [intros H; contradiction|].
  right. split; [reflexivity|]. split; [reflexivity|].
  rewrite count_stock_entries_app, Hcnt3. reflexivity.
Qed.

(** C6, as amended.  A fulfilment of an order that the view can read
    applies the status write, the audit entries and the stock decrement
    as successive writes, each committed on its own.  The stock is never
    touched unless the status has been written as 'realizado'.  If the
    status write itself fails nothing is applied.  Once the status write
    has gone through the order is 'realizado' whatever happens next: if
    the write right after it fails, the stock and the audit log are as
    they were; in general the stock table is what the decrement of the
    first [k] order lines makes of it, for some [k], and as long as the
    view is stopped before its last write no 'stock decremented' entry
    is logged.  When the view reaches its end (where the redirect
    raises [NoReverseMatch]), and in particular when every write goes
    through on a database that satisfies the schema and whose rows for
    the order's lines can be read, the status, the decrement of every
    line and exactly one 'stock decremented' entry are applied. *)
Theorem fulfilment_writes_in_order
    (w : World) (post : gmap string string) (pk : Z) (p : Pedido) :
  in_int64 pk = true ->
  find_pedido pk (db w) = Some p ->
  load_pedido p = Ok p ->
  estado p <> "realizado" ->
  post !! "estado" = Some "realizado" ->
  strip (default "" (post !! "tracking_number")) <> "" ->
  let '(r, w') := admin_order_detail POST post pk w in
  (colores (db w') <> colores (db w) -> estado_of pk (db w') = Some "realizado")
  /\ (writes_left w = Some 0%nat -> r = Raise DatabaseError /\ db w' = db w)
  /\ (writes_left w <> Some 0%nat -> estado_of pk (db w') = Some "realizado")
  /\ (writes_left w = Some 1%nat ->
        r = Raise DatabaseError
        /\ colores (db w') = colores (db w) /\ logs (db w') = logs (db w))
  /\ (exists k : nat,
        (k <= length (items_of pk (db w)))%nat
        /\ colores (db w')
           = fold_left (descontar_linea (talles (db w)))
                       (firstn k (items_of pk (db w))) (colores (db w))
        /\ (r = Raise NoReverseMatch -> k = length (items_of pk (db w))))
  /\ (exists e, r = Raise e)
  /\ (r <> Raise NoReverseMatch ->
        count_stock_entries (new_logs (db w) (db w')) = 0%nat)
  /\ (r = Raise NoReverseMatch ->
        count_stock_entries (new_logs (db w) (db w')) = 1%nat)
  /\ (writes_left w = None -> wf_db (db w) -> readable_lines pk (db w) = true ->
        r = Raise NoReverseMatch
        /\ estado_of pk (db w') = Some "realizado"
        /\ colores (db w')
           = fold_left (descontar_linea (talles (db w))) (items_of pk (db w)) (colores (db w))
        /\ count_stock_entries (new_logs (db w) (db w')) = 1%nat).
Proof.
  intros Hr Hp Hl He Hn Ht.
  assert (Hn' : default (estado p) (post !! "estado") = "realizado") by (rewrite Hn; reflexivity).
  pose proof (stock_change_implies_realizado w post pk p Hp) as Hord.
  pose proof (fulfilment_outcome w post pk p Hr Hp Hl He Hn' Ht) as Hout.
  pose proof (fulfilment_when_writes_succeed w post pk p) as Hall.
  destruct (admin_order_detail POST post pk w) as [r w'].
  destruct Hout as (k & extra & Hk & Hcol & Hlog & Hcases).
  pose proof (new_logs_app _ _ _ Hlog) as Hnew.
  split; [exact Hord|].
  destruct Hcases as [(Hw0 & -> & Hdb) | (Hw0 & Hest & Hone & Hend)].
  - assert (Hk0 : new_logs (db w) (db w') = []).
    { rewrite Hdb. unfold new_logs. apply drop_all. }
    split; [intros _; split; [reflexivity | exact Hdb]|].
    split; [intros H; contradiction|].
    split; [intros H; rewrite H in Hw0; discriminate|].
    split.
    { exists 0%nat. split; [lia|]. split; [rewrite Hdb; reflexivity | discriminate]. }
    split; [eexists; reflexivity|].
    split; [intros _; rewrite Hk0; reflexivity|].
    split; [discriminate|].
    intros H; rewrite H in Hw0; discriminate.
  - split; [intros H; contradiction|].
    split; [intros _; exact Hest|].
    split.
    { intros H. destruct (Hone H) as (-> & -> & ->).
      split; [reflexivity|]. split; [exact Hcol|].
      rewrite Hlog. apply List.app_nil_r. }
    split.
    { exists k. split; [exact Hk|]. split; [exact Hcol|].
      intros ->. destruct Hend as [[(e & He' & Hne) _] | (_ & Hk' & _)];
        [inversion He'; subst; contradiction | exact Hk']. }
    split.
    { destruct Hend as [[(e & -> & _) _] | (-> & _)]; eexists; reflexivity. }
    split.
    { intros Hne. rewrite Hnew.
      destruct Hend as [[_ Hc] | (-> & _)]; [exact Hc | contradiction]. }
    split.
    { intros ->. rewrite Hnew.
      destruct Hend as [[(e & He' & Hne) _] | (_ & _ & Hc)];
        [inversion He'; subst; contradiction | exact Hc]. }
    intros Hw Hwf _.
    destruct (Hall Hw Hwf Hr Hp Hl He Hn' Ht) as (w2 & Hrun & Hest' & Hcol' & Hs & _).
    inversion Hrun; subst. repeat split; assumption.
Qed.

Lemma fulfilment_writes_in_order_witness :
  estado_of 1 (db (snd (admin_order_detail POST (estado_form "realizado" "T1") 1
                          (world_of (pending_shop 5) None)))) = Some "realizado"
  /\ List.map cs_stock
       (colores (db (snd (admin_order_detail POST (estado_form "realizado" "T1") 1
                            (world_of (pending_shop 5) None))))) = [2].
Proof.
  pose proof (fulfilment_writes_in_order
                (world_of (pending_shop 5) None) (estado_form "realizado" "T1") 1
                (pedido_1 "pendiente" None)
                ltac:(reflexivity) ltac:(reflexivity) ltac:(reflexivity)
                ltac:(discriminate)
                ltac:(vm_compute; reflexivity) ltac:(vm_compute; discriminate)) as H.
  destruct (admin_order_detail POST (estado_form "realizado" "T1") 1
              (world_of (pending_shop 5) None)) as [r w'].
  destruct H as (_ & _ & _ & _ & _ & _ & _ & _ & H).
  destruct (H ltac:(reflexivity) ltac:(apply (bool_decide_unpack _); vm_compute; reflexivity)
              ltac:(reflexivity))
    as (_ & Hest & Hcol & _).
  unfold snd. split; [exact Hest|].
  rewrite Hcol. vm_compute. reflexivity.
Defined.

(** C6 as stated fails: when the database raises on the write that
    follows the status write, the order is left 'realizado' with the
    stock of its line as it was and no audit entry. *)
Lemma fulfilment_interrupted_after_status_write :
  ~ (forall (w : World) (post : gmap string string) (pk : Z) (p : Pedido),
       in_int64 pk = true ->
       find_pedido pk (db w) = Some p ->
       load_pedido p = Ok p ->
       estado p <> "realizado" ->
       post !! "estado" = Some "realizado" ->
       strip (default "" (post !! "tracking_number")) <> "" ->
       let w' := snd (admin_order_detail POST post pk w) in
       (estado_of pk (db w') = Some "realizado" ->
          colores (db w')
          = fold_left (descontar_linea (talles (db w))) (items_of pk (db w)) (colores (db w)))
       /\ (colores (db w') <> colores (db w) -> estado_of pk (db w') = Some "realizado")).
Proof.
  intros H.
  destruct (H (failing_after 1 (pending_shop 5)) (estado_form "realizado" "T1") 1
              (pedido_1 "pendiente" None)
              ltac:(reflexivity) ltac:(reflexivity) ltac:(reflexivity)
              ltac:(discriminate)
              ltac:(vm_compute; reflexivity) ltac:(vm_compute; discriminate)) as [H1 _].
  specialize (H1 ltac:(vm_compute; reflexivity)).
  vm_compute in H1. discriminate.
Qed.

Lemma interrupted_fulfilment_state :
  let w' := snd (admin_order_detail POST (estado_form "realizado" "T1") 1
                   (failing_after 1 (pending_shop 5))) in
  fst (admin_order_detail POST (estado_form "realizado" "T1") 1
         (failing_after 1 (pending_shop 5))) = Raise DatabaseError
  /\ estado_of 1 (db w') = Some "realizado"
  /\ List.map cs_stock (colores (db w')) = [5]
  /\ logs (db w') = [].
Proof. vm_compute. repeat split; reflexivity. Qed.

(** A failure inside the loop of the decrement: of the two lines of the
    order (three units and one unit of the same variant) only the first
    has been taken off the stock, the order is 'realizado' and the audit
    log has no 'stock decremented' entry. *)
Lemma interrupted_mid_decrement :
  let w := failing_after 4 (shop 5 [pedido_1 "pendiente" None]
                              [item_1 "Rojo" 3; item_1 "Rojo" 1] []) in
  let w' := snd (admin_order_detail POST (estado_form "realizado" "T1") 1 w) in
  fst (admin_order_detail POST (estado_form "realizado" "T1") 1 w) = Raise DatabaseError
  /\ estado_of 1 (db w') = Some "realizado"
  /\ List.map cs_stock (colores (db w')) = [2]
  /\ count_stock_entries (logs (db w')) = 0%nat.
Proof. vm_compute. repeat split; reflexivity. Qed.

(** For the order line of a color without stock record, the view
    confirms the update and logs the stock as decremented, the stock
    being as it was. *)
Lemma fulfilment_of_unmatched_line_confirms :
  let w := world_of (shop 5 [pedido_1 "pendiente" None] [item_1 "Verde" 3] []) None in
  let w' := snd (admin_order_detail POST (estado_form "realizado" "T1") 1 w) in
  flashed w w' = [{| level := LSuccess; text := "Pedido actualizado correctamente." |}]
  /\ colores (db w') = colores (db w)
  /\ count_stock_entries (logs (db w')) = 1%nat.
Proof. vm_compute. repeat split; reflexivity. Qed.

(** ** The cart page does re-validate *)

Lemma cart_body_run (st : CartLoop) (entry : string * Z) (w : World) :
  snd (cart_body st entry w) = w
  /\ forall st', fst (cart_body st entry w) = Ok st' ->
       Forall (fun l => line_cantidad l <= line_max l) (lines st) ->
       Forall (fun l => line_cantidad l <= line_max l) (lines st').
Proof.
  unfold cart_body.
  destruct (split ":" (fst entry)) as [|pid [|talle [|color [|]]]];
    try (split; [reflexivity | intros ?; discriminate]).
  unfold bind.
  pose proof (get_producto_or_404_reads (AStr pid) w) as Hr.
  destruct (get_producto_or_404 (AStr pid) w) as [[prod|e] w1]; simpl in Hr; subst w1;
    [|split; [reflexivity | intros ?; discriminate]].
  pose proof (variant_stock_reads (AStr pid) talle color w) as Hv.
  destruct (_variant_stock (AStr pid) talle color w) as [[s|e] w1]; simpl in Hv; subst w1;
    [|split; [reflexivity | intros ?; discriminate]].
  destruct (s <=? 0) eqn:Hs0.
  - split; [reflexivity|]. intros st' H. inversion H; subst; simpl. auto.
  - split; [reflexivity|]. intros st' H Hall. inversion H; subst; simpl.
    apply Forall_app. split; [exact Hall|].
    constructor; [|constructor]. simpl.
    rewrite Z.gtb_ltb.
    destruct (s <? snd entry) eqn:E; [lia | apply Z.ltb_ge in E; lia].
Qed.

Lemma cart_loop_run (l : list (string * Z)) (st : CartLoop) (w : World) :
  snd (fold_m cart_body l st w) = w
  /\ forall st', fst (fold_m cart_body l st w) = Ok st' ->
       Forall (fun l => line_cantidad l <= line_max l) (lines st) ->
       Forall (fun l => line_cantidad l <= line_max l) (lines st').
Proof.
  revert st. induction l as [|entry l IH]; intros st; simpl.
  - split; [reflexivity|]. intros st' H. inversion H; subst. auto.
  - unfold bind.
    destruct (cart_body_run st entry w) as [Hw Hq].
    destruct (cart_body st entry w) as [[st1|e] w1]; simpl in Hw; subst w1.
    + destruct (IH st1) as [Hw' Hq'].
      split; [exact Hw'|]. intros st' H Hall.
      apply (Hq' st' H). apply (Hq st1 eq_refl Hall).
    + split; [reflexivity | intros ?; discriminate].
Qed.

(** Every line the cart page shows has a quantity within the stock read
    for it. *)
Lemma cart_lines_within_stock
    (w w' : World) (items_ : list CartLine) (total_ count : Z) :
  cart GET w = (Ok (RenderCart items_ total_ count), w') ->
  Forall (fun l => line_cantidad l <= line_max l) items_.
Proof.
  unfold cart, bind at 1, session_get_cart at 1.
  unfold bind at 1.
  match goal with |- context [fold_m cart_body ?l ?st w] =>
    destruct (cart_loop_run l st w) as [Hw Hq];
    destruct (fold_m cart_body l st w) as [[st1|e] w1] end;
    simpl in Hw; subst w1; [|discriminate].
  specialize (Hq st1 eq_refl (Forall_nil_2 _)).
  unfold bind. destruct (session_changed st1); simpl; intros H; inversion H; subst; exact Hq.
Qed.

(** The example of the specification: with a stock of 5, adding 3 stores
    3; once the stock has gone down to 1, the next read of the cart shows
    1 and writes 1 back to the session. *)
Lemma cart_example_add_then_stock_drop :
  let w1 := snd (add_to_cart POST (add_form "3") 1 (world_of (shop 5 [] [] []) None)) in
  let w2 := world_of (shop 1 [] [] []) (session_cart w1) in
  stored w1 "1:M:Rojo" = 3
  /\ cart_quantities (fst (cart GET w2)) = [(1, 1)]
  /\ stored (snd (cart GET w2)) "1:M:Rojo" = 1.
Proof. vm_compute. repeat split; reflexivity. Qed.

(** A stock of zero purges the entry. *)
Lemma cart_example_purge :
  let w := world_of (shop 0 [] [] []) (Some red_3) in
  cart_quantities (fst (cart GET w)) = []
  /\ cart_of (snd (cart GET w)) !! "1:M:Rojo" = None.
Proof. vm_compute. repeat split; reflexivity. Qed.

(** ** Checks of the Python primitives *)

Example str_of_int : str 12 = "12" /\ str (-3) = "-3".
Proof. split; reflexivity. Qed.

Example int_of_str :
  int " 12 " = Some 12 /\ int "-3" = Some (-3) /\ int "1x" = None
  /\ int "1_000" = Some 1000 /\ int "1__0" = None /\ int "+7" = Some 7.
Proof. vm_compute. repeat split; reflexivity. Qed.

(** The file separator (byte 28) is white space for [str.strip] but not
    for [int]; the Arabic-Indic digit four (U+0664) is a digit for
    [int]; a no-break space (U+00A0) around the digits is skipped. *)
Example int_of_unicode :
  int (String (ascii_of_nat 28) "4") = None
  /\ int (String (ascii_of_nat 217) (String (ascii_of_nat 164) "")) = Some 4
  /\ int (String (ascii_of_nat 194) (String (ascii_of_nat 160) "4")) = Some 4.
Proof. vm_compute. repeat split; reflexivity. Qed.

Example split_key : split ":" "1:M:Rojo" = ["1"; "M"; "Rojo"].
Proof. reflexivity. Qed.

Example strip_blank : strip "  " = "" /\ strip " T1 " = "T1".
Proof. split; reflexivity. Qed.

(** [str.strip] takes the no-break space (U+00A0) and the file separator
    (byte 28) off as well. *)
Example strip_unicode :
  strip (String (ascii_of_nat 194) (String (ascii_of_nat 160) "")) = ""
  /\ strip (String (ascii_of_nat 28) " ") = "".
Proof. split; reflexivity. Qed.

Example iexact_case : iexact "Rojo" "rojo" = true /\ iexact "Rojo" "Azul" = false.
Proof. split; reflexivity. Qed.

(** * Further properties of the code *)

(** ** Adding, incrementing and decrementing *)

(** X1.  With a positive stock [s] for the variant and a requested
    quantity [q > 0] that fits ([current + q <= s]), [add_to_cart] stores
    [current + q] and confirms the [q] units with its success message. *)
Theorem add_to_cart_adds_all_when_stock_allows
    (w : World) (post : gmap string string) (pk q s : Z) (talle color : string) :
  int (default "1" (post !! "quantity")) = Some q ->
  post !! "talle" = Some talle -> talle <> "" ->
  post !! "color" = Some color -> color <> "" ->
  fst (_variant_stock (AnInt pk) talle color w) = Ok s ->
  0 < q -> 0 < s -> stored w (cart_key pk talle color) + q <= s ->
  let '(r, w') := add_to_cart POST post pk w in
  r = Ok (HttpResponseRedirect "store:cart" None)
  /\ stored w' (cart_key pk talle color) = stored w (cart_key pk talle color) + q
  /\ flashed w w' =
       [{| level := LSuccess;
           text := "Se agregaron " +:+ str q +:+ " unidad(es) al carrito." |}].
Proof.
  intros Hq Ht Htne Hc Hcne Hs Hq0 Hs0 Hfit.
  unfold add_to_cart. rewrite Hq.
  replace (q <? 1) with false by (symmetry; apply Z.ltb_ge; lia).
  rewrite Ht, Hc. simpl.
  unfold truthy. rewrite (string_eqb_empty _ Htne), (string_eqb_empty _ Hcne). simpl.
  unfold bind at 1. unfold session_get_cart at 1.
  unfold bind at 1. rewrite (variant_stock_run _ _ _ _ _ Hs).
  fold (cart_dict w). rewrite cart_dict_lookup.
  fold (stored w (cart_key pk talle color)).
  set (current := stored w (cart_key pk talle color)) in *.
  replace (s <=? 0) with false by (symmetry; apply Z.leb_gt; lia).
  rewrite Z.gtb_ltb.
  replace (s <? current + q) with false by (symmetry; apply Z.ltb_ge; lia).
  replace (current + q - current) with q by lia.
  replace (q <=? 0) with false by (symmetry; apply Z.leb_gt; lia).
  rewrite Z.ltb_irrefl.
  unfold bind, messages_add, session_set_cart. rewrite redirect_cart.
  split; [reflexivity|].
  split; [apply stored_set|].
  unfold flashed; simpl. rewrite drop_app_length. reflexivity.
Qed.

Lemma add_to_cart_adds_all_witness :
  stored (snd (add_to_cart POST (add_form "2") 1 (world_of (shop 5 [] [] []) (Some red_3))))
         (cart_key 1 "M" "Rojo") = 5.
Proof.
  pose proof (add_to_cart_adds_all_when_stock_allows
                (world_of (shop 5 [] [] []) (Some red_3)) (add_form "2") 1 2 5 "M" "Rojo"
                ltac:(vm_compute; reflexivity) ltac:(vm_compute; reflexivity)
                ltac:(discriminate) ltac:(vm_compute; reflexivity)
                ltac:(discriminate) ltac:(vm_compute; reflexivity)
                ltac:(lia) ltac:(lia) ltac:(vm_compute; discriminate)) as H.
  destruct (add_to_cart POST (add_form "2") 1 (world_of (shop 5 [] [] []) (Some red_3)))
    as [r w'].
  destruct H as (_ & H & _). unfold snd. rewrite H. vm_compute. reflexivity.
Defined.

Lemma message_redirect_run (lv : Level) (s to : string) (pk : option Z) (w : World) :
  snd ((run messages_add lv s; redirect to pk) w) = add_flash {| level := lv; text := s |} w.
Proof. unfold bind, messages_add. apply redirect_reads. Qed.

Lemma add_to_cart_effect
    (w : World) (method : Method) (post : gmap string string) (pk : Z) :
  let talle := default "" (post !! "talle") in
  let color := default "" (post !! "color") in
  let key := cart_key pk talle color in
  let '(r, w') := add_to_cart method post pk w in
  db w' = db w
  /\ (forall k, k <> key -> cart_of w' !! k = cart_of w !! k)
  /\ stored w key <= stored w' key
  /\ (forall s, fst (_variant_stock (AnInt pk) talle color w) = Ok s ->
                stored w' key <= Z.max (stored w key) s).
Proof.
  intros talle color key.
  assert (Same : forall lv s to pk',
            let '(r, w') := (run messages_add lv s; redirect to pk') w in
            db w' = db w
            /\ (forall k, k <> key -> cart_of w' !! k = cart_of w !! k)
            /\ stored w key <= stored w' key
            /\ (forall s, fst (_variant_stock (AnInt pk) talle color w) = Ok s ->
                          stored w' key <= Z.max (stored w key) s)).
  { intros lv s to pk'. pose proof (message_redirect_run lv s to pk' w) as H.
    destruct ((run messages_add lv s; redirect to pk') w) as [r w'].
    simpl in H. subst w'.
    rewrite stored_add_flash. repeat split; try reflexivity; intros; lia. }
  unfold add_to_cart.
  destruct method; try (simpl; repeat split; try reflexivity; intros; lia).
  destruct (int (default "1" (post !! "quantity"))) as [q|]; [|apply Same].
  destruct (q <? 1) eqn:Hq1; [apply Same|]. apply Z.ltb_ge in Hq1.
  fold talle color.
  destruct (negb (truthy talle && truthy color)); [apply Same|].
  fold key.
  unfold bind at 1. unfold session_get_cart at 1.
  unfold bind at 1.
  pose proof (variant_stock_reads (AnInt pk) talle color w) as Hr.
  destruct (_variant_stock (AnInt pk) talle color w) as [[s|e] w1] eqn:Hv;
    simpl in Hr; subst w1;
    [|simpl; repeat split; try reflexivity; intros; try lia; discriminate].
  fold (cart_dict w). rewrite cart_dict_lookup. fold (stored w key).
  destruct (s <=? 0); [apply Same|].
  rewrite Z.gtb_ltb.
  assert (Hne : forall (v : Z) m k, k <> key ->
            cart_of (add_flash m (set_session_cart (<[key:=v]> (cart_dict w)) w)) !! k
            = cart_of w !! k).
  { intros v m k Hk. unfold cart_of at 1, cart_dict at 1. simpl.
    rewrite to_map_insert. apply lookup_insert_ne. congruence. }
  destruct (s <? stored w key + q) eqn:Hover;
    [apply Z.ltb_lt in Hover | apply Z.ltb_ge in Hover].
  - destruct (s - stored w key <=? 0) eqn:Hadd; [apply Same|]. apply Z.leb_gt in Hadd.
    unfold bind, session_set_cart.
    destruct (s - stored w key <? q); unfold messages_add; rewrite redirect_cart.
    all: rewrite stored_set; repeat split; try reflexivity; try lia.
    all: try (apply Hne).
    all: intros s' Hs'; simpl in Hs'; inversion Hs'; lia.
  - destruct (stored w key + q - stored w key <=? 0) eqn:Hadd; [apply Same|].
    unfold bind, session_set_cart.
    destruct (stored w key + q - stored w key <? q); unfold messages_add;
      rewrite redirect_cart.
    all: rewrite stored_set; repeat split; try reflexivity; try lia.
    all: try (apply Hne).
    all: intros s' Hs'; simpl in Hs'; inversion Hs'; lia.
Qed.

(** X2.  Whatever the request, [add_to_cart] leaves the database and
    every other entry of the cart as they were; the entry of the chosen
    variant never goes down, and never goes above the larger of what it
    was and the live stock. *)
Theorem add_to_cart_touches_one_entry
    (w : World) (method : Method) (post : gmap string string) (pk : Z) :
  let talle := default "" (post !! "talle") in
  let color := default "" (post !! "color") in
  let key := cart_key pk talle color in
  let '(r, w') := add_to_cart method post pk w in
  db w' = db w
  /\ (forall k, k <> key -> cart_of w' !! k = cart_of w !! k)
  /\ stored w key <= stored w' key
  /\ (forall s, fst (_variant_stock (AnInt pk) talle color w) = Ok s ->
                stored w' key <= Z.max (stored w key) s).
Proof. exact (add_to_cart_effect w method post pk). Qed.

Lemma add_to_cart_touches_one_entry_witness :
  cart_of (snd (add_to_cart POST (add_form "4") 1
                  (world_of (shop 5 [] [] []) (Some (<["2:L:Azul" := 1]> red_3)))))
    !! "2:L:Azul" = Some 1.
Proof.
  pose proof (add_to_cart_touches_one_entry
                (world_of (shop 5 [] [] []) (Some (<["2:L:Azul" := 1]> red_3)))
                POST (add_form "4") 1) as H.
  cbv zeta in H.
  destruct (add_to_cart POST (add_form "4") 1
              (world_of (shop 5 [] [] []) (Some (<["2:L:Azul" := 1]> red_3)))) as [r w'].
  destruct H as (_ & H & _). unfold snd.
  rewrite (H "2:L:Azul" ltac:(vm_compute; discriminate)).
  vm_compute. reflexivity.
Defined.

Lemma increment_cart_item_effect
    (w : World) (key pid talle color : string) (qty s : Z) :
  cart_of w !! key = Some qty ->
  split ":" key = [pid; talle; color] ->
  fst (_variant_stock (AStr pid) talle color w) = Ok s ->
  let '(r, w') := increment_cart_item POST key w in
  r = Ok (HttpResponseRedirect "store:cart" None)
  /\ db w' = db w
  /\ (forall k, k <> key -> cart_of w' !! k = cart_of w !! k)
  /\ (qty < s -> cart_of w' !! key = Some (qty + 1) /\ qty + 1 <= s)
  /\ (s <= qty ->
        cart_of w' = cart_of w
        /\ flashed w w' = [{| level := LWarning;
                              text := "No hay más stock para esa combinación." |}]).
Proof.
  intros Hk Hsp Hs.
  unfold increment_cart_item, bind at 1, session_get_cart at 1.
  fold (cart_dict w). rewrite cart_dict_lookup, Hk, Hsp.
  unfold bind at 1. rewrite (variant_stock_run _ _ _ _ _ Hs).
  rewrite Z.geb_leb.
  destruct (s <=? qty) eqn:E; [apply Z.leb_le in E | apply Z.leb_gt in E];
    unfold bind, session_set_cart, messages_add; rewrite redirect_cart.
  - repeat split; try reflexivity; try lia. apply flashed_add.
  - split; [reflexivity|]. split; [reflexivity|].
    unfold cart_of, cart_dict; simpl. rewrite to_map_insert.
    split; [intros k Hne; apply lookup_insert_ne; congruence|].
    split; [intros _; split; [apply lookup_insert_eq | lia] | intros; lia].
Qed.

(** X3.  [increment_cart_item] on an entry of quantity [qty] whose variant
    has the live stock [s]: below the stock the entry becomes [qty + 1],
    which is still within the stock; at or above it the cart is left as it
    is and a warning is shown.  No other entry and no table changes. *)
Theorem increment_stays_within_stock
    (w : World) (key pid talle color : string) (qty s : Z) :
  cart_of w !! key = Some qty ->
  split ":" key = [pid; talle; color] ->
  fst (_variant_stock (AStr pid) talle color w) = Ok s ->
  let '(r, w') := increment_cart_item POST key w in
  r = Ok (HttpResponseRedirect "store:cart" None)
  /\ db w' = db w
  /\ (forall k, k <> key -> cart_of w' !! k = cart_of w !! k)
  /\ (qty < s -> cart_of w' !! key = Some (qty + 1) /\ qty + 1 <= s)
  /\ (s <= qty ->
        cart_of w' = cart_of w
        /\ flashed w w' = [{| level := LWarning;
                              text := "No hay más stock para esa combinación." |}]).
Proof. exact (increment_cart_item_effect w key pid talle color qty s). Qed.

Lemma increment_stays_within_stock_witness :
  cart_of (snd (increment_cart_item POST "1:M:Rojo"
                  (world_of (shop 5 [] [] []) (Some red_3)))) !! "1:M:Rojo" = Some 4.
Proof.
  pose proof (increment_stays_within_stock
                (world_of (shop 5 [] [] []) (Some red_3)) "1:M:Rojo" "1" "M" "Rojo" 3 5
                ltac:(vm_compute; reflexivity) ltac:(reflexivity)
                ltac:(vm_compute; reflexivity)) as H.
  destruct (increment_cart_item POST "1:M:Rojo" (world_of (shop 5 [] [] []) (Some red_3)))
    as [r w'].
  destruct H as (_ & _ & _ & H & _). apply H. lia.
Defined.

Lemma decrement_cart_item_effect (w : World) (key : string) (qty : Z) :
  cart_of w !! key = Some qty ->
  let '(r, w') := decrement_cart_item POST key w in
  r = Ok (HttpResponseRedirect "store:cart" None)
  /\ db w' = db w
  /\ (forall k, k <> key -> cart_of w' !! k = cart_of w !! k)
  /\ (1 < qty -> cart_of w' = <[key := qty - 1]> (cart_of w))
  /\ (qty <= 1 -> cart_of w' = delete key (cart_of w)).
Proof.
  intros Hk.
  unfold decrement_cart_item, bind at 1, session_get_cart at 1.
  fold (cart_dict w). rewrite cart_dict_lookup, Hk. rewrite Z.gtb_ltb.
  destruct (1 <? qty) eqn:E; [apply Z.ltb_lt in E | apply Z.ltb_ge in E];
    unfold bind, session_set_cart, messages_add, ret; rewrite redirect_cart.
  - split; [reflexivity|]. split; [reflexivity|].
    unfold cart_of, cart_dict; simpl. rewrite to_map_insert.
    split; [intros k Hne; apply lookup_insert_ne; congruence|].
    split; [reflexivity | intros; lia].
  - split; [reflexivity|]. split; [reflexivity|].
    unfold cart_of, cart_dict; simpl. rewrite to_map_delete.
    split; [intros k Hne; apply lookup_delete_ne; congruence|].
    split; [intros; lia | reflexivity].
Qed.

(** X4.  [decrement_cart_item] on an entry of quantity [qty]: above one
    the entry becomes [qty - 1]; at one or below (zero and negative
    quantities included) the entry is deleted.  No other entry and no
    table changes. *)
Theorem decrement_lowers_or_deletes (w : World) (key : string) (qty : Z) :
  cart_of w !! key = Some qty ->
  let '(r, w') := decrement_cart_item POST key w in
  r = Ok (HttpResponseRedirect "store:cart" None)
  /\ db w' = db w
  /\ (forall k, k <> key -> cart_of w' !! k = cart_of w !! k)
  /\ (1 < qty -> cart_of w' = <[key := qty - 1]> (cart_of w))
  /\ (qty <= 1 -> cart_of w' = delete key (cart_of w)).
Proof. exact (decrement_cart_item_effect w key qty). Qed.

Lemma decrement_lowers_or_deletes_witness :
  cart_of (snd (decrement_cart_item POST "1:M:Rojo"
                  (world_of (shop 5 [] [] []) (Some red_1))))
    !! "1:M:Rojo" = None.
Proof.
  pose proof (decrement_lowers_or_deletes
                (world_of (shop 5 [] [] []) (Some red_1)) "1:M:Rojo" 1
                ltac:(vm_compute; reflexivity)) as H.
  destruct (decrement_cart_item POST "1:M:Rojo"
              (world_of (shop 5 [] [] []) (Some red_1))) as [r w'].
  destruct H as (_ & _ & _ & _ & H). unfold snd. rewrite (H ltac:(lia)).
  apply lookup_delete_eq.
Defined.

(** X5.  On a key that the cart does not hold, [increment_cart_item] and
    [decrement_cart_item] only show their error message: the cart and the
    database stay as they were, and the stock is not even read. *)
Theorem step_views_report_missing_key (w : World) (key : string) :
  cart_of w !! key = None ->
  increment_cart_item POST key w
  = (Ok (HttpResponseRedirect "store:cart" None),
     add_flash {| level := LError; text := "El producto no existe en el carrito." |} w)
  /\ decrement_cart_item POST key w
     = (Ok (HttpResponseRedirect "store:cart" None),
        add_flash {| level := LError; text := "El producto no existe en el carrito." |} w).
Proof.
  intros Hk.
  unfold increment_cart_item, decrement_cart_item, bind, session_get_cart.
  fold (cart_dict w). rewrite cart_dict_lookup, Hk. split; reflexivity.
Qed.

Lemma step_views_report_missing_key_witness :
  session_cart (snd (increment_cart_item POST "9:S:Gris"
                       (world_of (shop 5 [] [] []) (Some red_3)))) = Some red_3.
Proof.
  destruct (step_views_report_missing_key
              (world_of (shop 5 [] [] []) (Some red_3)) "9:S:Gris"
              ltac:(vm_compute; reflexivity)) as [H _].
  rewrite H. reflexivity.
Defined.

(** X6.  An increment that goes through, followed by a decrement of the
    same entry, gives back the cart as it was, for an entry of at least
    one unit. *)
Theorem decrement_undoes_increment
    (w : World) (key pid talle color : string) (qty s : Z) :
  cart_of w !! key = Some qty ->
  split ":" key = [pid; talle; color] ->
  fst (_variant_stock (AStr pid) talle color w) = Ok s ->
  1 <= qty < s ->
  cart_of (snd (decrement_cart_item POST key (snd (increment_cart_item POST key w))))
  = cart_of w.
Proof.
  intros Hk Hsp Hs Hq.
  pose proof (increment_cart_item_effect w key pid talle color qty s Hk Hsp Hs) as Hi.
  destruct (increment_cart_item POST key w) as [r1 w1].
  destruct Hi as (_ & _ & Hother & Hup & _).
  destruct (Hup ltac:(lia)) as [Hk1 _].
  pose proof (decrement_cart_item_effect w1 key (qty + 1) Hk1) as Hd.
  unfold snd at 2.
  destruct (decrement_cart_item POST key w1) as [r2 w2].
  destruct Hd as (_ & _ & _ & Hdown & _).
  unfold snd. rewrite (Hdown ltac:(lia)).
  apply map_eq. intros k.
  destruct (decide (k = key)) as [->|Hne].
  - rewrite lookup_insert_eq, Hk. f_equal. lia.
  - rewrite lookup_insert_ne by congruence. apply Hother, Hne.
Qed.

Lemma decrement_undoes_increment_witness :
  cart_of (snd (decrement_cart_item POST "1:M:Rojo"
                  (snd (increment_cart_item POST "1:M:Rojo"
                          (world_of (shop 5 [] [] []) (Some red_3)))))) = to_map red_3.
Proof.
  apply (decrement_undoes_increment
           (world_of (shop 5 [] [] []) (Some red_3)) "1:M:Rojo" "1" "M" "Rojo" 3 5);
    [vm_compute; reflexivity | reflexivity | vm_compute; reflexivity | lia].
Defined.

(** X7.  For a variant that the cart does not hold yet, [add_to_cart]
    followed by [remove_from_cart] on the variant's key gives back the
    cart as it was, whether the add went through or was refused. *)
Theorem remove_undoes_add (w : World) (post : gmap string string) (pk : Z) :
  let key := cart_key pk (default "" (post !! "talle")) (default "" (post !! "color")) in
  cart_of w !! key = None ->
  cart_of (snd (remove_from_cart POST key (snd (add_to_cart POST post pk w))))
  = cart_of w.
Proof.
  intros key Hfresh.
  pose proof (add_to_cart_effect w POST post pk) as Ha.
  cbv zeta in Ha. fold key in Ha.
  destruct (add_to_cart POST post pk w) as [r1 w1].
  destruct Ha as (_ & Hother & _).
  unfold snd at 2.
  unfold remove_from_cart, bind at 1, session_get_cart at 1.
  fold (cart_dict w1). rewrite cart_dict_lookup.
  apply map_eq. intros k.
  destruct (cart_of w1 !! key) eqn:E.
  - unfold bind, session_set_cart, messages_add. rewrite redirect_cart.
    unfold cart_of at 1, cart_dict at 1; simpl. rewrite to_map_delete.
    fold (cart_of w1).
    destruct (decide (k = key)) as [->|Hne].
    + rewrite lookup_delete_eq, Hfresh. reflexivity.
    + rewrite lookup_delete_ne by congruence. apply Hother, Hne.
  - unfold bind, messages_add. rewrite redirect_cart.
    change (cart_of w1 !! k = cart_of w !! k).
    destruct (decide (k = key)) as [->|Hne].
    + rewrite E, Hfresh. reflexivity.
    + apply Hother, Hne.
Qed.

Lemma remove_undoes_add_witness :
  cart_of (snd (remove_from_cart POST (cart_key 1 "M" "Rojo")
                  (snd (add_to_cart POST (add_form "2") 1
                          (world_of (shop 5 [] [] []) (Some empty_cart)))))) = to_map empty_cart.
Proof.
  apply (remove_undoes_add (world_of (shop 5 [] [] []) (Some empty_cart)) (add_form "2") 1).
  vm_compute. reflexivity.
Defined.

(** ** The cart page *)

Lemma cart_body_ok (st st' : CartLoop) (entry : string * Z) (w : World) :
  fst (cart_body st entry w) = Ok st' ->
  exists pid talle color prod s,
    split ":" (fst entry) = [pid; talle; color]
    /\ get_producto_or_404 (AStr pid) w = (Ok prod, w)
    /\ _variant_stock (AStr pid) talle color w = (Ok s, w)
    /\ st' = (if s <=? 0
              then {| raw := delete (fst entry) (raw st); lines := lines st;
                      total_acc := total_acc st; session_changed := true |}
              else {| raw := if snd entry >? s
                             then <[fst entry := if snd entry >? s then s else snd entry]>
                                    (raw st)
                             else raw st;
                      lines := (lines st ++
                                [{| line_key := fst entry; line_producto := prod;
                                    line_talle := talle; line_color := color;
                                    line_cantidad := if snd entry >? s then s else snd entry;
                                    line_subtotal :=
                                      precio prod * (if snd entry >? s then s else snd entry);
                                    line_max := s |}])%list;
                      total_acc := total_acc st
                                   + precio prod * (if snd entry >? s then s else snd entry);
                      session_changed := session_changed st || (snd entry >? s) |}).
Proof.
  unfold cart_body.
  destruct (split ":" (fst entry)) as [|pid [|talle [|color [|]]]]; try discriminate.
  unfold bind.
  pose proof (get_producto_or_404_reads (AStr pid) w) as Hr.
  destruct (get_producto_or_404 (AStr pid) w) as [[prod|e] w1] eqn:Hp; simpl in Hr; subst w1;
    [|discriminate].
  pose proof (variant_stock_reads (AStr pid) talle color w) as Hv.
  destruct (_variant_stock (AStr pid) talle color w) as [[s|e] w1] eqn:Hs;
    simpl in Hv; subst w1; [|discriminate].
  intros H. exists pid, talle, color, prod, s.
  split; [reflexivity|]. split; [exact Hp|]. split; [exact Hs|].
  destruct (s <=? 0); simpl in H; inversion H; reflexivity.
Qed.

Lemma entry_stock_of_reads (w : World) (key pid talle color : string) (prod : Producto)
    (s : Z) :
  split ":" key = [pid; talle; color] ->
  get_producto_or_404 (AStr pid) w = (Ok prod, w) ->
  _variant_stock (AStr pid) talle color w = (Ok s, w) ->
  entry_stock w key = Some s.
Proof.
  intros Hsp Hp Hs. unfold entry_stock. rewrite Hsp, Hp, Hs. reflexivity.
Qed.

Lemma cart_loop_map (l : list (string * Z)) (st st' : CartLoop) (w : World) :
  NoDup (l.*1) ->
  (forall k q, (k, q) ∈ l -> raw st !! k = Some q) ->
  fst (fold_m cart_body l st w) = Ok st' ->
  (forall k, k ∉ l.*1 -> raw st' !! k = raw st !! k)
  /\ (forall k q, (k, q) ∈ l ->
        exists s, entry_stock w k = Some s /\ raw st' !! k = reconciled s q)
  /\ (session_changed st' = false -> session_changed st = false /\ raw st' = raw st).
Proof.
  revert st. induction l as [|[k0 q0] l IH]; intros st Hnd Hraw H.
  - simpl in H. inversion H; subst.
    split; [intros; reflexivity|].
    split; [intros k q Hin; inversion Hin | intros Hf; split; [exact Hf | reflexivity]].
  - simpl in H. unfold bind in H.
    destruct (cart_body st (k0, q0) w) as [[st1|e] w1] eqn:Hb; [|discriminate].
    pose proof (cart_body_run st (k0, q0) w) as [Hw _]. rewrite Hb in Hw. simpl in Hw. subst w1.
    destruct (cart_body_ok st st1 (k0, q0) w ltac:(rewrite Hb; reflexivity))
      as (pid & talle & color & prod & s & Hsp & Hp & Hs & Hst1).
    simpl in Hsp, Hst1.
    csimpl in Hnd. rewrite NoDup_cons in Hnd. destruct Hnd as [Hk0 Hnd].
    assert (Hq0 : raw st !! k0 = Some q0) by (apply Hraw; left).
    assert (Hother : forall k, k <> k0 -> raw st1 !! k = raw st !! k).
    { intros k Hne. subst st1. destruct (s <=? 0); simpl.
      - apply dict_lookup_delete_ne. congruence.
      - destruct (q0 >? s); [apply dict_lookup_insert_ne; congruence | reflexivity]. }
    assert (Hat : raw st1 !! k0 = reconciled s q0).
    { subst st1. unfold reconciled. destruct (s <=? 0); simpl.
      - apply dict_lookup_delete_eq.
      - rewrite Z.gtb_ltb.
        destruct (s <? q0) eqn:E; [apply Z.ltb_lt in E | apply Z.ltb_ge in E].
        + rewrite dict_lookup_insert_eq. f_equal. lia.
        + rewrite Hq0. f_equal. lia. }
    assert (Hflag : session_changed st1 = false ->
                    session_changed st = false /\ raw st1 = raw st).
    { subst st1. destruct (s <=? 0); simpl; [discriminate|].
      destruct (q0 >? s); rewrite ?orb_true_r, ?orb_false_r; [discriminate | auto]. }
    assert (Hmem : forall k q, (k, q) ∈ l -> k <> k0).
    { intros k q Hin ->. apply Hk0. apply list_elem_of_fmap. exists (k0, q). auto. }
    destruct (IH st1 Hnd) as (IH1 & IH2 & IH3).
    { intros k q Hin. rewrite (Hother k (Hmem k q Hin)). apply Hraw. right. exact Hin. }
    { exact H. }
    split; [|split].
    + intros k Hk. csimpl in Hk. rewrite not_elem_of_cons in Hk. destruct Hk as [Hne Hk].
      rewrite (IH1 k Hk). apply Hother, Hne.
    + intros k q Hin. apply elem_of_cons in Hin as [Heq|Hin].
      * inversion Heq; subst. exists s. split.
        -- eapply entry_stock_of_reads; eassumption.
        -- rewrite (IH1 k0 Hk0). exact Hat.
      * apply IH2, Hin.
    + intros Hf. destruct (IH3 Hf) as [Hf1 Hr1]. destruct (Hflag Hf1) as [Hf0 Hr0].
      split; [exact Hf0 | congruence].
Qed.

Lemma cart_view_effect
    (w w' : World) (items_ : list CartLine) (total_ count : Z) :
  cart GET w = (Ok (RenderCart items_ total_ count), w') ->
  db w' = db w
  /\ (forall k, cart_of w !! k = None -> cart_of w' !! k = None)
  /\ (forall k q, cart_of w !! k = Some q ->
        exists s, entry_stock w k = Some s /\ cart_of w' !! k = reconciled s q).
Proof.
  unfold cart, bind at 1, session_get_cart at 1. fold (cart_dict w).
  unfold bind at 1.
  set (st0 := {| raw := cart_dict w; lines := []; total_acc := 0; session_changed := false |}).
  pose proof (cart_loop_run (items_of_dict (cart_dict w)) st0 w) as [Hw _].
  destruct (fold_m cart_body (items_of_dict (cart_dict w)) st0 w) as [[st1|e] w1] eqn:Hloop;
    simpl in Hw; subst w1; [|discriminate].
  destruct (cart_loop_map (items_of_dict (cart_dict w)) st0 st1 w) as (H1 & H2 & H3).
  { apply items_of_dict_nodup. }
  { intros k q Hin. apply elem_of_items_of_dict in Hin. simpl. rewrite dict_lookup. exact Hin. }
  { rewrite Hloop. reflexivity. }
  assert (Hfinal : cart_of w' = to_map (raw st1) /\ db w' = db w ->
            db w' = db w
            /\ (forall k, cart_of w !! k = None -> cart_of w' !! k = None)
            /\ (forall k q, cart_of w !! k = Some q ->
                  exists s, entry_stock w k = Some s /\ cart_of w' !! k = reconciled s q)).
  { intros [Hc Hd]. split; [exact Hd|]. rewrite Hc. split.
    - intros k Hk. rewrite <- dict_lookup, H1; [simpl; rewrite dict_lookup; exact Hk|].
      intros Hin. apply list_elem_of_fmap in Hin as ([k' q] & -> & Hin).
      apply elem_of_items_of_dict in Hin. simpl in Hk. unfold cart_of in Hk. congruence.
    - intros k q Hk. setoid_rewrite <- dict_lookup.
      apply H2. apply elem_of_items_of_dict. exact Hk. }
  unfold bind. destruct (session_changed st1) eqn:Hch; simpl;
    intros H; inversion H; subst; apply Hfinal.
  - split; reflexivity.
  - split; [|reflexivity]. destruct (H3 eq_refl) as [_ Hr]. rewrite Hr. reflexivity.
Qed.

(** X8.  When the cart page is rendered, every entry of the session cart
    has been set against the live stock of its variant: an entry without
    stock is gone from the session, any other holds the smaller of its
    quantity and the stock; no entry is added and the database is not
    written. *)
Theorem cart_reconciles_session
    (w w' : World) (items_ : list CartLine) (total_ count : Z) :
  cart GET w = (Ok (RenderCart items_ total_ count), w') ->
  db w' = db w
  /\ (forall k, cart_of w !! k = None -> cart_of w' !! k = None)
  /\ (forall k q, cart_of w !! k = Some q ->
        exists s, entry_stock w k = Some s /\ cart_of w' !! k = reconciled s q).
Proof. exact (cart_view_effect w w' items_ total_ count). Qed.

Lemma cart_reconciles_session_witness :
  cart_of (snd (cart GET (world_of (shop 2 [] [] []) (Some stale_cart)))) !! "1:M:Rojo" = Some 2
  /\ cart_of (snd (cart GET (world_of (shop 2 [] [] []) (Some stale_cart)))) !! "1:L:Azul" = None.
Proof.
  destruct (cart GET (world_of (shop 2 [] [] []) (Some stale_cart)))
    as [[[| |items_ total_ count| | |]|e] w'] eqn:E;
    try (vm_compute in E; discriminate).
  destruct (cart_reconciles_session _ _ _ _ _ E) as (_ & _ & H).
  destruct (H "1:M:Rojo" 5 ltac:(vm_compute; reflexivity)) as (s & Hs & Hc).
  destruct (H "1:L:Azul" 2 ltac:(vm_compute; reflexivity)) as (s' & Hs' & Hc').
  vm_compute in Hs, Hs'. inversion Hs; inversion Hs'; subst.
  unfold snd. rewrite Hc, Hc'. split; reflexivity.
Defined.

Lemma lines_total_snoc (l : list CartLine) (x : CartLine) :
  lines_total (l ++ [x]) = lines_total l + line_subtotal x.
Proof.
  unfold lines_total. induction l as [|y l IH]; simpl; [lia|]. rewrite IH. lia.
Qed.

Lemma sum_cantidad_snoc (l : list CartLine) (x : CartLine) :
  sum_cantidad (l ++ [x]) = sum_cantidad l + line_cantidad x.
Proof.
  unfold sum_cantidad. induction l as [|y l IH]; simpl; [lia|]. rewrite IH. lia.
Qed.

Lemma cart_loop_lines (m : gmap string Z) (l : list (string * Z)) (st st' : CartLoop)
    (w : World) :
  (forall k q, (k, q) ∈ l -> m !! k = Some q) ->
  fst (fold_m cart_body l st w) = Ok st' ->
  total_acc st = lines_total (lines st) ->
  Forall (line_ok w m) (lines st) ->
  total_acc st' = lines_total (lines st') /\ Forall (line_ok w m) (lines st').
Proof.
  revert st. induction l as [|[k0 q0] l IH]; intros st Hm H Htot Hall.
  - simpl in H. inversion H; subst. auto.
  - simpl in H. unfold bind in H.
    destruct (cart_body st (k0, q0) w) as [[st1|e] w1] eqn:Hb; [|discriminate].
    pose proof (cart_body_run st (k0, q0) w) as [Hw _]. rewrite Hb in Hw. simpl in Hw. subst w1.
    destruct (cart_body_ok st st1 (k0, q0) w ltac:(rewrite Hb; reflexivity))
      as (pid & talle & color & prod & s & Hsp & Hp & Hs & Hst1).
    simpl in Hsp, Hst1.
    apply (IH st1).
    + intros k q Hin. apply Hm. right. exact Hin.
    + exact H.
    + subst st1. destruct (s <=? 0); simpl; [exact Htot|].
      rewrite lines_total_snoc, Htot. reflexivity.
    + subst st1. destruct (s <=? 0) eqn:Hs0; simpl; [exact Hall|].
      apply Z.leb_gt in Hs0.
      apply Forall_app. split; [exact Hall|].
      constructor; [|constructor].
      unfold line_ok; simpl.
      split; [reflexivity|]. split; [exact Hs0|].
      split; [eapply entry_stock_of_reads; eassumption|].
      exists q0. split; [apply Hm; left|].
      rewrite Z.gtb_ltb.
      destruct (s <? q0) eqn:E; [apply Z.ltb_lt in E | apply Z.ltb_ge in E]; lia.
Qed.

(** X9.  On a rendered cart page the total is the sum of the subtotals of
    the lines shown and the count the sum of their quantities; each line
    is price times quantity, for a variant with a positive stock, at the
    smaller of the stored quantity and that stock. *)
Theorem cart_page_totals
    (w w' : World) (items_ : list CartLine) (total_ count : Z) :
  cart GET w = (Ok (RenderCart items_ total_ count), w') ->
  total_ = lines_total items_
  /\ count = sum_cantidad items_
  /\ Forall (line_ok w (cart_of w)) items_.
Proof.
  unfold cart, bind at 1, session_get_cart at 1. fold (cart_dict w).
  unfold bind at 1.
  set (st0 := {| raw := cart_dict w; lines := []; total_acc := 0; session_changed := false |}).
  pose proof (cart_loop_run (items_of_dict (cart_dict w)) st0 w) as [Hw _].
  destruct (fold_m cart_body (items_of_dict (cart_dict w)) st0 w) as [[st1|e] w1] eqn:Hloop;
    simpl in Hw; subst w1; [|discriminate].
  destruct (cart_loop_lines (cart_of w) (items_of_dict (cart_dict w)) st0 st1 w) as [Ht Hl].
  { intros k q Hin. apply elem_of_items_of_dict in Hin. exact Hin. }
  { rewrite Hloop. reflexivity. }
  { reflexivity. }
  { constructor. }
  unfold bind. destruct (session_changed st1); simpl;
    intros H; inversion H; subst; repeat split; assumption.
Qed.

Lemma cart_page_totals_witness :
  match fst (cart GET (world_of (shop 2 [] [] []) (Some stale_cart))) with
  | Ok (RenderCart items_ total_ _) => total_ = lines_total items_
  | _ => False
  end.
Proof.
  destruct (cart GET (world_of (shop 2 [] [] []) (Some stale_cart)))
    as [[[| |items_ total_ count| | |]|e] w'] eqn:E;
    try (vm_compute in E; discriminate).
  apply (cart_page_totals _ _ _ _ _ E).
Defined.

Lemma cart_unreadable_raises (w : World) (k : string) (q : Z) :
  cart_of w !! k = Some q ->
  entry_stock w k = None ->
  exists e, cart GET w = (Raise e, w).
Proof.
  intros Hk Hnone.
  destruct (cart GET w) as [[resp|e] w'] eqn:E.
  - exfalso.
    assert (exists items_ total_ count, resp = RenderCart items_ total_ count)
      as (items_ & total_ & count & ->).
    { revert E. unfold cart, bind, session_get_cart.
      destruct (fold_m cart_body _ _ w) as [[st1|e] w1]; [|discriminate].
      destruct (session_changed st1); simpl; intros H; inversion H; eauto. }
    destruct (cart_view_effect _ _ _ _ _ E) as (_ & _ & H).
    destruct (H k q Hk) as (s & Hs & _). congruence.
  - exists e. f_equal.
    revert E. unfold cart, bind at 1, session_get_cart at 1. fold (cart_dict w).
    unfold bind at 1.
    match goal with |- context [fold_m cart_body ?l ?st w] =>
      pose proof (cart_loop_run l st w) as [Hw _];
      destruct (fold_m cart_body l st w) as [[st1|e1] w1] end;
      simpl in Hw; subst w1.
    + unfold bind. destruct (session_changed st1); simpl; discriminate.
    + intros H. inversion H. reflexivity.
Qed.

(** X10.  The cart page is only rendered when every key of the session
    cart has its three parts, names an existing product and has a stock
    that can be read.  Otherwise the view raises, and the session and the
    database stay as they were: an entry of a deleted product is not
    purged. *)
Theorem cart_raises_on_unreadable_entry (w : World) (k : string) (q : Z) :
  cart_of w !! k = Some q ->
  entry_stock w k = None ->
  exists e, cart GET w = (Raise e, w).
Proof. exact (cart_unreadable_raises w k q). Qed.

Lemma cart_raises_on_unreadable_entry_witness :
  exists e, cart GET (world_of (shop 2 [] [] []) (Some (<["7:M:Rojo" := 1]> red_3)))
            = (Raise e, world_of (shop 2 [] [] []) (Some (<["7:M:Rojo" := 1]> red_3))).
Proof.
  apply (cart_raises_on_unreadable_entry _ "7:M:Rojo" 1); vm_compute; reflexivity.
Defined.

Lemma reads_depend_on_db (w1 w2 : World) (a : IntOrStr) (talle color : string) :
  db w1 = db w2 ->
  fst (get_producto_or_404 a w1) = fst (get_producto_or_404 a w2)
  /\ fst (_variant_stock a talle color w1) = fst (_variant_stock a talle color w2).
Proof.
  destruct w1 as [d1 ? ? ? ? ?], w2 as [d2 ? ? ? ? ?]. simpl. intros ->.
  unfold get_producto_or_404, _variant_stock, bind, int_of, get_db, ret, raise.
  destruct a as [n|s]; simpl.
  - split.
    + destruct (if in_int64 n then find_producto n d2 else None); reflexivity.
    + destruct (in_int64 n); simpl; [|reflexivity].
      destruct (objects_get _ _) as [tp|[]]; simpl; try reflexivity.
      destruct (filter_first _ _); reflexivity.
  - destruct (int s) as [n|]; simpl; [|split; reflexivity]. split.
    + destruct (if in_int64 n then find_producto n d2 else None); reflexivity.
    + destruct (in_int64 n); simpl; [|reflexivity].
      destruct (objects_get _ _) as [tp|[]]; simpl; try reflexivity.
      destruct (filter_first _ _); reflexivity.
Qed.

Lemma entry_stock_depends_on_db (w1 w2 : World) (k : string) :
  db w1 = db w2 -> entry_stock w1 k = entry_stock w2 k.
Proof.
  intros Hd. unfold entry_stock.
  destruct (split ":" k) as [|pid [|talle [|color [|]]]]; try reflexivity.
  destruct (reads_depend_on_db w1 w2 (AStr pid) talle color Hd) as [-> ->]. reflexivity.
Qed.

Lemma cart_body_settled (st : CartLoop) (entry : string * Z) (w : World) (s : Z) :
  entry_stock w (fst entry) = Some s -> 0 < s -> snd entry <= s ->
  exists st', cart_body st entry w = (Ok st', w)
              /\ raw st' = raw st /\ session_changed st' = session_changed st.
Proof.
  unfold entry_stock, cart_body. intros Hs Hs0 Hq.
  destruct (split ":" (fst entry)) as [|pid [|talle [|color [|]]]]; try discriminate.
  unfold bind.
  pose proof (get_producto_or_404_reads (AStr pid) w) as Hr.
  destruct (get_producto_or_404 (AStr pid) w) as [[prod|e] w1]; simpl in Hr, Hs; subst w1;
    [|discriminate].
  pose proof (variant_stock_reads (AStr pid) talle color w) as Hv.
  destruct (_variant_stock (AStr pid) talle color w) as [[s1|e] w1]; simpl in Hv, Hs; subst w1;
    [|discriminate].
  inversion Hs; subst s1.
  replace (s <=? 0) with false by (symmetry; apply Z.leb_gt; lia).
  rewrite Z.gtb_ltb.
  replace (s <? snd entry) with false by (symmetry; apply Z.ltb_ge; lia).
  eexists. split; [reflexivity|]. simpl. split; [reflexivity | apply orb_false_r].
Qed.

Lemma cart_loop_settled (l : list (string * Z)) (st : CartLoop) (w : World) :
  (forall k q, (k, q) ∈ l -> exists s, entry_stock w k = Some s /\ 0 < s /\ q <= s) ->
  exists st', fold_m cart_body l st w = (Ok st', w)
              /\ raw st' = raw st /\ session_changed st' = session_changed st.
Proof.
  revert st. induction l as [|[k q] l IH]; intros st Hall; simpl.
  - exists st. repeat split; reflexivity.
  - destruct (Hall k q ltac:(left)) as (s & Hs & Hs0 & Hq).
    destruct (cart_body_settled st (k, q) w s Hs Hs0 Hq) as (st1 & Hb & Hr1 & Hf1).
    rewrite (bind_ok _ _ _ _ _ Hb).
    destruct (IH st1) as (st' & Hl & Hr & Hf).
    { intros k' q' Hin. apply Hall. right. exact Hin. }
    exists st'. split; [exact Hl|]. split; congruence.
Qed.

(** X11.  Reading the cart is idempotent: once the page has been
    rendered, rendering it again (the stock being the same) succeeds and
    changes nothing at all. *)
Theorem cart_second_read_changes_nothing
    (w w' : World) (items_ : list CartLine) (total_ count : Z) :
  cart GET w = (Ok (RenderCart items_ total_ count), w') ->
  exists items2 total2 count2,
    cart GET w' = (Ok (RenderCart items2 total2 count2), w').
Proof.
  intros E.
  destruct (cart_view_effect _ _ _ _ _ E) as (Hd & Hnone & Hsome).
  unfold cart, bind at 1, session_get_cart at 1. fold (cart_dict w').
  unfold bind at 1.
  set (st0 := {| raw := cart_dict w'; lines := []; total_acc := 0; session_changed := false |}).
  destruct (cart_loop_settled (items_of_dict (cart_dict w')) st0 w') as (st' & Hl & _ & Hf).
  { intros k q' Hin. apply elem_of_items_of_dict in Hin. fold (cart_of w') in Hin.
    destruct (cart_of w !! k) as [q|] eqn:Hk.
    - destruct (Hsome k q Hk) as (s & Hs & Hc).
      rewrite Hin in Hc. unfold reconciled in Hc.
      destruct (s <=? 0) eqn:Hs0; [discriminate|]. apply Z.leb_gt in Hs0.
      inversion Hc; subst q'.
      exists s. rewrite (entry_stock_depends_on_db w' w k Hd).
      split; [exact Hs|]. split; lia.
    - rewrite (Hnone k Hk) in Hin. discriminate. }
  rewrite Hl. unfold bind. rewrite Hf. simpl.
  eexists _, _, _. reflexivity.
Qed.

Lemma cart_second_read_witness :
  exists items2 total2 count2,
    cart GET (snd (cart GET (world_of (shop 2 [] [] []) (Some stale_cart))))
    = (Ok (RenderCart items2 total2 count2),
       snd (cart GET (world_of (shop 2 [] [] []) (Some stale_cart)))).
Proof.
  destruct (cart GET (world_of (shop 2 [] [] []) (Some stale_cart)))
    as [[[| |items_ total_ count| | |]|e] w'] eqn:E;
    try (vm_compute in E; discriminate).
  apply (cart_second_read_changes_nothing _ _ _ _ _ E).
Defined.

(** ** Checkout *)

Lemma co_total_snoc (l : list CheckoutLine) (x : CheckoutLine) :
  co_total (l ++ [x]) = co_total l + co_subtotal x.
Proof.
  unfold co_total. induction l as [|y l IH]; simpl; [lia|]. rewrite IH. lia.
Qed.

Lemma checkout_loop_lines (l : list (string * Z)) (st st' : list CheckoutLine * Z)
    (w : World) :
  fst (fold_m checkout_body l st w) = Ok st' ->
  snd st = co_total (fst st) ->
  Forall (fun i => co_subtotal i = precio (co_producto i) * co_qty i) (fst st) ->
  snd st' = co_total (fst st')
  /\ Forall (fun i => co_subtotal i = precio (co_producto i) * co_qty i) (fst st').
Proof.
  revert st. induction l as [|entry l IH]; intros st H Htot Hall.
  - simpl in H. inversion H; subst. auto.
  - simpl in H. unfold bind in H.
    destruct (checkout_body st entry w) as [[st1|e] w1] eqn:Hb; [|discriminate].
    pose proof (checkout_body_run st entry w) as [Hw _]. rewrite Hb in Hw. simpl in Hw.
    subst w1.
    apply (IH st1 H).
    + revert Hb. unfold checkout_body.
      destruct (split ":" (fst entry)) as [|pid [|talle [|color [|]]]]; try discriminate.
      unfold bind. destruct (get_producto_or_404 (AStr pid) w) as [[prod|e] w1];
        [|discriminate].
      intros Hb. inversion Hb; subst; simpl. rewrite co_total_snoc, Htot. reflexivity.
    + revert Hb. unfold checkout_body.
      destruct (split ":" (fst entry)) as [|pid [|talle [|color [|]]]]; try discriminate.
      unfold bind. destruct (get_producto_or_404 (AStr pid) w) as [[prod|e] w1];
        [|discriminate].
      intros Hb. inversion Hb; subst; simpl.
      apply Forall_app. split; [exact Hall|]. constructor; [reflexivity | constructor].
Qed.

(** X12.  The two [try] blocks of [checkout] never let a provider failure
    through: when the post raises, the status is an HTTP error or the body
    is not JSON, the shipping cost is zero without any message; when the
    answer has no cost, it is zero, with a warning on GET only; a cost that
    was read is used as it is.  Only a JSON body that is not an object
    ([AttributeError]) or a cost that is not a number ([InvalidOperation])
    make checkout raise. *)
Theorem checkout_shipping_degrades_to_zero
    (warn : bool) (a b c d : option string) (w : World) :
  (forall kind, post_and_decode (andreani w) = Raise (RequestException kind) ->
     shipping_or_zero warn a b c d w = (Ok 0, w))
  /\ (forall msg, post_and_decode (andreani w) = Raise (ShippingError msg) ->
        fst (shipping_or_zero warn a b c d w) = Ok 0
        /\ length (flashed w (snd (shipping_or_zero warn a b c d w)))
           = if warn then 1%nat else 0%nat)
  /\ (forall cost, post_and_decode (andreani w) = Ok cost ->
        shipping_or_zero warn a b c d w = (Ok cost, w))
  /\ (forall e, fst (shipping_or_zero warn a b c d w) = Raise e ->
        e = AttributeError \/ e = InvalidOperation).
Proof.
  unfold shipping_or_zero, calculate_shipping.
  repeat split.
  - intros kind ->. reflexivity.
  - rewrite H. destruct warn; reflexivity.
  - rewrite H. destruct warn; simpl; [rewrite flashed_add; reflexivity|].
    unfold flashed. rewrite drop_all. reflexivity.
  - intros cost ->. reflexivity.
  - intros e.
    assert (Hcases : forall r, post_and_decode (andreani w) = Raise r ->
              (exists k, r = RequestException k) \/ (exists m, r = ShippingError m)
              \/ r = AttributeError \/ r = InvalidOperation).
    { intros r. unfold post_and_decode.
      destruct (andreani w) as [kind|status [[members printed|v]|]]; [intros H; inversion H; eauto|..].
      all: destruct ((400 <=? status) && (status <? 600)); [intros H; inversion H; eauto|].
      - destruct (lookup_member "cost" members) as [[| | |? [?|]|]|]; simpl;
          intros H; inversion H; eauto.
      - intros H; inversion H; eauto.
      - intros H; inversion H; eauto. }
    destruct (post_and_decode (andreani w)) as [cost|r]; [discriminate|].
    destruct (Hcases r eq_refl) as [[k ->]|[[m ->]|[->| ->]]]; simpl.
    + discriminate.
    + destruct warn; discriminate.
    + intros H; inversion H; auto.
    + intros H; inversion H; auto.
Qed.

Lemma checkout_shipping_degrades_witness :
  shipping_or_zero true None None None None (world_of (shop 5 [] [] []) None)
  = (Ok 0, world_of (shop 5 [] [] []) None).
Proof.
  destruct (checkout_shipping_degrades_to_zero true None None None None
              (world_of (shop 5 [] [] []) None)) as (H & _).
  apply (H "ConnectionError"). reflexivity.
Defined.

Lemma db_write_inv (f : DB -> DB) (w w' : World) (r : Res unit) :
  db_write f w = (r, w') ->
  (r = Ok tt /\ db w' = f (db w) /\ session_cart w' = session_cart w /\ flash w' = flash w
   /\ now w' = now w)
  \/ (r = Raise DatabaseError /\ w' = w).
Proof.
  unfold db_write. destruct (writes_left w) as [[|n]|]; intros H; inversion H; subst; simpl; auto.
  all: left; repeat split; reflexivity.
Qed.

Lemma next_pedido_id_fresh (d : DB) :
  Forall (fun q => pedido_id q < next_pedido_id d) (pedidos d).
Proof.
  unfold next_pedido_id. induction (pedidos d) as [|q l IH]; constructor; simpl.
  - lia.
  - eapply Forall_impl; [exact IH|]. simpl. intros x Hx. lia.
Qed.

Lemma next_pedido_id_positive (d : DB) : 1 <= next_pedido_id d.
Proof.
  unfold next_pedido_id. induction (pedidos d) as [|q l IH]; simpl; lia.
Qed.

Lemma for_each_create_item (id : Z) (l : list CheckoutLine) (w w' : World) :
  for_each l (create_item id) w = (Ok tt, w') ->
  session_cart w' = session_cart w
  /\ pedidos (db w') = pedidos (db w)
  /\ colores (db w') = colores (db w)
  /\ logs (db w') = logs (db w)
  /\ exists its,
       items (db w') = (items (db w) ++ its)%list
       /\ Forall2 (fun line it =>
                     it_pedido it = id /\ it_cantidad it = co_qty line
                     /\ it_producto it = producto_id (co_producto line)
                     /\ it_talle it = co_talle line /\ it_color it = co_color line
                     /\ it_precio_unitario it = precio (co_producto line)) l its.
Proof.
  revert w. induction l as [|x l IH]; intros w; simpl.
  - intros H. inversion H; subst. repeat split; try reflexivity.
    exists []. split; [rewrite List.app_nil_r; reflexivity | constructor].
  - unfold bind. unfold create_item at 1.
    destruct (db_write _ w) as [r w1] eqn:Hw.
    apply db_write_inv in Hw as [(-> & Hd & Hs & _) | (-> & _)]; [|discriminate].
    intros H. destruct (IH w1 H) as (Hs' & Hp & Hc & Hl & its & Hi & Hall).
    rewrite Hd in Hp, Hc, Hl, Hi. simpl in Hp, Hc, Hl, Hi.
    split; [congruence|]. repeat split; try assumption.
    eexists (_ :: its). split.
    + rewrite Hi, <- List.app_assoc. reflexivity.
    + constructor; [|exact Hall]. simpl. repeat split; reflexivity.
Qed.

Lemma create_pedido_inv (post : gmap string string) (sc tot id : Z) (w w' : World) :
  create_pedido post sc tot w = (Ok id, w') ->
  id = next_pedido_id (db w)
  /\ session_cart w' = session_cart w
  /\ items (db w') = items (db w)
  /\ colores (db w') = colores (db w)
  /\ logs (db w') = logs (db w)
  /\ exists p, pedidos (db w') = (pedidos (db w) ++ [p])%list
               /\ pedido_id p = id /\ estado p = "pendiente" /\ tracking_number p = None
               /\ shipping_cost p = sc /\ total p = tot
               /\ Some (payment_method p) = post !! "metodo_pago"
               /\ Some (buyer_name p) = post !! "nombre".
Proof.
  unfold create_pedido.
  destruct (post !! "nombre"), (post !! "dni"), (post !! "provincia"), (post !! "localidad"),
    (post !! "calle"), (post !! "numero"), (post !! "telefono"), (post !! "metodo_pago");
    try discriminate.
  destruct (db_write _ w) as [r w1] eqn:Hw.
  apply db_write_inv in Hw as [(-> & Hd & Hs & _) | (-> & _)]; [|discriminate].
  intros H. inversion H; subst. rewrite Hd. simpl.
  repeat split; try reflexivity; try assumption.
  eexists. split; [reflexivity|]. simpl. repeat split; reflexivity.
Qed.

(** X13.  A checkout POST that goes through creates one order under a
    fresh key, 'pendiente' and without tracking number, with one line per
    entry of the session cart, in the order of the session's dict, at the
    stored quantity and the product's price of the moment; the order's total is the value of those lines plus
    the shipping cost; the session cart is emptied; and neither the stock
    nor the audit log is touched. *)
Theorem checkout_post_creates_order
    (w w' : World) (get_ post : gmap string string) (resp : HttpResponse) :
  checkout POST get_ post w = (Ok resp, w') ->
  exists p its,
    resp = HttpResponseRedirect "store:order_detail" (Some (pedido_id p))
    /\ Forall (fun q => pedido_id q < pedido_id p) (pedidos (db w))
    /\ pedidos (db w') = (pedidos (db w) ++ [p])%list
    /\ estado p = "pendiente" /\ tracking_number p = None
    /\ items (db w') = (items (db w) ++ its)%list
    /\ Forall (fun it => it_pedido it = pedido_id p) its
    /\ List.map it_cantidad its = List.map snd (items_of_dict (cart_dict w))
    /\ total p = items_value its + shipping_cost p
    /\ cart_of w' = ∅
    /\ colores (db w') = colores (db w)
    /\ logs (db w') = logs (db w).
Proof.
  unfold checkout, bind at 1, session_get_cart at 1. fold (cart_dict w).
  unfold bind at 1.
  destruct (checkout_loop_run (items_of_dict (cart_dict w)) ([], 0) w) as [Hw Hq].
  pose proof (fun st' => checkout_loop_lines (items_of_dict (cart_dict w)) ([], 0) st' w)
    as Hlines.
  destruct (fold_m checkout_body (items_of_dict (cart_dict w)) ([], 0) w) as [[st|e] w1];
    simpl in Hw; subst w1; [|discriminate].
  specialize (Hq st eq_refl). simpl in Hq.
  destruct (Hlines st eq_refl eq_refl (Forall_nil_2 _)) as [Hsub Hprice].
  rewrite (bind_ok (ret 0) _ w w 0 eq_refl).
  unfold bind at 1.
  match goal with |- context [shipping_or_zero ?x ?a ?b ?c ?d w] =>
    destruct (shipping_or_zero_keeps x a b c d w) as [Hd1 Hs1];
    destruct (shipping_or_zero x a b c d w) as [[sc|e] w1]
  end; simpl in Hd1, Hs1; [|discriminate].
  unfold bind at 1.
  destruct (create_pedido post sc (snd st + sc) w1) as [[id|e] w2] eqn:Hc; [|discriminate].
  apply create_pedido_inv in Hc
    as (Hid & Hs2 & Hi2 & Hc2 & Hl2 & p & Hp2 & Hpid & Hest & Htr & Hsc & Htot & _).
  unfold bind at 1.
  destruct (for_each (fst st) (create_item id) w2) as [[[]|e] w3] eqn:Hf; [|discriminate].
  apply for_each_create_item in Hf as (Hs3 & Hp3 & Hc3 & Hl3 & its & Hi3 & Hall).
  unfold bind, session_set_cart.
  rewrite redirect_order_detail
    by (rewrite Hid; pose proof (next_pedido_id_positive (db w1)); lia).
  intros H. inversion H; subst resp w'. clear H.
  exists p, its. simpl.
  assert (Hqty : List.map it_cantidad its = List.map co_qty (fst st)).
  { clear -Hall. induction Hall as [|x y l l' (_ & Hxy & _) _ IH]; simpl; [reflexivity|].
    rewrite Hxy, IH. reflexivity. }
  assert (Hval : items_value its = co_total (fst st)).
  { clear -Hall Hprice. induction Hall as [|x y l l' (_ & Hq' & _ & _ & _ & Hpr) _ IH];
      simpl; [reflexivity|].
    inversion Hprice; subst. rewrite IH by assumption.
    rewrite Hq', Hpr. unfold co_total; simpl. fold (co_total l). lia. }
  repeat split.
  - rewrite Hpid. reflexivity.
  - rewrite Hpid, Hid, <- Hd1. apply next_pedido_id_fresh.
  - rewrite Hp3, Hp2, Hd1. reflexivity.
  - exact Hest.
  - exact Htr.
  - rewrite Hi3, Hi2, Hd1. reflexivity.
  - rewrite Hpid. clear -Hall.
    induction Hall as [|x y l l' (Hy & _) _ IH]; constructor; assumption.
  - rewrite Hqty. exact Hq.
  - rewrite Htot, Hsc, Hval, Hsub. reflexivity.
  - rewrite Hc3, Hc2, Hd1. reflexivity.
  - rewrite Hl3, Hl2, Hd1. reflexivity.
Qed.

Lemma checkout_post_creates_order_witness :
  cart_of (snd (checkout POST ∅ buyer_form (world_with_cost (shop 5 [] [] []) (Some red_3))))
  = ∅
  /\ List.map cs_stock
       (colores (db (snd (checkout POST ∅ buyer_form
                            (world_with_cost (shop 5 [] [] []) (Some red_3)))))) = [5].
Proof.
  destruct (checkout POST ∅ buyer_form (world_with_cost (shop 5 [] [] []) (Some red_3)))
    as [[resp|e] w'] eqn:E; [|vm_compute in E; discriminate].
  destruct (checkout_post_creates_order _ _ _ _ _ E)
    as (p & its & _ & _ & _ & _ & _ & _ & _ & _ & _ & Hc & Hs & _).
  unfold snd. rewrite Hs. split; [exact Hc | reflexivity].
Defined.

(** X14.  A checkout POST whose form lacks one of the required fields
    creates nothing: the view raises, and the database and the session
    cart stay as they were. *)
Theorem checkout_post_missing_field
    (w : World) (get_ post : gmap string string) (field : string) :
  In field required_fields ->
  post !! field = None ->
  let '(r, w') := checkout POST get_ post w in
  (exists e, r = Raise e) /\ db w' = db w /\ cart_of w' = cart_of w.
Proof.
  intros Hin Hnone.
  unfold checkout, bind at 1, session_get_cart at 1. fold (cart_dict w).
  unfold bind at 1.
  destruct (checkout_loop_run (items_of_dict (cart_dict w)) ([], 0) w) as [Hw _].
  destruct (fold_m checkout_body (items_of_dict (cart_dict w)) ([], 0) w) as [[st|e] w1];
    simpl in Hw; subst w1; [|eauto].
  rewrite (bind_ok (ret 0) _ w w 0 eq_refl).
  unfold bind at 1.
  match goal with |- context [shipping_or_zero ?x ?a ?b ?c ?d w] =>
    destruct (shipping_or_zero_keeps x a b c d w) as [Hd1 Hs1];
    destruct (shipping_or_zero x a b c d w) as [[sc|e] w1]
  end; simpl in Hd1, Hs1;
    [|split; [eauto | split; [exact Hd1 | unfold cart_of, cart_dict; rewrite Hs1; reflexivity]]].
  assert (Hraise : create_pedido post sc (snd st + sc) w1 = (Raise IntegrityError, w1)).
  { unfold create_pedido, required_fields in *.
    simpl in Hin.
    destruct Hin as [<-|[<-|[<-|[<-|[<-|[<-|[<-|[<-|[]]]]]]]]]; rewrite Hnone;
      repeat match goal with
             | |- context [match post !! ?k with _ => _ end] => destruct (post !! k)
             end; reflexivity. }
  rewrite (bind_raise _ _ _ _ _ Hraise).
  split; [eauto | split; [exact Hd1 | unfold cart_of, cart_dict; rewrite Hs1; reflexivity]].
Qed.

Lemma checkout_post_missing_field_witness :
  db (snd (checkout POST ∅ buyer_form_short
             (world_with_cost (shop 5 [] [] []) (Some red_3)))) = shop 5 [] [] [].
Proof.
  pose proof (checkout_post_missing_field
                (world_with_cost (shop 5 [] [] []) (Some red_3)) ∅ buyer_form_short
                "metodo_pago" ltac:(vm_compute; tauto) ltac:(vm_compute; reflexivity)) as H.
  destruct (checkout POST ∅ buyer_form_short
              (world_with_cost (shop 5 [] [] []) (Some red_3))) as [r w'].
  destruct H as (_ & H & _). exact H.
Defined.

(** X15.  On a rendered checkout page the total is the subtotal plus the
    shipping cost, the subtotal is the sum of the lines, and each line is
    the product's price times the stored quantity. *)
Theorem checkout_page_totals
    (w w' : World) (get_ post : gmap string string)
    (items_ : list CheckoutLine) (sub ship tot : Z) :
  checkout GET get_ post w = (Ok (RenderCheckout items_ sub ship tot), w') ->
  tot = sub + ship
  /\ sub = co_total items_
  /\ Forall (fun i => co_subtotal i = precio (co_producto i) * co_qty i) items_.
Proof.
  unfold checkout, bind at 1, session_get_cart at 1. fold (cart_dict w).
  unfold bind at 1.
  destruct (checkout_loop_run (items_of_dict (cart_dict w)) ([], 0) w) as [Hw _].
  pose proof (fun st' => checkout_loop_lines (items_of_dict (cart_dict w)) ([], 0) st' w)
    as Hlines.
  destruct (fold_m checkout_body (items_of_dict (cart_dict w)) ([], 0) w) as [[st|e] w1];
    simpl in Hw; subst w1; [|discriminate].
  destruct (Hlines st eq_refl eq_refl (Forall_nil_2 _)) as [Hsub Hprice].
  unfold bind at 1.
  match goal with |- context [shipping_or_zero ?x ?a ?b ?c ?d w] =>
    destruct (shipping_or_zero x a b c d w) as [[sc|e] w1]
  end; [|discriminate].
  unfold ret. intros H. inversion H; subst. repeat split; assumption.
Qed.

Lemma checkout_page_totals_witness :
  match fst (checkout GET ∅ ∅ (world_with_cost (shop 5 [] [] []) (Some red_3))) with
  | Ok (RenderCheckout _ sub ship tot) => tot = sub + ship
  | _ => False
  end.
Proof.
  destruct (checkout GET ∅ ∅ (world_with_cost (shop 5 [] [] []) (Some red_3)))
    as [[[| | |items_ sub ship tot| |]|e] w'] eqn:E;
    try (vm_compute in E; discriminate).
  apply (checkout_page_totals _ _ _ _ _ _ _ _ E).
Defined.

(** ** The staff panel *)








(** X17.  A status update that is not refused, of an order that the view
    can read (its key within the range of the column, its amounts, the
    prices of its lines and of their products of at most ten digits), on
    a database that accepts the writes, stores the
    new status and adds to the audit log, in this order and nothing else:
    an entry with the old and the new status if the status changed, an
    entry with the old and the new tracking number if that changed, and
    the 'stock decremented' entry if the order went from another status
    to 'realizado'.  The view then confirms the update with its message
    and ends on the redirect to a route that [store/urls.py] does not
    have, which raises [NoReverseMatch]. *)
Theorem status_update_audit_entries
    (w : World) (post : gmap string string) (pk : Z) (p : Pedido) :
  writes_left w = None ->
  NoDup ((fun tp => (tp_producto tp, tp_talle tp)) <$> talles (db w)) ->
  in_int64 pk = true ->
  find_pedido pk (db w) = Some p ->
  load_pedido p = Ok p ->
  readable_lines pk (db w) = true ->
  let e := default (estado p) (post !! "estado") in
  let t := strip (default "" (post !! "tracking_number")) in
  let tr := if truthy t then Some t else None in
  ~ (e = "realizado" /\ t = "") ->
  let '(r, w') := admin_order_detail POST post pk w in
  r = Raise NoReverseMatch
  /\ flashed w w' = [{| level := LSuccess; text := "Pedido actualizado correctamente." |}]
  /\ estado_of pk (db w') = Some e
  /\ action <$> new_logs (db w) (db w')
     = ((if String.eqb (estado p) e then []
         else ["Estado cambiado: " +:+ estado p +:+ " → " +:+ e])
        ++ (if opt_string_eqb (tracking_number p) tr then []
            else ["Tracking actualizado: " +:+ str_opt (tracking_number p) +:+ " → "
                  +:+ str_opt tr])
        ++ (if negb (String.eqb (estado p) "realizado") && String.eqb e "realizado"
            then [stock_entry] else []))%list.
Proof.
  intros Hw Hnd Hr Hp Hl _ e t tr Hok.
  pose proof (find_pedido_id _ _ _ Hp) as Hid.
  enough (Hex : exists w',
             admin_order_detail POST post pk w = (Raise NoReverseMatch, w')
             /\ flashed w w'
                = [{| level := LSuccess; text := "Pedido actualizado correctamente." |}]
             /\ estado_of pk (db w') = Some e
             /\ action <$> new_logs (db w) (db w')
                = ((if String.eqb (estado p) e then []
                    else ["Estado cambiado: " +:+ estado p +:+ " → " +:+ e])
                   ++ (if opt_string_eqb (tracking_number p) tr then []
                       else ["Tracking actualizado: " +:+ str_opt (tracking_number p)
                             +:+ " → " +:+ str_opt tr])
                   ++ (if negb (String.eqb (estado p) "realizado")
                          && String.eqb e "realizado"
                       then [stock_entry] else []))%list)
    by (destruct Hex as (w' & -> & H); split; [reflexivity | exact H]).
  unfold admin_order_detail.
  rewrite (bind_ok _ _ _ _ _ (get_pedido_or_404_ok _ _ _ Hr Hp Hl)).
  cbv zeta. fold e. fold t. fold tr. rewrite Hid.
  assert (Hc : String.eqb e "realizado" && negb (truthy t) = false).
  { destruct (String.eqb e "realizado") eqn:E1; [|reflexivity].
    unfold truthy. destruct (String.eqb t "") eqn:E2; [|reflexivity].
    exfalso. apply Hok. split; [apply String.eqb_eq, E1 | apply String.eqb_eq, E2]. }
  rewrite Hc.
  write_ok Hw.
  assert (Hdec : forall w1 : World,
             writes_left w1 = None -> talles (db w1) = talles (db w) ->
             bind (descontar_stock_si_realizado pk)
                  (fun _ => add_log pk "Stock descontado por estado 'realizado'") w1
             = (Ok tt,
                set_db (set_logs
                          (fun l => (l ++ [{| log_pedido := pk; action := stock_entry;
                                              note := "" |}])%list)
                          (set_colores
                             (fold_left (descontar_linea (talles (db w1)))
                                        (items_of pk (db w1))) (db w1))) w1)).
  { intros w1 Hw1 Ht1.
    rewrite (bind_ok _ _ _ _ _ (descontar_stock_healthy pk w1 Hw1
                                  ltac:(rewrite Ht1; exact Hnd))).
    unfold add_log. rewrite db_write_healthy by exact Hw1. reflexivity. }
  destruct (String.eqb (estado p) e); cbn [negb];
    [erewrite (bind_ok (ret tt)) by reflexivity | unfold add_log at 1; write_ok Hw].
  all: destruct (opt_string_eqb (tracking_number p) tr); cbn [negb];
    [erewrite (bind_ok (ret tt)) by reflexivity | unfold add_log at 1; write_ok Hw].
  all: destruct (negb (String.eqb (estado p) "realizado") && String.eqb e "realizado");
    [erewrite (bind_ok (bind (descontar_stock_si_realizado pk) _))
       by (apply Hdec; [exact Hw | reflexivity])
    | erewrite (bind_ok (ret tt)) by reflexivity].
  all: unfold bind at 1, messages_add at 1; rewrite redirect_panel_order_detail.
  all: eexists; split; [reflexivity|].
  all: split; [unfold flashed; simpl; rewrite drop_app_length; reflexivity|].
  all: split; [apply (find_pedido_update _ _ _ _ _ Hp)|].
  all: unfold new_logs; simpl.
  all: rewrite <- ?List.app_assoc, ?drop_app_length, ?drop_all; reflexivity.
Qed.

Lemma status_update_audit_witness :
  estado_of 1 (db (snd (admin_order_detail POST (estado_form "rechazado" "") 1
                          (world_of (pending_shop 5) None)))) = Some "rechazado"
  /\ action <$> new_logs (pending_shop 5)
                  (db (snd (admin_order_detail POST (estado_form "rechazado" "") 1
                              (world_of (pending_shop 5) None))))
     = ["Estado cambiado: pendiente → rechazado"].
Proof.
  pose proof (status_update_audit_entries
                (world_of (pending_shop 5) None) (estado_form "rechazado" "") 1
                (pedido_1 "pendiente" None)
                ltac:(reflexivity)
                ltac:(apply (bool_decide_unpack _); vm_compute; reflexivity)
                ltac:(reflexivity) ltac:(reflexivity) ltac:(reflexivity)
                ltac:(reflexivity)
                ltac:(vm_compute; intros [H _]; discriminate)) as H.
  destruct (admin_order_detail POST (estado_form "rechazado" "") 1
              (world_of (pending_shop 5) None)) as [r w'].
  destruct H as (_ & _ & He & Hl).
  unfold snd. split; [exact He|].
  change (db (world_of (pending_shop 5) None)) with (pending_shop 5) in Hl.
  rewrite Hl. vm_compute. reflexivity.
Defined.

(** ** What the order views leave alone *)

Lemma get_pedido_or_404_missing (w : World) (pk : Z) :
  find_pedido pk (db w) = None -> get_pedido_or_404 pk w = (Raise Http404, w).
Proof.
  intros H. unfold get_pedido_or_404, bind, get_db. rewrite H.
  destruct (in_int64 pk); reflexivity.
Qed.

Lemma same_variant_refl (C : list ColorStock) :
  Forall2 (fun c c' => cs_id c' = cs_id c
                       /\ cs_talle_producto c' = cs_talle_producto c
                       /\ cs_color c' = cs_color c) C C.
Proof. induction C; constructor; auto. Qed.

Lemma same_variant_update_stock (C : list ColorStock) (id v : Z) :
  Forall2 (fun c c' => cs_id c' = cs_id c
                       /\ cs_talle_producto c' = cs_talle_producto c
                       /\ cs_color c' = cs_color c) C (update_stock id v C).
Proof.
  unfold update_stock. induction C as [|c C IH]; simpl; constructor; [|exact IH].
  destruct (cs_id c =? id); simpl; auto.
Qed.

Lemma order_frame_refl (pk : Z) (d : DB) : order_frame pk d d.
Proof.
  unfold order_frame.
  split; [reflexivity|]. split; [reflexivity|]. split; [reflexivity|].
  split; [apply same_variant_refl|].
  split.
  - induction (pedidos d); constructor; auto.
  - exists []. split; [rewrite List.app_nil_r; reflexivity | constructor].
Qed.

Lemma order_frame_trans (pk : Z) (a b c : DB) :
  order_frame pk a b -> order_frame pk b c -> order_frame pk a c.
Proof.
  unfold order_frame.
  intros (Hp1 & Ht1 & Hi1 & Hc1 & Hf1 & x1 & Hl1 & Hx1)
         (Hp2 & Ht2 & Hi2 & Hc2 & Hf2 & x2 & Hl2 & Hx2).
  split; [congruence|]. split; [congruence|]. split; [congruence|].
  split; [|split].
  - clear -Hc1 Hc2. revert Hc2. generalize (colores c).
    induction Hc1 as [|x y l l' (Hi & Ht & Hk) _ IH]; intros l3 Hc2; inversion Hc2; subst.
    + constructor.
    + constructor; [|apply IH; assumption].
      destruct H1 as (Hi' & Ht' & Hk'). repeat split; congruence.
  - clear -Hf1 Hf2. revert Hf2. generalize (pedidos c).
    induction Hf1 as [|x y l l' [Hid Hxy] _ IH]; intros l3 Hf2; inversion Hf2; subst.
    + constructor.
    + constructor; [|apply IH; assumption].
      destruct H1 as [Hid' Hyz]. split; [congruence|].
      intros Hne. rewrite Hyz by congruence. apply Hxy, Hne.
  - exists (x1 ++ x2)%list. split.
    + rewrite Hl2, Hl1, List.app_assoc. reflexivity.
    + apply Forall_app. split; assumption.
Qed.

Lemma order_frame_add_log (pk : Z) (act : string) : keeps (order_frame pk) (add_log pk act).
Proof.
  apply keeps_db_write; [apply order_frame_refl|].
  intros d. unfold order_frame, set_logs; simpl.
  split; [reflexivity|]. split; [reflexivity|]. split; [reflexivity|].
  split; [apply same_variant_refl|].
  split.
  - induction (pedidos d); constructor; auto.
  - eexists. split; [reflexivity|]. constructor; [reflexivity | constructor].
Qed.

Lemma order_frame_update_pedido (pk : Z) (e : string) (t : option string) :
  keeps (order_frame pk) (db_write (set_pedidos (update_pedido pk e t))).
Proof.
  apply keeps_db_write; [apply order_frame_refl|].
  intros d. unfold order_frame, set_pedidos; simpl.
  split; [reflexivity|]. split; [reflexivity|]. split; [reflexivity|].
  split; [apply same_variant_refl|].
  split.
  - unfold update_pedido. induction (pedidos d) as [|q l IH]; simpl; constructor; [|exact IH].
    destruct (pedido_id q =? pk) eqn:E; simpl; (split; [reflexivity|]); intros Hne;
      [apply Z.eqb_eq in E; congruence | reflexivity].
  - exists []. split; [rewrite List.app_nil_r; reflexivity | constructor].
Qed.

Lemma order_frame_descontar_item (pk : Z) (it : ItemPedido) :
  keeps (order_frame pk) (descontar_item it).
Proof.
  unfold descontar_item.
  apply keeps_bind; [apply order_frame_trans | apply keeps_get_db, order_frame_refl |].
  intros d.
  destruct (objects_get _ _) as [tp|e].
  - destruct (filter_first _ _) as [cs|].
    + apply keeps_db_write; [apply order_frame_refl|].
      intros d0. unfold order_frame, set_colores; simpl.
      split; [reflexivity|]. split; [reflexivity|]. split; [reflexivity|].
      split; [apply same_variant_update_stock|].
      split.
      * induction (pedidos d0); constructor; auto.
      * exists []. split; [rewrite List.app_nil_r; reflexivity | constructor].
    + apply keeps_ret, order_frame_refl.
  - destruct e; first [apply keeps_ret | apply keeps_raise]; apply order_frame_refl.
Qed.

Lemma order_frame_descontar (pk : Z) :
  keeps (order_frame pk) (descontar_stock_si_realizado pk).
Proof.
  unfold descontar_stock_si_realizado.
  apply keeps_bind; [apply order_frame_trans | apply keeps_get_db, order_frame_refl |].
  intros d. apply keeps_for_each.
  - apply order_frame_refl.
  - apply order_frame_trans.
  - apply order_frame_descontar_item.
Qed.

Ltac frame_step pk :=
  match goal with
  | |- keeps _ (bind _ _) => apply keeps_bind; [apply order_frame_trans | | intros ?]
  | |- keeps _ (if ?b then _ else _) => destruct b
  | |- keeps _ (ret _) => apply keeps_ret, order_frame_refl
  | |- keeps _ (raise _) => apply keeps_raise, order_frame_refl
  | |- keeps _ (messages_add _ _) => apply keeps_messages_add, order_frame_refl
  | |- keeps _ (redirect _ _) => apply keeps_redirect, order_frame_refl
  | |- keeps _ get_db => apply keeps_get_db, order_frame_refl
  | |- keeps _ (add_log _ _) => apply order_frame_add_log
  | |- keeps _ (descontar_stock_si_realizado _) => apply order_frame_descontar
  | |- keeps _ (db_write (set_pedidos (update_pedido _ _ _))) =>
      apply order_frame_update_pedido
  end.

(** X18.  Whatever the request and whether or not a write fails,
    [admin_order_detail] on order [pk] changes no product, size or order
    line, keeps the key, the size and the color of every stock record,
    changes no order other than [pk], and only ever appends entries of
    order [pk] to the audit log. *)
Theorem admin_order_detail_frame
    (w : World) (method : Method) (post : gmap string string) (pk : Z) :
  order_frame pk (db w) (db (snd (admin_order_detail method post pk w))).
Proof.
  unfold admin_order_detail.
  destruct method; [| |apply order_frame_refl];
    (destruct (get_pedido_or_404_cases w pk) as [(p & Hrun & _ & Hp & _) | (e & Hrun)];
     [rewrite (bind_ok _ _ _ _ _ Hrun)
     |rewrite (bind_raise _ _ _ _ _ Hrun); apply order_frame_refl]).
  - apply order_frame_refl.
  - rewrite (find_pedido_id _ _ _ Hp). cbv zeta.
    match goal with |- order_frame pk (db w) (db (snd (?m w))) =>
      generalize w; change (keeps (order_frame pk) m) end.
    repeat frame_step pk.
Qed.

(** ** The stock decrement never adds stock *)

Lemma stock_shrinks_refl (d : DB) : stock_shrinks d d.
Proof.
  unfold stock_shrinks. induction (colores d); constructor; [|assumption].
  split; [reflexivity|]. split; [reflexivity|]. split; [reflexivity|]. lia.
Qed.

Lemma stock_shrinks_trans (a b c : DB) :
  stock_shrinks a b -> stock_shrinks b c -> stock_shrinks a c.
Proof.
  unfold stock_shrinks. generalize (colores c) as l3.
  intros l3 H1. revert l3.
  induction H1 as [|x y l l' (Hi & Ht & Hc & Hs) _ IH]; intros l3 H2; inversion H2; subst.
  - constructor.
  - constructor; [|apply IH; assumption].
    destruct H1 as (Hi' & Ht' & Hc' & Hs').
    split; [congruence|]. split; [congruence|]. split; [congruence|].
    intros Hx. specialize (Hs Hx). specialize (Hs' ltac:(lia)). lia.
Qed.

Lemma stock_shrinks_ids (d d' : DB) :
  stock_shrinks d d' -> cs_id <$> colores d' = cs_id <$> colores d.
Proof.
  unfold stock_shrinks. induction 1 as [|x y l l' (Hi & _) _ IH]; csimpl; [reflexivity|].
  rewrite Hi, IH. reflexivity.
Qed.

Lemma update_stock_shrinks (C : list ColorStock) (cs : ColorStock) (v : Z) :
  NoDup (cs_id <$> C) -> In cs C ->
  (0 <= cs_stock cs -> 0 <= v <= cs_stock cs) ->
  Forall2 (fun c c' => cs_id c' = cs_id c
                       /\ cs_talle_producto c' = cs_talle_producto c
                       /\ cs_color c' = cs_color c
                       /\ (0 <= cs_stock c -> 0 <= cs_stock c' <= cs_stock c))
          C (update_stock (cs_id cs) v C).
Proof.
  intros Hnd Hin Hv.
  assert (Hsame : forall c, In c C -> cs_id c = cs_id cs -> cs_stock c = cs_stock cs).
  { intros c Hc Hid.
    pose proof (stock_at_member C c Hnd Hc) as H1.
    pose proof (stock_at_member C cs Hnd Hin) as H2.
    rewrite Hid in H1. rewrite H1 in H2. inversion H2. reflexivity. }
  clear Hnd Hin. unfold update_stock.
  induction C as [|c C IH]; simpl; constructor.
  - destruct (cs_id c =? cs_id cs) eqn:E; simpl.
    + apply Z.eqb_eq in E.
      split; [reflexivity|]. split; [reflexivity|]. split; [reflexivity|].
      rewrite (Hsame c (or_introl eq_refl) E). exact Hv.
    + split; [reflexivity|]. split; [reflexivity|]. split; [reflexivity|]. lia.
  - apply IH. intros c' Hc'. apply Hsame. right. exact Hc'.
Qed.

Lemma descontar_item_shrinks (it : ItemPedido) (w : World) :
  NoDup (cs_id <$> colores (db w)) -> 0 <= it_cantidad it ->
  stock_shrinks (db w) (db (snd (descontar_item it w))).
Proof.
  intros Hnd Hq. unfold descontar_item, bind, get_db.
  destruct (objects_get _ _) as [tp|e].
  - destruct (filter_first _ _) as [cs|] eqn:Hf; [|apply stock_shrinks_refl].
    unfold db_write. destruct (writes_left w) as [[|n]|]; simpl;
      try apply stock_shrinks_refl.
    all: unfold stock_shrinks; simpl.
    all: apply update_stock_shrinks;
      [exact Hnd | apply (List.find_some _ _ Hf) | rewrite floor_at_zero; lia].
  - destruct e; apply stock_shrinks_refl.
Qed.

Lemma for_each_descontar_shrinks (l : list ItemPedido) (w : World) :
  NoDup (cs_id <$> colores (db w)) -> Forall (fun it => 0 <= it_cantidad it) l ->
  stock_shrinks (db w) (db (snd (for_each l descontar_item w))).
Proof.
  intros Hnd Hall. revert w Hnd.
  induction Hall as [|it l Hit _ IH]; intros w Hnd; simpl.
  - apply stock_shrinks_refl.
  - unfold bind.
    pose proof (descontar_item_shrinks it w Hnd Hit) as H1.
    destruct (descontar_item it w) as [[[]|e] w1]; simpl in *; [|exact H1].
    eapply stock_shrinks_trans; [exact H1|].
    apply IH. rewrite (stock_shrinks_ids _ _ H1). exact Hnd.
Qed.

(** X19.  With unique keys in the stock table and order lines of
    non-negative quantity, [descontar_stock_si_realizado] never adds
    stock: whether or not a write fails on the way, every stock record
    keeps its key, size and color, and a stock that was not negative
    ends between zero and what it was. *)
Theorem descontar_stock_never_grows (w : World) (pk : Z) :
  NoDup (cs_id <$> colores (db w)) ->
  Forall (fun it => 0 <= it_cantidad it) (items (db w)) ->
  stock_shrinks (db w) (db (snd (descontar_stock_si_realizado pk w))).
Proof.
  intros Hnd Hall. unfold descontar_stock_si_realizado, bind, get_db.
  apply for_each_descontar_shrinks; [exact Hnd | apply items_of_nonneg, Hall].
Qed.

Lemma descontar_stock_never_grows_witness :
  stock_shrinks (pending_shop 2)
    (db (snd (descontar_stock_si_realizado 1 (failing_after 0 (pending_shop 2)))))
  /\ stock_shrinks (pending_shop 2)
       (db (snd (descontar_stock_si_realizado 1 (world_of (pending_shop 2) None)))).
Proof.
  split.
  - apply (descontar_stock_never_grows (failing_after 0 (pending_shop 2)) 1);
      apply (bool_decide_unpack _); vm_compute; reflexivity.
  - apply (descontar_stock_never_grows (world_of (pending_shop 2) None) 1);
      apply (bool_decide_unpack _); vm_compute; reflexivity.
Defined.

(** ** Submitting what is already stored *)

Lemma update_pedido_same (pk : Z) (l : list Pedido) (p : Pedido) :
  NoDup (pedido_id <$> l) ->
  List.find (fun q => pedido_id q =? pk) l = Some p ->
  update_pedido pk (estado p) (tracking_number p) l = l.
Proof.
  unfold update_pedido. induction l as [|q l IH]; csimpl; [reflexivity|].
  rewrite NoDup_cons. intros [Hq Hnd].
  destruct (pedido_id q =? pk) eqn:E.
  - intros H. inversion H; subst q. f_equal; [destruct p; reflexivity|].
    apply Z.eqb_eq in E.
    clear IH Hnd. induction l as [|x l IH]; simpl; [reflexivity|].
    rewrite fmap_cons, not_elem_of_cons in Hq. destruct Hq as [Hne Hq].
    replace (pedido_id x =? pk) with false by (symmetry; apply Z.eqb_neq; congruence).
    f_equal. apply IH, Hq.
  - intros H. f_equal. apply IH; assumption.
Qed.

Lemma set_pedidos_same (d : DB) (f : list Pedido -> list Pedido) :
  f (pedidos d) = pedidos d -> set_pedidos f d = d.
Proof. destruct d. unfold set_pedidos. simpl. intros ->. reflexivity. Qed.

(** X20.  With unique order keys, a POST that repeats the status and the
    tracking number the order already has leaves the database exactly as
    it was, whether or not a write fails: no status entry, no tracking
    entry, no stock decrement. *)
Theorem resubmitting_stored_values_changes_nothing
    (w : World) (post : gmap string string) (pk : Z) (p : Pedido) :
  NoDup (pedido_id <$> pedidos (db w)) ->
  find_pedido pk (db w) = Some p ->
  default (estado p) (post !! "estado") = estado p ->
  (let t := strip (default "" (post !! "tracking_number")) in
   if truthy t then Some t else None) = tracking_number p ->
  db (snd (admin_order_detail POST post pk w)) = db w.
Proof.
  intros Hnd Hp He Ht.
  pose proof (find_pedido_id _ _ _ Hp) as Hid.
  unfold admin_order_detail.
  destruct (get_pedido_or_404_cases w pk) as [(p0 & Hrun & _ & Hp0 & _) | (e & Hrun)].
  2:{ rewrite (bind_raise _ _ _ _ _ Hrun). reflexivity. }
  assert (p0 = p) by congruence. subst p0.
  rewrite (bind_ok _ _ _ _ _ Hrun).
  cbv zeta in *. rewrite He, Ht, Hid.
  destruct (String.eqb (estado p) "realizado"
            && negb (truthy (strip (default "" (post !! "tracking_number"))))) eqn:Hc.
  - unfold bind, messages_add. rewrite redirect_panel_order_detail. reflexivity.
  - rewrite String.eqb_refl.
    assert (Ho : opt_string_eqb (tracking_number p) (tracking_number p) = true).
    { destruct (tracking_number p); simpl; [apply String.eqb_refl | reflexivity]. }
    rewrite Ho.
    assert (Hg : negb (String.eqb (estado p) "realizado")
                 && String.eqb (estado p) "realizado" = false)
      by (destruct (String.eqb (estado p) "realizado"); reflexivity).
    rewrite Hg. cbn [negb].
    assert (Hsame : set_pedidos (update_pedido pk (estado p) (tracking_number p)) (db w)
                    = db w)
      by (apply set_pedidos_same, update_pedido_same; assumption).
    unfold bind, db_write, messages_add, ret.
    destruct (writes_left w) as [[|n]|]; rewrite ?redirect_panel_order_detail; simpl;
      try reflexivity; exact Hsame.
Qed.

Lemma resubmitting_witness :
  db (snd (admin_order_detail POST (estado_form "realizado" "T1") 1
             (world_of (shop 5 [pedido_1 "realizado" (Some "T1")] [item_1 "Rojo" 3] []) None)))
  = shop 5 [pedido_1 "realizado" (Some "T1")] [item_1 "Rojo" 3] [].
Proof.
  apply (resubmitting_stored_values_changes_nothing
           (world_of (shop 5 [pedido_1 "realizado" (Some "T1")] [item_1 "Rojo" 3] []) None)
           (estado_form "realizado" "T1") 1 (pedido_1 "realizado" (Some "T1")));
    [apply (bool_decide_unpack _); vm_compute; reflexivity
    | reflexivity | vm_compute; reflexivity | vm_compute; reflexivity].
Defined.

(** ** The admin form *)

Lemma save_obj_inv (obj : Pedido) (change : bool) (w : World) :
  colores (db (snd (save_obj obj change w))) = colores (db w)
  /\ forall o, fst (save_obj obj change w) = Ok o -> estado o = estado obj.
Proof.
  unfold save_obj. destruct change.
  - unfold bind, db_write, ret. destruct (writes_left w) as [[|n]|]; simpl;
      (split; [reflexivity | intros o H; inversion H; reflexivity]).
  - unfold db_write. destruct (writes_left w) as [[|n]|]; simpl;
      (split; [reflexivity | intros o H; inversion H; reflexivity]).
Qed.

(** X21.  [PedidoAdmin.save_model] touches the stock only when the saved
    order is 'realizado' and either is new or was stored with another
    status: for an order saved with another status, or one that was
    already stored as 'realizado', the stock table stays as it was,
    whether or not a write fails. *)
Theorem save_model_guard (w : World) (obj : Pedido) (change : bool) :
  estado obj <> "realizado"
  \/ (change = true
      /\ exists prev, objects_get (fun q => pedido_id q =? pedido_id obj) (pedidos (db w))
                      = Ok prev
                      /\ estado prev = "realizado") ->
  colores (db (snd (save_model obj change w))) = colores (db w).
Proof.
  intros Hg. unfold save_model.
  assert (Hrest : forall (prev : option Pedido) (w0 : World),
            colores (db w0) = colores (db w) ->
            estado obj <> "realizado"
            \/ (change = true /\ estado <$> prev = Some "realizado") ->
            colores (db (snd (bind (save_obj obj change) (fun o =>
              bind (if change && negb (opt_string_eqb (estado <$> prev) (Some (estado o)))
                    then add_log (pedido_id o)
                           ("Estado cambiado: " +:+ str_opt (estado <$> prev) +:+ " → "
                            +:+ estado o)
                    else ret tt) (fun _ =>
              bind (if (negb change && String.eqb (estado o) "realizado")
                       || (change && negb (opt_string_eqb (estado <$> prev) (Some "realizado"))
                           && String.eqb (estado o) "realizado")
                    then bind (descontar_stock_si_realizado (pedido_id o))
                              (fun _ => add_log (pedido_id o)
                                          "Stock descontado por estado 'realizado'")
                    else ret tt) (fun _ =>
              if change && negb (opt_string_eqb (prev ≫= tracking_number)
                                   (tracking_number o))
              then add_log (pedido_id o)
                     ("Tracking actualizado: " +:+ str_opt (prev ≫= tracking_number)
                      +:+ " → " +:+ str_opt (tracking_number o))
              else ret tt))) w0))) = colores (db w)).
  { intros prev w0 Hw0 Hcase. unfold bind at 1.
    destruct (save_obj_inv obj change w0) as [Hc He].
    destruct (save_obj obj change w0) as [[o|e] w1]; simpl in Hc; [|simpl; congruence].
    specialize (He o eq_refl). rewrite He.
    assert (G : (negb change && String.eqb (estado obj) "realizado")
                || (change && negb (opt_string_eqb (estado <$> prev) (Some "realizado"))
                    && String.eqb (estado obj) "realizado") = false).
    { destruct Hcase as [Hne | [-> Hprev]].
      - apply String.eqb_neq in Hne. rewrite Hne.
        rewrite !andb_false_r. reflexivity.
      - rewrite Hprev. simpl. reflexivity. }
    rewrite G. rewrite <- Hw0, <- Hc.
    match goal with |- colores (db (snd (?m w1))) = _ =>
      change (same_colores (db w1) (db (snd (m w1)))); generalize w1;
      change (keeps same_colores m) end.
    keeps_tac. }
  destruct change.
  - unfold bind at 1. unfold bind at 1. unfold get_db at 1. unfold bind at 1, lift at 1.
    destruct (objects_get _ (pedidos (db w))) as [prev|e] eqn:Hget; [|reflexivity].
    unfold bind at 1, lift at 1.
    destruct (load_pedido prev) as [prev0|e] eqn:Hload; [|reflexivity].
    apply load_pedido_same in Hload. subst prev0.
    unfold ret at 1. apply Hrest; [reflexivity|].
    destruct Hg as [Hne | (_ & prev' & Hp & He)]; [left; exact Hne|].
    right. split; [reflexivity|]. inversion Hp; subst. simpl. rewrite He. reflexivity.
  - rewrite (bind_ok (ret None) _ w w None eq_refl).
    apply Hrest; [reflexivity|].
    destruct Hg as [Hne | (Hc & _)]; [left; exact Hne | discriminate].
Qed.

Lemma save_model_guard_witness :
  colores (db (submit "realizado" (Some "T2")
                 (world_of (shop 5 [pedido_1 "realizado" (Some "T1")]
                                 [item_1 "Rojo" 3] []) None)))
  = colores (shop 5 [pedido_1 "realizado" (Some "T1")] [item_1 "Rojo" 3] []).
Proof.
  apply (save_model_guard
           (world_of (shop 5 [pedido_1 "realizado" (Some "T1")] [item_1 "Rojo" 3] []) None)
           (pedido_1 "realizado" (Some "T2")) true).
  right. split; [reflexivity|]. eexists. split; reflexivity.
Defined.

(** ** The catalogue *)

Lemma objects_get_holds {A : Type} (P : A -> bool) (l : list A) (x : A) :
  objects_get P l = Ok x -> In x l /\ P x = true.
Proof.
  unfold objects_get. destruct (List.filter P l) as [|y [|z r]] eqn:E; try discriminate.
  intros H. inversion H; subst. apply List.filter_In. rewrite E. left. reflexivity.
Qed.

Lemma producto_get_unique (P : list Producto) (id : Z) :
  NoDup (producto_id <$> P) ->
  objects_get (fun p => producto_id p =? id) P <> Raise MultipleObjectsReturned.
Proof.
  intros Hnd. unfold objects_get.
  destruct (List.filter _ P) as [|x [|y l]] eqn:E; try discriminate.
  exfalso.
  assert (Hkey : forall z, In z (List.filter (fun p => producto_id p =? id) P) ->
                           producto_id z = id).
  { intros z Hz. apply List.filter_In in Hz as [_ Hz]. apply Z.eqb_eq, Hz. }
  revert x y l E Hkey. induction P as [|a P IH]; intros x y l E Hkey; [discriminate|].
  csimpl in Hnd. rewrite NoDup_cons in Hnd. destruct Hnd as [Ha Hnd].
  simpl in E, Hkey. destruct (producto_id a =? id) eqn:Pa.
  - inversion E; subst. apply Ha.
    rewrite (Hkey x (or_introl eq_refl)).
    rewrite <- (Hkey y) by (right; rewrite H1; left; reflexivity).
    apply list_elem_of_fmap. exists y. split; [reflexivity|].
    apply list_elem_of_In.
    assert (Hy : In y (List.filter (fun p => producto_id p =? id) P))
      by (rewrite H1; left; reflexivity).
    apply List.filter_In in Hy as [Hy _]. exact Hy.
  - eapply IH; eauto.
Qed.

Lemma sum_positive_iff (l : list Z) :
  Forall (fun x => 0 <= x) l ->
  (0 < fold_right Z.add 0 l <-> exists x, In x l /\ 0 < x).
Proof.
  induction 1 as [|x l Hx Hl IH]; simpl.
  - split; [lia | intros (x & [] & _)].
  - split.
    + intros Hs. destruct (Z.eq_dec x 0) as [->|Hne].
      * destruct (proj1 IH ltac:(lia)) as (y & Hy & Hpos). exists y. auto.
      * exists x. split; [left; reflexivity | lia].
    + intros (y & [->|Hy] & Hpos).
      * assert (0 <= fold_right Z.add 0 l); [|lia].
        clear -Hl. induction Hl; simpl; lia.
      * assert (0 < fold_right Z.add 0 l) by (apply IH; eauto). lia.
Qed.

Lemma fold_left_talle_totals (d : DB) (l : list TalleProducto) (z : Z) :
  fold_left (fun total tp =>
               total + fold_right Z.add 0
                         (List.map cs_stock
                            (List.filter (fun cs => cs_talle_producto cs =? tp_id tp)
                                         (colores d)))) l z
  = z + fold_right Z.add 0 (List.map (talle_stock_total d) l).
Proof.
  revert z. induction l as [|tp l IH]; intros z; simpl; [lia|].
  rewrite IH. unfold talle_stock_total at 2. lia.
Qed.

Lemma talle_stock_total_nonneg (d : DB) (tp : TalleProducto) :
  Forall (fun c => 0 <= cs_stock c) (colores d) -> 0 <= talle_stock_total d tp.
Proof.
  unfold talle_stock_total. intros H.
  induction H as [|c l Hc _ IH]; simpl; [lia|].
  destruct (cs_talle_producto c =? tp_id tp); simpl; lia.
Qed.

Lemma talle_stock_total_positive (d : DB) (tp : TalleProducto) :
  Forall (fun c => 0 <= cs_stock c) (colores d) ->
  (0 < talle_stock_total d tp
   <-> existsb (fun cs => (cs_talle_producto cs =? tp_id tp) && (0 <? cs_stock cs))
               (colores d) = true).
Proof.
  intros Hall. unfold talle_stock_total.
  rewrite sum_positive_iff.
  - rewrite List.existsb_exists. split.
    + intros (x & Hx & Hpos). apply List.in_map_iff in Hx as (cs & <- & Hcs).
      apply List.filter_In in Hcs as [Hin Htp].
      exists cs. split; [exact Hin|]. rewrite Htp. apply Z.ltb_lt. exact Hpos.
    + intros (cs & Hin & Hcs). apply andb_true_iff in Hcs as [Htp Hpos].
      apply Z.ltb_lt in Hpos. exists (cs_stock cs). split; [|exact Hpos].
      apply List.in_map_iff. exists cs. split; [reflexivity|].
      apply List.filter_In. auto.
  - apply List.Forall_forall. intros x Hx.
    apply List.in_map_iff in Hx as (cs & <- & Hcs).
    apply List.filter_In in Hcs as [Hin _].
    rewrite List.Forall_forall in Hall. apply Hall, Hin.
Qed.

(** X22.  [Producto.stock_total] is the sum of [TalleProducto.stock_total]
    over the sizes of the product, and, stocks being non-negative, the
    products that [product_list] shows are exactly those whose
    [stock_total] is positive. *)
Theorem listed_iff_stock_total_positive (d : DB) (p : Producto) :
  Forall (fun c => 0 <= cs_stock c) (colores d) ->
  producto_stock_total d p
  = fold_right Z.add 0 (List.map (talle_stock_total d) (talles_of d p))
  /\ (In p (productos_con_stock d) <-> In p (productos d) /\ 0 < producto_stock_total d p).
Proof.
  intros Hall.
  assert (Hsum : producto_stock_total d p
                 = fold_right Z.add 0 (List.map (talle_stock_total d) (talles_of d p))).
  { unfold producto_stock_total. rewrite fold_left_talle_totals. lia. }
  split; [exact Hsum|].
  unfold productos_con_stock. rewrite List.filter_In, Hsum.
  assert (Hiff : con_stock d p = true
                 <-> 0 < fold_right Z.add 0 (List.map (talle_stock_total d) (talles_of d p))).
  { unfold con_stock. rewrite List.existsb_exists, sum_positive_iff.
    - split.
      + intros (tp & Htp & Hex). exists (talle_stock_total d tp).
        split; [apply List.in_map, Htp | apply talle_stock_total_positive; assumption].
      + intros (x & Hx & Hpos). apply List.in_map_iff in Hx as (tp & <- & Htp).
        exists tp. split; [exact Htp | apply talle_stock_total_positive; assumption].
    - apply List.Forall_forall. intros x Hx.
      apply List.in_map_iff in Hx as (tp & <- & _).
      apply talle_stock_total_nonneg, Hall. }
  rewrite Hiff. reflexivity.
Qed.

Lemma listed_iff_stock_total_positive_witness :
  producto_stock_total two_sizes remera = 3 /\ In remera (productos_con_stock two_sizes).
Proof.
  destruct (listed_iff_stock_total_positive two_sizes remera
              ltac:(apply (bool_decide_unpack _); vm_compute; reflexivity)) as [Hs Hiff].
  split; [rewrite Hs; vm_compute; reflexivity|].
  apply Hiff. split; [left; reflexivity | rewrite Hs; vm_compute; reflexivity].
Defined.

Lemma objects_get_the_one (T : list TalleProducto) (producto : Z) (talle : string)
    (t : TalleProducto) :
  NoDup ((fun tp => (tp_producto tp, tp_talle tp)) <$> T) ->
  In t T -> is_talle producto talle t = true ->
  objects_get (is_talle producto talle) T = Ok t.
Proof.
  intros Hnd Hin Ht.
  pose proof (talle_get_unique T producto talle Hnd) as Hu.
  assert (Hf : In t (List.filter (is_talle producto talle) T))
    by (apply List.filter_In; auto).
  unfold objects_get in *.
  destruct (List.filter (is_talle producto talle) T) as [|x [|y l]].
  - destruct Hf.
  - destruct Hf as [->|[]]. reflexivity.
  - congruence.
Qed.

Lemma find_the_one {A : Type} (P : A -> bool) (l : list A) (a : A) :
  In a l -> P a = true -> (forall x, In x l -> P x = true -> x = a) ->
  List.find P l = Some a.
Proof.
  induction l as [|y l IH]; simpl; [intros []|].
  intros Hin Pa Hu. destruct (P y) eqn:Py.
  - f_equal. apply Hu; auto.
  - destruct Hin as [->|Hin]; [congruence|]. apply IH; auto.
Qed.

(** X23.  Every variant that the product page offers has a positive
    stock, and, sizes being unique per product and colors distinct up to
    case within a size, it is the variant whose stock [add_to_cart] reads
    for that size and color: what the page offers can be added. *)
Theorem offered_variants_have_stock
    (w w' : World) (pk : Z) (producto : Producto) (talles_ : list (string * list ColorStock)) :
  NoDup ((fun tp => (tp_producto tp, tp_talle tp)) <$> talles (db w)) ->
  colors_distinct (db w) ->
  product_detail GET pk w = (Ok (RenderProductDetail producto talles_), w') ->
  w' = w
  /\ forall talle cols, In (talle, cols) talles_ ->
       cols <> []
       /\ forall cs, In cs cols ->
            0 < cs_stock cs
            /\ _variant_stock (AnInt pk) talle (cs_color cs) w = (Ok (cs_stock cs), w).
Proof.
  intros Hnd Hdist.
  cbv beta iota delta [product_detail bind get_producto_or_404 int_of get_db ret raise].
  destruct (in_int64 pk) eqn:Hrange; [|discriminate].
  destruct (find_producto pk (db w)) as [p|] eqn:Hp; [|discriminate].
  intros H. inversion H; subst. clear H.
  split; [reflexivity|].
  assert (Hpid : producto_id producto = pk).
  { unfold find_producto in Hp. apply List.find_some in Hp as [_ Hp].
    apply Z.eqb_eq, Hp. }
  intros talle cols Hin.
  apply List.in_map_iff in Hin as (t & Heq & Ht). inversion Heq; subst talle cols. clear Heq.
  apply List.filter_In in Ht as [Ht Hne].
  split; [intros Hnil; rewrite Hnil in Hne; discriminate Hne|].
  intros cs Hcs. unfold colores_con_stock in Hcs.
  apply List.filter_In in Hcs as [Hcs Hok].
  apply andb_true_iff in Hok as [Htp Hpos]. apply Z.eqb_eq in Htp. apply Z.ltb_lt in Hpos.
  split; [exact Hpos|].
  unfold talles_of in Ht. apply List.filter_In in Ht as [Ht Hprod]. apply Z.eqb_eq in Hprod.
  cbv beta iota delta [_variant_stock bind int_of get_db ret raise].
  rewrite Hrange. cbn [negb].
  rewrite (objects_get_the_one (talles (db w')) pk (tp_talle t) t Hnd Ht).
  2:{ unfold is_talle. rewrite Hprod, Hpid, Z.eqb_refl, String.eqb_refl. reflexivity. }
  unfold filter_first.
  rewrite (find_the_one _ _ cs Hcs).
  - reflexivity.
  - unfold is_color, iexact. rewrite Htp, Z.eqb_refl, String.eqb_refl. reflexivity.
  - intros x Hx Px. unfold is_color in Px. apply andb_true_iff in Px as [Hxtp Hxc].
    apply Z.eqb_eq in Hxtp. apply Hdist; [exact Hx | exact Hcs | congruence | exact Hxc].
Qed.

Lemma colors_distinct_two_sizes : colors_distinct two_sizes.
Proof.
  intros c1 c2 H1 H2.
  simpl in H1, H2.
  destruct H1 as [<-|[<-|[<-|[]]]]; destruct H2 as [<-|[<-|[<-|[]]]];
    intros Ht He; try reflexivity; try discriminate Ht;
    vm_compute in He; discriminate He.
Qed.

Lemma offered_variants_have_stock_witness :
  offered (fst (product_detail GET 1 (world_of two_sizes None))) = [("M", "Rojo", 3)]
  /\ _variant_stock (AnInt 1) "M" "Rojo" (world_of two_sizes None)
     = (Ok 3, world_of two_sizes None).
Proof.
  split; [vm_compute; reflexivity|].
  destruct (product_detail GET 1 (world_of two_sizes None)) as [[r|e] w'] eqn:E;
    [|vm_compute in E; discriminate E].
  destruct r as [p ts| | |]; try (vm_compute in E; discriminate E).
  destruct (offered_variants_have_stock (world_of two_sizes None) w' 1 p ts
              ltac:(apply (bool_decide_unpack _); vm_compute; reflexivity)
              colors_distinct_two_sizes E) as [_ H].
  assert (Hin : In ("M", [{| cs_id := 1; cs_talle_producto := 1; cs_color := "Rojo";
                             cs_stock := 3 |}]) ts).
  { vm_compute in E. inversion E. left. reflexivity. }
  destruct (H _ _ Hin) as [_ Hcs].
  exact (proj2 (Hcs _ (or_introl eq_refl))).
Defined.

(** ** The keys of the session cart *)

Lemma append_cons (c : ascii) (a b : string) : String c a +:+ b = String c (a +:+ b).
Proof. reflexivity. Qed.

Lemma append_nil (b : string) : "" +:+ b = b.
Proof. reflexivity. Qed.

Lemma every_rev_app (P : ascii -> bool) (a b : string) :
  every P (String.rev_app a b) = every P a && every P b.
Proof.
  revert b. induction a as [|c a IH]; intros b; simpl; [reflexivity|].
  rewrite IH. simpl. destruct (P c), (every P a), (every P b); reflexivity.
Qed.

Lemma every_app (P : ascii -> bool) (a b : string) :
  every P (a +:+ b) = every P a && every P b.
Proof.
  induction a as [|c a IH]; rewrite ?append_cons, ?append_nil; simpl; [reflexivity|].
  rewrite IH. apply andb_assoc.
Qed.

Lemma every_impl (P Q : ascii -> bool) (s : string) :
  (forall c, P c = true -> Q c = true) -> every P s = true -> every Q s = true.
Proof.
  intros HPQ. induction s as [|c s IH]; simpl; [reflexivity|].
  intros H. apply andb_true_iff in H as [Hc Hs].
  rewrite (HPQ c Hc), (IH Hs). reflexivity.
Qed.

Lemma append_empty_r (s : string) : s +:+ "" = s.
Proof.
  induction s as [|c s IH]; [reflexivity|].
  rewrite append_cons, IH. reflexivity.
Qed.

Lemma rev_app_rev_app (a b c : string) :
  String.rev_app (String.rev_app a b) c = String.rev_app b (a +:+ c).
Proof.
  revert b c. induction a as [|x a IH]; intros b c; [reflexivity|].
  rewrite append_cons. cbn [String.rev_app]. rewrite IH. reflexivity.
Qed.

Lemma rev_rev (s : string) : String.rev (String.rev s) = s.
Proof. unfold String.rev. rewrite rev_app_rev_app. cbn [String.rev_app]. apply append_empty_r. Qed.

Lemma split_aux_part (sep : ascii) (a cur rest : string) :
  every (fun c => negb (Ascii.eqb c sep)) a = true ->
  split_aux sep cur (a +:+ String sep rest)
  = String.rev (String.rev_app a cur) :: split_aux sep "" rest.
Proof.
  revert cur. induction a as [|c a IH]; intros cur;
    rewrite ?append_cons, ?append_nil; cbn [every split_aux String.rev_app].
  - intros _. rewrite Ascii.eqb_refl. reflexivity.
  - intros H. apply andb_true_iff in H as [Hc Ha]. apply negb_true_iff in Hc.
    rewrite Hc. apply IH, Ha.
Qed.

Lemma split_aux_last (sep : ascii) (a cur : string) :
  every (fun c => negb (Ascii.eqb c sep)) a = true ->
  split_aux sep cur a = [String.rev (String.rev_app a cur)].
Proof.
  revert cur. induction a as [|c a IH]; intros cur; cbn [every split_aux String.rev_app].
  - reflexivity.
  - intros H. apply andb_true_iff in H as [Hc Ha]. apply negb_true_iff in Hc.
    rewrite Hc. apply IH, Ha.
Qed.

Lemma uint_string_every (P : ascii -> bool) (d : Decimal.uint) :
  (forall c, 48 <= ord c <= 57 -> P c = true) ->
  every P (NilEmpty.string_of_uint d) = true.
Proof.
  intros HP. induction d; cbn [NilEmpty.string_of_uint every];
    try reflexivity; rewrite IHd, HP; try reflexivity; vm_compute; split; discriminate.
Qed.

Lemma str_every (P : ascii -> bool) (n : Z) :
  (forall c, 48 <= ord c <= 57 -> P c = true) -> P "-"%char = true ->
  every P (str n) = true.
Proof.
  intros HP Hm. unfold str.
  assert (Hu : forall d, every P (NilZero.string_of_uint d) = true).
  { intros d. unfold NilZero.string_of_uint.
    destruct d; try apply (uint_string_every P _ HP).
    cbn [every]. rewrite HP; [reflexivity | vm_compute; split; discriminate]. }
  destruct n as [|p|p]; cbn [Z.to_int NilZero.string_of_int every].
  - apply (Hu (Decimal.D0 Decimal.Nil)).
  - apply Hu.
  - rewrite Hm. apply Hu.
Qed.

Lemma digit_not_colon (c : ascii) : 48 <= ord c <= 57 -> negb (Ascii.eqb c ":") = true.
Proof.
  intros H. apply negb_true_iff, Ascii.eqb_neq. intros ->. vm_compute in H.
  destruct H as [_ H]. apply H. reflexivity.
Qed.

(** *** [int] reads back what [str] prints *)

Lemma code_points_ascii (s : string) :
  every (fun c => ord c <? 127) s = true ->
  code_points s = Some (ord <$> list_ascii_of_string s).
Proof.
  induction s as [|c s IH]; [reflexivity|].
  cbn [every]. intros H. apply andb_true_iff in H as [Hc Hs].
  apply Z.ltb_lt in Hc.
  cbn [code_points list_ascii_of_string].
  replace (ord c <? 128) with true by (symmetry; apply Z.ltb_lt; lia).
  rewrite (IH Hs). reflexivity.
Qed.

Lemma to_ascii_ascii (s : string) :
  every (fun c => ord c <? 127) s = true ->
  to_ascii (ord <$> list_ascii_of_string s) = Some (ord <$> list_ascii_of_string s).
Proof.
  induction s as [|c s IH]; [reflexivity|].
  cbn [every]. intros H. apply andb_true_iff in H as [Hc Hs].
  cbn [list_ascii_of_string]. rewrite fmap_cons. cbn [to_ascii].
  rewrite Hc, (IH Hs). reflexivity.
Qed.

Lemma digit_run_digit (c : Z) (r : list Z) (prev acc cnt : Z) :
  48 <= c <= 57 ->
  digit_run (c :: r) prev acc cnt = digit_run r c (10 * acc + (c - 48)) (cnt + 1).
Proof.
  intros H. cbn [digit_run].
  replace ((48 <=? c) && (c <=? 57)) with true; [reflexivity|].
  symmetry. apply andb_true_iff. split; apply Z.leb_le; lia.
Qed.

Ltac digit_step IH :=
  cbn [NilEmpty.string_of_uint list_ascii_of_string Pos.of_uint_acc Pos.of_uint
       Decimal.nb_digits];
  rewrite fmap_cons;
  match goal with
  | |- context [ord ?ch :: _] =>
      let v := eval vm_compute in (ord ch) in change (ord ch) with v
  end;
  rewrite digit_run_digit by lia.

Lemma digit_run_uint_acc (d : Decimal.uint) (prev cnt : Z) (acc : positive) :
  prev <> 95 ->
  digit_run (ord <$> list_ascii_of_string (NilEmpty.string_of_uint d)) prev (Z.pos acc) cnt
  = Some (Z.pos (Pos.of_uint_acc d acc), cnt + Z.of_nat (Decimal.nb_digits d), []).
Proof.
  revert prev cnt acc. induction d; intros prev cnt acc Hprev.
  1:{ cbn. replace (prev =? 95) with false by (symmetry; apply Z.eqb_neq; exact Hprev).
      rewrite Z.add_0_r. reflexivity. }
  all: digit_step IHd.
  all: match goal with
       | |- digit_run _ _ ?a _ = Some (Z.pos (Pos.of_uint_acc _ ?b), _, _) =>
           replace a with (Z.pos b) by lia
       end.
  all: rewrite IHd by discriminate.
  all: replace (cnt + Z.of_nat (S (Decimal.nb_digits d)))
         with (cnt + 1 + Z.of_nat (Decimal.nb_digits d)) by lia; reflexivity.
Qed.

Lemma digit_run_uint (d : Decimal.uint) (prev cnt : Z) :
  prev <> 95 ->
  digit_run (ord <$> list_ascii_of_string (NilEmpty.string_of_uint d)) prev 0 cnt
  = Some (Z.of_N (Pos.of_uint d), cnt + Z.of_nat (Decimal.nb_digits d), []).
Proof.
  revert prev cnt. induction d; intros prev cnt Hprev.
  1:{ cbn. replace (prev =? 95) with false by (symmetry; apply Z.eqb_neq; exact Hprev).
      rewrite Z.add_0_r. reflexivity. }
  1:{ digit_step IHd. change (10 * 0 + (48 - 48)) with 0.
      rewrite IHd by discriminate.
      replace (cnt + Z.of_nat (S (Decimal.nb_digits d)))
        with (cnt + 1 + Z.of_nat (Decimal.nb_digits d)) by lia. reflexivity. }
  all: digit_step IHd.
  all: match goal with
       | |- digit_run _ _ ?a _ = Some (Z.of_N (N.pos (Pos.of_uint_acc _ ?b)), _, _) =>
           replace a with (Z.pos b) by lia
       end.
  all: rewrite digit_run_uint_acc by discriminate.
  all: replace (cnt + Z.of_nat (S (Decimal.nb_digits d)))
         with (cnt + 1 + Z.of_nat (Decimal.nb_digits d)) by lia; reflexivity.
Qed.

Lemma of_uint_acc_lower (d : Decimal.uint) (acc : positive) :
  Z.pos acc * 10 ^ Z.of_nat (Decimal.nb_digits d) <= Z.pos (Pos.of_uint_acc d acc).
Proof.
  revert acc. induction d; intros acc;
    cbn [Pos.of_uint_acc Decimal.nb_digits]; [simpl; lia|..].
  all: rewrite Nat2Z.inj_succ, Z.pow_succ_r by lia.
  all: match goal with |- _ <= Z.pos (Pos.of_uint_acc _ ?b) =>
         specialize (IHd b) end.
  all: assert (0 < 10 ^ Z.of_nat (Decimal.nb_digits d)) by (apply Z.pow_pos_nonneg; lia).
  all: nia.
Qed.

(** The digits of a positive number start with a digit that is not
    zero, so that a number of [n] digits is at least [10 ^ (n - 1)]. *)
Lemma to_uint_digits (p : positive) :
  (1 <= Decimal.nb_digits (Pos.to_uint p))%nat
  /\ 10 ^ Z.of_nat (Decimal.nb_digits (Pos.to_uint p)) <= 10 * Z.pos p.
Proof.
  pose proof (DecimalPos.Unsigned.of_to p) as Hof.
  pose proof (DecimalPos.Unsigned.to_uint_nonnil p) as Hnn.
  pose proof (DecimalPos.Unsigned.to_uint_nonzero p) as Hnz.
  pose proof (DecimalPos.Unsigned.to_of (Pos.to_uint p)) as Hto.
  rewrite Hof in Hto. change (N.to_uint (N.pos p)) with (Pos.to_uint p) in Hto.
  destruct (Pos.to_uint p) as [|d|d|d|d|d|d|d|d|d|d] eqn:E; [congruence|..].
  1:{ exfalso. rewrite DecimalFacts.unorm_D0 in Hto.
      unfold Decimal.unorm in Hto.
      pose proof (DecimalFacts.nzhead_nonzero d d) as Hh.
      destruct (Decimal.nzhead d) eqn:Hd; congruence. }
  all: cbn [Pos.of_uint] in Hof; inversion Hof as [Hp].
  all: cbn [Decimal.nb_digits]; split; [lia|].
  all: rewrite Nat2Z.inj_succ, Z.pow_succ_r by lia.
  all: match goal with |- _ <= 10 * Z.pos (Pos.of_uint_acc _ ?b) =>
         pose proof (of_uint_acc_lower d b) end.
  all: assert (0 < 10 ^ Z.of_nat (Decimal.nb_digits d)) by (apply Z.pow_pos_nonneg; lia).
  all: nia.
Qed.

Lemma uint_string_head (d : Decimal.uint) :
  d <> Decimal.Nil ->
  exists c r, ord <$> list_ascii_of_string (NilEmpty.string_of_uint d) = c :: r
              /\ 48 <= c <= 57.
Proof.
  intros Hd. destruct d; [congruence|..];
    cbn [NilEmpty.string_of_uint list_ascii_of_string]; rewrite fmap_cons;
    eexists _, _; (split; [reflexivity|]); vm_compute; split; discriminate.
Qed.

Lemma long_from_string_unsigned (c : Z) (r : list Z) (v cnt : Z) :
  48 <= c <= 57 ->
  digit_run (c :: r) 0 0 0 = Some (v, cnt, []) ->
  0 < cnt <= max_str_digits ->
  long_from_string (c :: r) = Some v.
Proof.
  intros Hc Hrun Hcnt.
  assert (Hcases : c = 48 \/ c = 49 \/ c = 50 \/ c = 51 \/ c = 52 \/ c = 53 \/ c = 54
                   \/ c = 55 \/ c = 56 \/ c = 57) by lia.
  unfold long_from_string.
  assert (Hsk : skip_space (c :: r) = c :: r).
  { cbn [skip_space]. unfold c_isspace.
    replace (c =? 32) with false by (symmetry; apply Z.eqb_neq; lia).
    replace (c <=? 13) with false by (symmetry; apply Z.leb_gt; lia).
    rewrite andb_false_r. reflexivity. }
  rewrite Hsk.
  assert (Hok : (0 <? cnt) && (cnt <=? max_str_digits) = true).
  { apply andb_true_iff. split; [apply Z.ltb_lt | apply Z.leb_le]; lia. }
  destruct Hcases as [->|[->|[->|[->|[->|[->|[->|[->|[->| ->]]]]]]]]];
    cbv beta iota zeta; rewrite Hrun, Hok; cbn [skip_space andb];
    rewrite Z.mul_1_l; reflexivity.
Qed.

Lemma long_from_string_signed (c : Z) (r : list Z) (v cnt : Z) :
  48 <= c <= 57 ->
  digit_run (c :: r) 0 0 0 = Some (v, cnt, []) ->
  0 < cnt <= max_str_digits ->
  long_from_string (45 :: c :: r) = Some (- v).
Proof.
  intros Hc Hrun Hcnt.
  assert (Hcases : c = 48 \/ c = 49 \/ c = 50 \/ c = 51 \/ c = 52 \/ c = 53 \/ c = 54
                   \/ c = 55 \/ c = 56 \/ c = 57) by lia.
  unfold long_from_string.
  change (skip_space (45 :: c :: r)) with (45 :: c :: r).
  assert (Hok : (0 <? cnt) && (cnt <=? max_str_digits) = true).
  { apply andb_true_iff. split; [apply Z.ltb_lt | apply Z.leb_le]; lia. }
  destruct Hcases as [->|[->|[->|[->|[->|[->|[->|[->|[->| ->]]]]]]]]];
    cbv beta iota zeta; rewrite Hrun, Hok; cbn [skip_space andb];
    f_equal; lia.
Qed.

(** [int(str(n))] is [n], for a number within the limit on the digits of
    a decimal literal. *)
Lemma int_str (n : Z) : Z.abs n < 10 ^ max_str_digits -> int (str n) = Some n.
Proof.
  intros Hn. unfold int.
  assert (Hascii : every (fun c => ord c <? 127) (str n) = true).
  { apply str_every; [|reflexivity]. intros c Hc. apply Z.ltb_lt. lia. }
  rewrite (code_points_ascii _ Hascii), (to_ascii_ascii _ Hascii).
  destruct n as [|p|p]; [reflexivity| |].
  all: pose proof (DecimalPos.Unsigned.to_uint_nonnil p) as Hnn.
  all: pose proof (DecimalPos.Unsigned.of_to p) as Hof.
  all: destruct (to_uint_digits p) as [Hone Hlow].
  all: pose proof (digit_run_uint (Pos.to_uint p) 0 0 ltac:(discriminate)) as Hrun.
  all: rewrite Hof in Hrun.
  all: destruct (uint_string_head (Pos.to_uint p) Hnn) as (c & r & Hs & Hc).
  all: assert (Hcnt : 0 < 0 + Z.of_nat (Decimal.nb_digits (Pos.to_uint p)) <= max_str_digits).
  all: try (split; [lia|];
            assert (Hlt : 10 ^ Z.of_nat (Decimal.nb_digits (Pos.to_uint p))
                          < 10 ^ (max_str_digits + 1))
              by (rewrite Z.pow_add_r by (unfold max_str_digits; lia);
                  change (Z.abs _) with (Z.pos p) in Hn; lia);
            apply Z.pow_lt_mono_r_iff in Hlt; unfold max_str_digits in *; lia).
  all: unfold str; cbn [Z.to_int NilZero.string_of_int];
    unfold NilZero.string_of_uint;
    destruct (Pos.to_uint p) eqn:E; try congruence.
  all: try (rewrite Hs in *; exact (long_from_string_unsigned _ _ _ _ Hc Hrun Hcnt)).
  all: cbn [list_ascii_of_string]; rewrite fmap_cons; change (ord "-"%char) with 45.
  all: rewrite Hs in *;
    exact (long_from_string_signed _ _ _ _ Hc Hrun Hcnt).
Qed.

(** X24.  The key that [add_to_cart] builds for a variant is read back
    by the cart views as the same variant, when neither the size nor the
    color holds a colon: splitting the key gives its three parts, and the
    product and the stock looked up with the first part are those looked
    up with the product's id.  The lookups need an id that [int] reads
    back, of at most the 4300 digits of a decimal literal, as every id
    taken from a URL is. *)
Theorem cart_key_reads_back (pk : Z) (talle color : string) (w : World) :
  no_colon talle = true -> no_colon color = true ->
  split ":" (cart_key pk talle color) = [str pk; talle; color]
  /\ (Z.abs pk < 10 ^ max_str_digits ->
        get_producto_or_404 (AStr (str pk)) w = get_producto_or_404 (AnInt pk) w
        /\ _variant_stock (AStr (str pk)) talle color w
           = _variant_stock (AnInt pk) talle color w).
Proof.
  intros Ht Hc. split; [|intros Hpk; split].
  - unfold split, cart_key.
    change (str pk +:+ ":" +:+ talle +:+ ":" +:+ color)
      with (str pk +:+ String ":" (talle +:+ String ":" color)).
    rewrite split_aux_part
      by (apply str_every; [apply digit_not_colon | reflexivity]).
    rewrite (split_aux_part _ _ _ _ Ht), (split_aux_last _ _ _ Hc).
    fold (String.rev (str pk)) (String.rev talle) (String.rev color).
    rewrite !rev_rev. reflexivity.
  - unfold get_producto_or_404, int_of. rewrite (int_str _ Hpk). reflexivity.
  - unfold _variant_stock, int_of. rewrite (int_str _ Hpk). reflexivity.
Qed.

(** Beyond the limit the key is not read back: [int] refuses the digits
    that [str] is taken to print. *)
Lemma int_refuses_long_literal : int (str (10 ^ max_str_digits)) = None.
Proof. vm_compute. reflexivity. Qed.

Lemma cart_key_reads_back_witness :
  split ":" (cart_key 1 "M" "Rojo") = ["1"; "M"; "Rojo"].
Proof.
  apply (cart_key_reads_back 1 "M" "Rojo" (world_of (shop 5 [] [] []) None));
    vm_compute; reflexivity.
Defined.

Lemma split_aux_nonempty (sep : ascii) (s cur : string) :
  (1 <= length (split_aux sep cur s))%nat.
Proof.
  revert cur. induction s as [|c s IH]; intros cur; cbn [split_aux].
  - simpl. lia.
  - destruct (Ascii.eqb c sep); [simpl; lia | apply IH].
Qed.

Lemma split_aux_more (sep : ascii) (s cur : string) :
  every (fun c => negb (Ascii.eqb c sep)) s = false ->
  (2 <= length (split_aux sep cur s))%nat.
Proof.
  revert cur. induction s as [|c s IH]; intros cur; cbn [split_aux every]; [discriminate|].
  destruct (Ascii.eqb c sep).
  - intros _. pose proof (split_aux_nonempty sep s ""). simpl. lia.
  - apply IH.
Qed.

Lemma split_aux_app_length (sep : ascii) (a b cur : string) :
  length (split_aux sep cur (a +:+ String sep b))
  = (length (split_aux sep cur a) + length (split sep b))%nat.
Proof.
  revert cur. induction a as [|c a IH]; intros cur;
    rewrite ?append_cons, ?append_nil; cbn [split_aux].
  - rewrite Ascii.eqb_refl. reflexivity.
  - destruct (Ascii.eqb c sep); [|apply IH].
    simpl. rewrite IH. reflexivity.
Qed.

Lemma colon_key_parts (pk : Z) (talle color : string) :
  no_colon talle && no_colon color = false ->
  (4 <= length (split ":" (cart_key pk talle color)))%nat.
Proof.
  intros H. unfold split at 1, cart_key.
  change (str pk +:+ ":" +:+ talle +:+ ":" +:+ color)
    with (str pk +:+ String ":" (talle +:+ String ":" color)).
  rewrite split_aux_app_length. unfold split at 1. rewrite split_aux_app_length.
  pose proof (split_aux_nonempty ":" (str pk) "").
  pose proof (split_aux_nonempty ":" talle "").
  pose proof (split_aux_nonempty ":" color "").
  unfold split.
  apply andb_false_iff in H as [H|H];
    pose proof (split_aux_more ":" _ "" H); lia.
Qed.

(** X25.  A size or a color that holds a colon makes a key that the cart
    page cannot read: once such an entry is in the session cart, the page
    raises instead of being rendered, and leaves the session and the
    database as they were. *)
Theorem colon_in_variant_breaks_cart (w : World) (pk q : Z) (talle color : string) :
  no_colon talle && no_colon color = false ->
  cart_of w !! cart_key pk talle color = Some q ->
  exists e, cart GET w = (Raise e, w).
Proof.
  intros Hcolon Hk.
  apply (cart_unreadable_raises w _ q Hk).
  unfold entry_stock.
  pose proof (colon_key_parts pk talle color Hcolon) as Hlen.
  destruct (split ":" (cart_key pk talle color)) as [|a [|b [|c [|d l]]]];
    try reflexivity.
  simpl in Hlen. lia.
Qed.

Lemma colon_in_variant_breaks_cart_witness :
  cart_of (snd (add_to_cart POST colon_form 1 (world_of colon_shop None)))
    !! "1:M:Azul:marino" = Some 1
  /\ exists e,
       cart GET (snd (add_to_cart POST colon_form 1 (world_of colon_shop None)))
       = (Raise e, snd (add_to_cart POST colon_form 1 (world_of colon_shop None))).
Proof.
  split; [vm_compute; reflexivity|].
  apply (colon_in_variant_breaks_cart _ 1 1 "M" "Azul:marino"); vm_compute; reflexivity.
Defined.

(** ** The buyer's order pages *)






(** ** The module [store/cart.py] *)

(** X27.  The module [store/cart.py] cannot be imported: its first import
    of the project, [from store.models import Product], asks for a name
    that [store/models.py] does not bind (the model is [Producto]), so the
    class [Cart] and its methods are never defined. *)
Theorem cart_module_does_not_import :
  import_cart = Raise (ImportError "Product")
  /\ import_from_models "Producto" = Ok tt.
Proof. split; reflexivity. Qed.

(** ** The redirect of the staff panel *)

Lemma bind_never_returns {A B : Type} (m : M A) (k : A -> M B) (w : World) :
  (forall a w1, exists e, fst (k a w1) = Raise e) ->
  exists e, fst (bind m k w) = Raise e.
Proof.
  intros H. unfold bind. destruct (m w) as [[a|e] w1]; [apply H | eexists; reflexivity].
Qed.

(** X28.  A POST to [admin_order_detail] never gets a response: the view
    raises when it looks the order up or when a write fails, and
    otherwise, refused or carried out, it ends on a redirect to
    ['store:panel_order_detail'], a route that [store/urls.py] does not
    define (the detail page of the panel is named [admin_order_detail]),
    so that [redirect] raises [NoReverseMatch]. *)
Theorem admin_order_detail_post_never_responds
    (w : World) (post : gmap string string) (pk : Z) :
  exists e, fst (admin_order_detail POST post pk w) = Raise e.
Proof.
  unfold admin_order_detail.
  apply bind_never_returns. intros pedido w1. cbv zeta.
  destruct (String.eqb _ "realizado" && negb _).
  - apply bind_never_returns. intros _ w2. cbv beta.
    rewrite redirect_panel_order_detail. eexists. reflexivity.
  - do 5 (apply bind_never_returns; intros ? ?). cbv beta.
    rewrite redirect_panel_order_detail. eexists. reflexivity.
Qed.
